(** * Tech controllers API client: cache refresh, error handling, commands

    A shallow embedding of [custom_components/tech/tech.py] (class [Tech],
    the decorator [handle_api_errors] and the exception classes) together
    with the properties of its data-refresh and caching core.

    Python values decoded from JSON are modelled by the type [json]; the
    Python operations the client applies to them ([in], indexing, [.get],
    truthiness, iteration, hashing as a dictionary key) are modelled with
    the exceptions they raise.  The client object and the network are
    threaded through a state-and-exception monad [M]; the network is an
    oracle that answers each request from the history of earlier ones.
    Concurrent calls are coroutines with their waits in place, interleaved
    by the steps of an event loop.

    The last part embeds the thermostat entity of
    [custom_components/tech/climate.py], which shows a cached zone and calls
    [set_const_temp]: [update_properties] and [async_set_temperature]. *)

From Stdlib Require Import ZArith Ascii String List Bool QArith.QArith_base QArith.Qround.
From Stdlib Require Import Floats.SpecFloat.
From stdpp Require Import gmap strings list fin_maps.

Local Open Scope string_scope.
Local Open Scope Z_scope.

Set Warnings "-register-all".

(** ** Python values *)

(** Python floats are IEEE-754 binary64 numbers. *)
Definition prec : Z := 53.
Definition emax : Z := 1024.
Definition pyfloat : Type := spec_float.

(** Values produced by the JSON decoder.  A [JObj] lists the items of a
    Python [dict]; it is read through the first binding of a key. *)
Inductive json : Type :=
| JNull
| JBool (b : bool)
| JInt (z : Z)
| JFloat (f : pyfloat)
| JStr (s : string)
| JArr (elements : list json)
| JObj (fields : list (string * json)).

(** Python exceptions that can leave the client. [TechLoginError] is a
    subclass of [TechError]; [ClientError] stands for [aiohttp.ClientError];
    [RuntimeError] is what a closed session raises; [CancelledError] is what
    a cancelled coroutine finds at the place where it was waiting. *)
Inductive exn : Type :=
| TechError (status_code : Z) (message : string)
| TechLoginError (status_code : Z) (message : string)
| ClientError (err : string)
| TimeoutError
| KeyError
| TypeError
| AttributeError
| ValueError
| OverflowError
| RuntimeError
| CancelledError.

(** [isinstance(e, TechError)] *)
Definition is_TechError (e : exn) : bool :=
  match e with
  | TechError _ _ | TechLoginError _ _ => true
  | _ => false
  end.

(** [isinstance(e, TechLoginError)] *)
Definition is_TechLoginError (e : exn) : bool :=
  match e with
  | TechLoginError _ _ => true
  | _ => false
  end.

Inductive result (A : Type) : Type :=
| Ok (a : A)
| Raise (e : exn).
Arguments Ok {A} a.
Arguments Raise {A} e.

Definition rbind {A B} (r : result A) (k : A -> result B) : result B :=
  match r with
  | Ok a => k a
  | Raise e => Raise e
  end.

(** *** Dictionary keys

    Python compares and hashes [True], [1] and [1.0] alike, so the key of a
    number is its value: an integer when it has one, a dyadic fraction with
    an odd mantissa otherwise. Lists and dicts are unhashable. *)
Inductive key : Type :=
| KNone
| KNum (z : Z)
| KFrac (s : bool) (m : positive) (e : Z)
| KInf (s : bool)
| KNaN
| KStr (s : string).

Global Instance key_eq_dec : EqDecision key.
Proof. solve_decision. Defined.

Definition key_encode (k : key)
  : unit + Z + (bool * positive * Z) + bool + unit + string :=
  match k with
  | KNone => inl (inl (inl (inl (inl tt))))
  | KNum z => inl (inl (inl (inl (inr z))))
  | KFrac s m e => inl (inl (inl (inr (s, m, e))))
  | KInf s => inl (inl (inr s))
  | KNaN => inl (inr tt)
  | KStr s => inr s
  end.

Definition key_decode (x : unit + Z + (bool * positive * Z) + bool + unit + string)
  : key :=
  match x with
  | inl (inl (inl (inl (inl _)))) => KNone
  | inl (inl (inl (inl (inr z)))) => KNum z
  | inl (inl (inl (inr (s, m, e)))) => KFrac s m e
  | inl (inl (inr s)) => KInf s
  | inl (inr _) => KNaN
  | inr s => KStr s
  end.

Global Instance key_countable : Countable key.
Proof.
  apply (inj_countable' key_encode key_decode).
  intros []; reflexivity.
Defined.

(** Drop the trailing zero bits of a mantissa while the exponent is negative. *)
Fixpoint strip_mantissa (m : positive) (e : Z) : positive * Z :=
  match m with
  | xO m' => if e <? 0 then strip_mantissa m' (e + 1) else (m, e)
  | _ => (m, e)
  end.

Definition float_key (f : pyfloat) : key :=
  match f with
  | S754_zero _ => KNum 0
  | S754_infinity s => KInf s
  | S754_nan => KNaN
  | S754_finite s m e =>
      let '(m', e') := strip_mantissa m e in
      if 0 <=? e' then KNum (cond_Zopp s (Z.shiftl (Zpos m') e'))
      else KFrac s m' e'
  end.

(** [hash(v)] as used by [d[v] = ...] and [v in d] *)
Definition py_hash (v : json) : result key :=
  match v with
  | JNull => Ok KNone
  | JBool b => Ok (KNum (Z.b2z b))
  | JInt z => Ok (KNum z)
  | JFloat f => Ok (float_key f)
  | JStr s => Ok (KStr s)
  | JArr _ | JObj _ => Raise TypeError
  end.

(** *** Operations on decoded values *)

Fixpoint dict_get (fields : list (string * json)) (k : string) : option json :=
  match fields with
  | [] => None
  | (k', v) :: rest => if String.eqb k' k then Some v else dict_get rest k
  end.

(** [bool(v)] *)
Definition truthy (v : json) : bool :=
  match v with
  | JNull => false
  | JBool b => b
  | JInt z => negb (z =? 0)
  | JFloat (S754_zero _) => false
  | JFloat _ => true
  | JStr s => negb (String.eqb s "")
  | JArr l => match l with [] => false | _ => true end
  | JObj l => match l with [] => false | _ => true end
  end.

Definition is_substring (k s : string) : bool :=
  match String.index 0 k s with
  | Some _ => true
  | None => false
  end.

Definition is_str (k : string) (v : json) : bool :=
  match v with
  | JStr s => String.eqb s k
  | _ => false
  end.

(** [k in v] for a string [k] *)
Definition py_in (k : string) (v : json) : result bool :=
  match v with
  | JObj fields => Ok (match dict_get fields k with Some _ => true | None => false end)
  | JArr l => Ok (existsb (is_str k) l)
  | JStr s => Ok (is_substring k s)
  | _ => Raise TypeError
  end.

(** [v[k]] for a string [k] *)
Definition py_getitem (v : json) (k : string) : result json :=
  match v with
  | JObj fields =>
      match dict_get fields k with
      | Some x => Ok x
      | None => Raise KeyError
      end
  | _ => Raise TypeError
  end.

(** [v.get(k, default)] *)
Definition py_get (v : json) (k : string) (default : json) : result json :=
  match v with
  | JObj fields =>
      match dict_get fields k with
      | Some x => Ok x
      | None => Ok default
      end
  | _ => Raise AttributeError
  end.

Fixpoint string_chars (s : string) : list json :=
  match s with
  | EmptyString => []
  | String c rest => JStr (String c EmptyString) :: string_chars rest
  end.

(** the items visited by [for x in v] *)
Definition py_iter (v : json) : result (list json) :=
  match v with
  | JArr l => Ok l
  | JObj fields => Ok (map (fun kv => JStr (fst kv)) fields)
  | JStr s => Ok (string_chars s)
  | _ => Raise TypeError
  end.

(** [v != k] for a string [k] *)
Definition py_ne_str (v : json) (k : string) : bool := negb (is_str k v).

(** *** Numbers passed as a target temperature *)

Inductive pynum : Type :=
| PyInt (z : Z)
| PyFloat (f : pyfloat).

(** the float [10.0], which [10] is converted to: [5629499534213120 * 2^-49] *)
Definition float_ten : pyfloat := S754_finite false 5629499534213120 (-49).

(** the float [21.5]: [6051711999279104 * 2^-48] *)
Definition float_21_5 : pyfloat := S754_finite false 6051711999279104 (-48).

(** [x * 10] *)
Definition py_mul_10 (x : pynum) : pynum :=
  match x with
  | PyInt z => PyInt (z * 10)
  | PyFloat f => PyFloat (SFmul prec emax f float_ten)
  end.

(** [int(x)]: truncation toward zero; infinities and NaN raise. *)
Definition py_int (x : pynum) : result Z :=
  match x with
  | PyInt z => Ok z
  | PyFloat (S754_zero _) => Ok 0
  | PyFloat (S754_infinity _) => Raise OverflowError
  | PyFloat S754_nan => Raise ValueError
  | PyFloat (S754_finite s m e) => Ok (cond_Zopp s (Z.shiftl (Zpos m) e))
  end.


(** ** The client object and the network *)

Inductive http_method : Type := GET | POST.

Record request : Type := {
  req_method : http_method;
  req_url : string;
  req_headers : gmap string string;
  req_timeout : Z;
  req_data : option json }.

(** What [await response.json()] does for a response of status 200. *)
Inductive body_outcome : Type :=
| BodyJson (j : json)
| BodyDecodeError (err : string)
| BodyClientError (err : string).

(** What the session does with a request: a response with its status and
    text, an [aiohttp.ClientError], a timeout, [RuntimeError] because the
    session is closed, or [TypeError] because it cannot make a request body
    of the data (the client passes a dict as JSON text and any other value
    as it is). *)
Inductive net_outcome : Type :=
| NetResponse (status : Z) (text : string) (body : body_outcome)
| NetClientError (err : string)
| NetTimeout
| NetSessionClosed
| NetTypeError.

(** The surroundings of the client: the server answers a request from the
    requests sent before it; [clock n] is what the [n]-th call of
    [time.time()] returns; [py_str] is Python's [str] on a decoded value;
    [TECH_SUPPORTED_LANGUAGES] is the constant of [const.py]. *)
Record Env : Type := {
  transport : list request -> request -> net_outcome;
  clock : nat -> pyfloat;
  py_str : json -> string;
  TECH_SUPPORTED_LANGUAGES : list string }.

(** [self.modules[udid]] *)
Record module_record : Type := {
  last_update : option pyfloat;
  zones : gmap key json;
  tiles : gmap key json }.

Record Tech : Type := {
  base_url : string;
  headers : gmap string string;
  user_id : option string;
  token : json;
  authenticated : json;
  self_last_update : option pyfloat;
  modules : gmap string module_record }.

(** The client, the requests handed so far to its session, the number of
    clock readings so far, whether the session is closed, and whether
    [update_lock] is held. *)
Record world : Type := {
  self : Tech;
  sent : list request;
  ticks : nat;
  session_closed : bool;
  update_lock : bool }.

Definition with_self (f : Tech -> Tech) (w : world) : world :=
  {| self := f (self w); sent := sent w; ticks := ticks w;
     session_closed := session_closed w; update_lock := update_lock w |}.

Definition with_modules (f : gmap string module_record -> gmap string module_record)
  (t : Tech) : Tech :=
  {| base_url := base_url t; headers := headers t; user_id := user_id t;
     token := token t; authenticated := authenticated t;
     self_last_update := self_last_update t; modules := f (modules t) |}.

Definition with_zones (f : gmap key json -> gmap key json) (r : module_record)
  : module_record :=
  {| last_update := last_update r; zones := f (zones r); tiles := tiles r |}.

Definition with_tiles (f : gmap key json -> gmap key json) (r : module_record)
  : module_record :=
  {| last_update := last_update r; zones := zones r; tiles := f (tiles r) |}.

Definition with_last_update (t : option pyfloat) (r : module_record) : module_record :=
  {| last_update := t; zones := zones r; tiles := tiles r |}.

Definition empty_module : module_record :=
  {| last_update := None; zones := ∅; tiles := ∅ |}.

(** ** The monad: state of the world and Python exceptions *)

Definition M (A : Type) : Type := world -> result A * world.

Definition ret {A} (a : A) : M A := fun w => (Ok a, w).
Definition raise {A} (e : exn) : M A := fun w => (Raise e, w).
Definition lift {A} (r : result A) : M A := fun w => (r, w).

Definition bind {A B} (m : M A) (k : A -> M B) : M B :=
  fun w =>
    match m w with
    | (Ok a, w') => k a w'
    | (Raise e, w') => (Raise e, w')
    end.

Declare Scope tech_scope.
Delimit Scope tech_scope with tech.
Notation "x <- m ;; k" := (bind m (fun x => k))
  (at level 100, m at next level, right associativity) : tech_scope.
Notation "m ;;; k" := (bind m (fun _ => k))
  (at level 100, right associativity) : tech_scope.
Notation "x <~ r ;; k" := (rbind r (fun x => k))
  (at level 100, r at next level, right associativity) : tech_scope.
Local Open Scope tech_scope.

(** [try: m  except ...: h]: the handler picks the exceptions it catches. *)
Definition try_except {A} (m : M A) (h : exn -> option (M A)) : M A :=
  fun w =>
    match m w with
    | (Raise e, w') =>
        match h e with
        | Some k => k w'
        | None => (Raise e, w')
        end
    | r => r
    end.

(** [try: m  finally: f] *)
Definition try_finally {A} (m : M A) (f : world -> world) : M A :=
  fun w => let '(r, w') := m w in (r, f w').

Definition get_self : M Tech := fun w => (Ok (self w), w).
Definition modify_self (f : Tech -> Tech) : M unit := fun w => (Ok tt, with_self f w).

(** [for x in l: body] *)
Fixpoint for_each {A} (body : A -> M unit) (l : list A) : M unit :=
  match l with
  | [] => ret tt
  | x :: rest => body x ;;; for_each body rest
  end.

(** [[x for x in l if p x]] where the test may raise *)
Fixpoint filter_r {A} (p : A -> result bool) (l : list A) : result (list A) :=
  match l with
  | [] => Ok []
  | x :: rest =>
      b <~ p x ;;
      rest' <~ filter_r p rest ;;
      Ok (if b : bool then x :: rest' else rest')
  end.

(** [time.time()] *)
Definition time_time (E : Env) : M pyfloat :=
  fun w => (Ok (clock E (ticks w)),
            {| self := self w; sent := sent w; ticks := S (ticks w);
               session_closed := session_closed w; update_lock := update_lock w |}).

(** What the session does with a request handed to it in the world [w]: a
    session that has been closed refuses every request; an open one does
    what [transport] says. *)
Definition session_answer (E : Env) (w : world) (req : request) : net_outcome :=
  if session_closed w then NetSessionClosed else transport E (sent w) req.

(** [async with getattr(self.session, method.lower())(url, ...) as response]:
    the request is handed to the session, and the server's answer comes back
    or the session raises. *)
Definition session_request (E : Env) (req : request) : M (Z * string * body_outcome) :=
  fun w =>
    let w' := {| self := self w; sent := sent w ++ [req]; ticks := ticks w;
                 session_closed := session_closed w; update_lock := update_lock w |} in
    match session_answer E w req with
    | NetResponse status text body => (Ok (status, text, body), w')
    | NetClientError err => (Raise (ClientError err), w')
    | NetTimeout => (Raise TimeoutError, w')
    | NetSessionClosed => (Raise RuntimeError, w')
    | NetTypeError => (Raise TypeError, w')
    end.

Definition set_lock (b : bool) (w : world) : world :=
  {| self := self w; sent := sent w; ticks := ticks w;
     session_closed := session_closed w; update_lock := b |}.

(** [async with self.update_lock: body].  In a sequential run the lock is
    free on entry; it is released however the body ends. *)
Definition async_with_update_lock {A} (body : M A) : M A :=
  fun w => try_finally body (set_lock false) (set_lock true w).

(** ** Strings of the client *)

Fixpoint lstrip_slash (s : string) : string :=
  match s with
  | String c rest => if Ascii.eqb c "/"%char then lstrip_slash rest else s
  | EmptyString => s
  end.

Fixpoint rstrip_slash (s : string) : string :=
  match s with
  | EmptyString => EmptyString
  | String c rest =>
      match rstrip_slash rest with
      | EmptyString => if Ascii.eqb c "/"%char then EmptyString else String c EmptyString
      | r => String c r
      end
  end.

(** how an f-string prints [self.user_id] *)
Definition fmt_user_id (u : option string) : string :=
  match u with
  | Some s => s
  | None => "None"
  end.

Definition truthy_str (o : option string) : bool :=
  match o with
  | Some s => negb (String.eqb s "")
  | None => false
  end.

(** ** The client *)

Definition TECH_API_URL : string := "https://emodul.eu/api/v1/".
Definition DEFAULT_TIMEOUT : Z := 30.
Definition DEFAULT_HEADERS : gmap string string :=
  <["Accept" := "application/json"]>
    (<["Accept-Encoding" := "gzip"]>
       (<["Content-Type" := "application/json"]> ∅)).

(** [Tech.__init__(session, user_id, token, base_url)] *)
Definition __init__ (user_id token : option string) (base_url : string) : Tech :=
  let base := rstrip_slash base_url ++ "/" in
  if truthy_str user_id && truthy_str token then
    {| base_url := base;
       headers :=
         <["Authorization" := "Bearer " ++ match token with Some t => t | None => "" end]>
           DEFAULT_HEADERS;
       user_id := user_id;
       token := match token with Some t => JStr t | None => JNull end;
       authenticated := JBool true;
       self_last_update := None;
       modules := ∅ |}
  else
    {| base_url := base;
       headers := DEFAULT_HEADERS;
       user_id := None;
       token := JNull;
       authenticated := JBool false;
       self_last_update := None;
       modules := ∅ |}.

(** A client that has just been constructed on an open session. *)
Definition new_world (t : Tech) : world :=
  {| self := t; sent := []; ticks := 0; session_closed := false; update_lock := false |}.

Section Client.
Context (E : Env).

(** [Tech._make_request] *)
Definition _make_request (method : http_method) (path : string) (data : option json)
  : M json :=
  self <- get_self ;;
  let url := base_url self ++ lstrip_slash path in
  try_except
    (response <- session_request E
       {| req_method := method; req_url := url; req_headers := headers self;
          req_timeout := DEFAULT_TIMEOUT; req_data := data |} ;;
     let '(status, response_text, body) := response in
     if negb (status =? 200) then raise (TechError status response_text)
     else
       match body with
       | BodyJson j => ret j
       | BodyDecodeError err => raise (TechError 500 ("Invalid JSON response: " ++ err))
       | BodyClientError err => raise (ClientError err)
       end)
    (fun e =>
       match e with
       | ClientError err => Some (raise (TechError 500 ("HTTP client error: " ++ err)))
       | _ => None
       end).

(** The decorator [handle_api_errors], applied to a method of name [name]. *)
Definition handle_api_errors {A} (name : string) (func : M A) : M A :=
  self <- get_self ;;
  if negb (truthy (authenticated self))
     && negb (existsb (String.eqb name) ["authenticate"])
  then raise (TechError 401 "Not authenticated")
  else
    try_except func
      (fun e =>
         match e with
         | ClientError err => Some (raise (TechError 500 ("HTTP client error: " ++ err)))
         | TimeoutError => Some (raise (TechError 408 "Request timeout"))
         | _ => None
         end).

Definition get (path : string) : M json :=
  handle_api_errors "get" (_make_request GET path None).

(** [data] as [_make_request] takes it: Python's [None] stands for no
    body. *)
Definition optional (data : json) : option json :=
  match data with
  | JNull => None
  | _ => Some data
  end.

Definition post (path : string) (data : json) : M json :=
  handle_api_errors "post" (_make_request POST path (optional data)).

Definition set_authenticated (v : json) (t : Tech) : Tech :=
  {| base_url := base_url t; headers := headers t; user_id := user_id t;
     token := token t; authenticated := v;
     self_last_update := self_last_update t; modules := modules t |}.

Definition set_user_id (u : string) (t : Tech) : Tech :=
  {| base_url := base_url t; headers := headers t; user_id := Some u;
     token := token t; authenticated := authenticated t;
     self_last_update := self_last_update t; modules := modules t |}.

Definition set_token (v : json) (t : Tech) : Tech :=
  {| base_url := base_url t; headers := headers t; user_id := user_id t;
     token := v; authenticated := authenticated t;
     self_last_update := self_last_update t; modules := modules t |}.

Definition set_header (k v : string) (t : Tech) : Tech :=
  {| base_url := base_url t; headers := <[k := v]> (headers t); user_id := user_id t;
     token := token t; authenticated := authenticated t;
     self_last_update := self_last_update t; modules := modules t |}.

(** [Tech.authenticate]; it returns [self.authenticated]. *)
Definition authenticate (username password : string) : M json :=
  let auth_data := JObj [("username", JStr username); ("password", JStr password)] in
  try_except
    (result <- _make_request POST "authentication" (Some auth_data) ;;
     a <- lift (py_get result "authenticated" (JBool false)) ;;
     modify_self (set_authenticated a) ;;;
     if truthy a then
       uid <- lift (py_getitem result "user_id") ;;
       modify_self (set_user_id (py_str E uid)) ;;;
       tok <- lift (py_getitem result "token") ;;
       modify_self (set_token tok) ;;;
       modify_self (set_header "Authorization" ("Bearer " ++ py_str E tok))
     else ret tt)
    (fun e =>
       if is_TechError e
       then Some (raise (TechLoginError 401 "Login failed: Authentication failed"))
       else None) ;;;
  self <- get_self ;;
  ret (authenticated self).

Definition list_modules : M json :=
  handle_api_errors "list_modules"
    (self <- get_self ;;
     get ("users/" ++ fmt_user_id (user_id self) ++ "/modules")).

Definition get_module_data (module_udid : string) : M json :=
  handle_api_errors "get_module_data"
    (self <- get_self ;;
     get ("users/" ++ fmt_user_id (user_id self) ++ "/modules/" ++ module_udid)).

Definition get_translations (language : string) : M json :=
  handle_api_errors "get_translations"
    (let language :=
       if existsb (String.eqb language) (TECH_SUPPORTED_LANGUAGES E)
       then language else "en" in
     get ("i18n/" ++ language)).

(** [Tech._initialize_module_data] *)
Definition _initialize_module_data (module_udid : string) : M unit :=
  modify_self (with_modules (fun ms =>
    match ms !! module_udid with
    | Some _ => ms
    | None => <[module_udid := empty_module]> ms
    end)).

Definition is_None (v : json) : bool :=
  match v with
  | JNull => true
  | _ => false
  end.

(** The condition of the comprehension in [_filter_zones], with the
    short-circuit evaluation of [and]. *)
Definition zone_test (zone : json) : result bool :=
  if is_None zone then Ok false
  else
    has_zone <~ py_in "zone" zone ;;
    if negb has_zone then Ok false
    else
      z <~ py_getitem zone "zone" ;;
      if is_None z then Ok false
      else
        has_visibility <~ py_in "visibility" z ;;
        if negb has_visibility then Ok false
        else
          state <~ py_get z "zoneState" JNull ;;
          Ok (py_ne_str state "zoneUnregistered").

(** [Tech._filter_zones] *)
Definition _filter_zones (zones : json) : result (list json) :=
  items <~ py_iter zones ;;
  filter_r zone_test items.

Definition tile_test (tile : json) : result bool :=
  v <~ py_get tile "visibility" (JBool false) ;;
  Ok (truthy v).

(** [Tech._filter_tiles] *)
Definition _filter_tiles (tiles : json) : result (list json) :=
  items <~ py_iter tiles ;;
  filter_r tile_test items.

(** [self.modules[module_udid]] *)
Definition module_entry (module_udid : string) : M module_record :=
  self <- get_self ;;
  match modules self !! module_udid with
  | Some r => ret r
  | None => raise KeyError
  end.

(** [self.modules[module_udid]["zones"][zone_id] = zone] *)
Definition store_zone (module_udid : string) (zone_id zone : json) : M unit :=
  _ <- module_entry module_udid ;;
  k <- lift (py_hash zone_id) ;;
  modify_self (with_modules (alter (with_zones <[k := zone]>) module_udid)).

(** [self.modules[module_udid]["tiles"][tile_id] = tile] *)
Definition store_tile (module_udid : string) (tile_id tile : json) : M unit :=
  _ <- module_entry module_udid ;;
  k <- lift (py_hash tile_id) ;;
  modify_self (with_modules (alter (with_tiles <[k := tile]>) module_udid)).

(** the loop [for zone in filtered_zones: ...] *)
Definition merge_zones (module_udid : string) (filtered_zones : list json) : M unit :=
  for_each
    (fun zone =>
       z <- lift (py_getitem zone "zone") ;;
       zone_id <- lift (py_getitem z "id") ;;
       store_zone module_udid zone_id zone)
    filtered_zones.

(** the loop [for tile in filtered_tiles: ...] *)
Definition merge_tiles (module_udid : string) (filtered_tiles : list json) : M unit :=
  for_each
    (fun tile =>
       tile_id <- lift (py_getitem tile "id") ;;
       store_tile module_udid tile_id tile)
    filtered_tiles.

(** [result.get("zones", {}).get("elements", [])] *)
Definition zones_elements (payload : json) : result json :=
  zs <~ py_get payload "zones" (JObj []) ;;
  py_get zs "elements" (JArr []).

(** [self.modules[module_udid]["zones"]] *)
Definition cached_zones (module_udid : string) : M (gmap key json) :=
  r <- module_entry module_udid ;; ret (zones r).

(** [self.modules[module_udid]["tiles"]] *)
Definition cached_tiles (module_udid : string) : M (gmap key json) :=
  r <- module_entry module_udid ;; ret (tiles r).

Definition get_module_zones (module_udid : string) : M (gmap key json) :=
  handle_api_errors "get_module_zones"
    (_initialize_module_data module_udid ;;;
     result <- get_module_data module_udid ;;
     zones <- lift (zones_elements result) ;;
     if negb (truthy zones) then
       cached_zones module_udid
     else
       filtered_zones <- lift (_filter_zones zones) ;;
       merge_zones module_udid filtered_zones ;;;
       cached_zones module_udid).

Definition get_module_tiles (module_udid : string) : M (gmap key json) :=
  handle_api_errors "get_module_tiles"
    (_initialize_module_data module_udid ;;;
     result <- get_module_data module_udid ;;
     tiles <- lift (py_get result "tiles" (JArr [])) ;;
     if negb (truthy tiles) then
       cached_tiles module_udid
     else
       filtered_tiles <- lift (_filter_tiles tiles) ;;
       merge_tiles module_udid filtered_tiles ;;;
       cached_tiles module_udid).

(** [self.modules[module_udid]["last_update"] = now] *)
Definition store_last_update (module_udid : string) (now : pyfloat) : M unit :=
  _ <- module_entry module_udid ;;
  modify_self (with_modules (alter (with_last_update (Some now)) module_udid)).

Definition module_data (module_udid : string) : M module_record :=
  handle_api_errors "module_data"
    (async_with_update_lock
       (now <- time_time E ;;
        _initialize_module_data module_udid ;;;
        result <- get_module_data module_udid ;;
        zones <- lift (zones_elements result) ;;
        (if truthy zones then
           filtered_zones <- lift (_filter_zones zones) ;;
           merge_zones module_udid filtered_zones
         else ret tt) ;;;
        tiles <- lift (py_get result "tiles" (JArr [])) ;;
        (if truthy tiles then
           filtered_tiles <- lift (_filter_tiles tiles) ;;
           merge_tiles module_udid filtered_tiles
         else ret tt) ;;;
        store_last_update module_udid now ;;;
        module_entry module_udid)).

Definition get_zone (module_udid : string) (zone_id : Z) : M json :=
  get_module_zones module_udid ;;;
  cache <- cached_zones module_udid ;;
  match cache !! KNum zone_id with
  | None => raise KeyError
  | Some zone => ret zone
  end.

Definition get_tile (module_udid : string) (tile_id : Z) : M json :=
  get_module_tiles module_udid ;;;
  cache <- cached_tiles module_udid ;;
  match cache !! KNum tile_id with
  | None => raise KeyError
  | Some tile => ret tile
  end.

Definition set_const_temp (module_udid : string) (zone_id : Z) (target_temp : pynum)
  : M json :=
  handle_api_errors "set_const_temp"
    (get_module_zones module_udid ;;;
     cache <- cached_zones module_udid ;;
     match cache !! KNum zone_id with
     | None => raise KeyError
     | Some zone_data =>
         self <- get_self ;;
         let path :=
           "users/" ++ fmt_user_id (user_id self) ++ "/modules/" ++ module_udid ++ "/zones" in
         mode <- lift (py_getitem zone_data "mode") ;;
         mode_id <- lift (py_getitem mode "id") ;;
         set_temperature <- lift (py_int (py_mul_10 target_temp)) ;;
         let data :=
           JObj [("mode",
                  JObj [("id", mode_id);
                        ("parentId", JInt zone_id);
                        ("mode", JStr "constantTemp");
                        ("constTempTime", JInt 60);
                        ("setTemperature", JInt set_temperature);
                        ("scheduleIndex", JInt 0)])] in
         post path data
     end).

Definition set_zone (module_udid : string) (zone_id : Z) (on : bool) : M json :=
  handle_api_errors "set_zone"
    (let zone_state := if on then "zoneOn" else "zoneOff" in
     self <- get_self ;;
     let path :=
       "users/" ++ fmt_user_id (user_id self) ++ "/modules/" ++ module_udid ++ "/zones" in
     let data := JObj [("zone", JObj [("id", JInt zone_id); ("zoneState", JStr zone_state)])] in
     post path data).

(** [self.authenticated and self.token is not None] *)
Definition is_authenticated : M json :=
  self <- get_self ;;
  ret (if truthy (authenticated self) then JBool (negb (is_None (token self)))
       else authenticated self).

Definition get_module_last_update (module_udid : string) : M (option pyfloat) :=
  self <- get_self ;;
  ret (match modules self !! module_udid with
       | Some r => last_update r
       | None => None
       end).

Definition clear_module_cache (module_udid : option string) : M unit :=
  match module_udid with
  | Some udid =>
      if truthy_str module_udid then
        modify_self (with_modules (fun ms =>
          match ms !! udid with
          | Some _ => <[udid := empty_module]> ms
          | None => ms
          end))
      else modify_self (with_modules (fun _ => ∅))
  | None => modify_self (with_modules (fun _ => ∅))
  end.

Definition close : M unit :=
  fun w =>
    if negb (session_closed w) then
      (Ok tt, {| self := self w; sent := sent w; ticks := ticks w;
                 session_closed := true; update_lock := update_lock w |})
    else (Ok tt, w).

End Client.

(** ** The methods of the client as one type of calls *)

(** Every method of [Tech] other than [authenticate], with its arguments. *)
Inductive call : Type :=
| CallGet (path : string)
| CallPost (path : string) (data : json)
| CallListModules
| CallGetModuleData (module_udid : string)
| CallGetTranslations (language : string)
| CallGetModuleZones (module_udid : string)
| CallGetModuleTiles (module_udid : string)
| CallModuleData (module_udid : string)
| CallGetZone (module_udid : string) (zone_id : Z)
| CallGetTile (module_udid : string) (tile_id : Z)
| CallSetConstTemp (module_udid : string) (zone_id : Z) (target_temp : pynum)
| CallSetZone (module_udid : string) (zone_id : Z) (on : bool)
| CallIsAuthenticated
| CallGetModuleLastUpdate (module_udid : string)
| CallClearModuleCache (module_udid : option string)
| CallClose.

(** The methods wrapped by [@handle_api_errors]. *)
Definition decorated (c : call) : bool :=
  match c with
  | CallGet _ | CallPost _ _ | CallListModules | CallGetModuleData _
  | CallGetTranslations _ | CallGetModuleZones _ | CallGetModuleTiles _
  | CallModuleData _ | CallSetConstTemp _ _ _ | CallSetZone _ _ _ => true
  | _ => false
  end.

(** Forget the value a call returns; keep whether and what it raised. *)
Definition void {A} (m : M A) : M unit :=
  fun w =>
    match m w with
    | (Ok _, w') => (Ok tt, w')
    | (Raise e, w') => (Raise e, w')
    end.

Definition run_call (E : Env) (c : call) : M unit :=
  match c with
  | CallGet path => void (get E path)
  | CallPost path data => void (post E path data)
  | CallListModules => void (list_modules E)
  | CallGetModuleData m => void (get_module_data E m)
  | CallGetTranslations l => void (get_translations E l)
  | CallGetModuleZones m => void (get_module_zones E m)
  | CallGetModuleTiles m => void (get_module_tiles E m)
  | CallModuleData m => void (module_data E m)
  | CallGetZone m z => void (get_zone E m z)
  | CallGetTile m z => void (get_tile E m z)
  | CallSetConstTemp m z t => void (set_const_temp E m z t)
  | CallSetZone m z on => void (set_zone E m z on)
  | CallIsAuthenticated => void is_authenticated
  | CallGetModuleLastUpdate m => void (get_module_last_update m)
  | CallClearModuleCache m => void (clear_module_cache m)
  | CallClose => void close
  end.

(** The world after a sequence of calls, whatever each of them raised. *)
Definition run_calls (E : Env) (cs : list call) (w : world) : world :=
  fold_left (fun w c => snd (run_call E c w)) cs w.

(** The credentials of the session. *)
Definition credentials (w : world) : option string * json * json :=
  (user_id (self w), token (self w), authenticated (self w)).

(** [self.modules[m]["zones"]] and [self.modules[m]["tiles"]], empty when the
    module has no record. *)
Definition zones_of (w : world) (m : string) : gmap key json :=
  match modules (self w) !! m with
  | Some r => zones r
  | None => ∅
  end.

Definition tiles_of (w : world) (m : string) : gmap key json :=
  match modules (self w) !! m with
  | Some r => tiles r
  | None => ∅
  end.

Definition last_update_of (w : world) (m : string) : option pyfloat :=
  match modules (self w) !! m with
  | Some r => last_update r
  | None => None
  end.

(** ** Relations between the world before and after a computation *)

(** [R] holds between every world and the world the computation leaves,
    whether it returns or raises. *)
Definition respects {A} (R : world -> world -> Prop) (m : M A) : Prop :=
  forall w, R w (snd (m w)).

Definition same_credentials (w w' : world) : Prop := credentials w' = credentials w.

(** ** Concrete surroundings used in examples *)

(** A server that answers every request with status 200 and the body [p]. *)
Definition constant_env (p : json) : Env :=
  {| transport := fun _ _ => NetResponse 200 "" (BodyJson p);
     clock := fun _ => S754_zero false;
     py_str := fun v => match v with JStr s => s | _ => "" end;
     TECH_SUPPORTED_LANGUAGES := ["en"; "pl"] |}.

(** A server that answers every request with the status [status]. *)
Definition status_env (status : Z) : Env :=
  {| transport := fun _ _ => NetResponse status "" (BodyDecodeError "");
     clock := fun _ => S754_zero false;
     py_str := fun v => match v with JStr s => s | _ => "" end;
     TECH_SUPPORTED_LANGUAGES := ["en"; "pl"] |}.

(** A client constructed without credentials, and one constructed with them. *)
Definition fresh_world : world := new_world (__init__ None None TECH_API_URL).
Definition logged_world : world :=
  new_world (__init__ (Some "17") (Some "secret") TECH_API_URL).

(** ** What a request does, in closed form *)

(** The request [_make_request] builds from the client object. *)
Definition mk_request (t : Tech) (method : http_method) (path : string)
  (data : option json) : request :=
  {| req_method := method; req_url := base_url t ++ lstrip_slash path;
     req_headers := headers t; req_timeout := DEFAULT_TIMEOUT; req_data := data |}.

Definition log_request (req : request) (w : world) : world :=
  {| self := self w; sent := sent w ++ [req]; ticks := ticks w;
     session_closed := session_closed w; update_lock := update_lock w |}.

(** What [_make_request] returns or raises for an answer of the session. *)
Definition request_result (o : net_outcome) : result json :=
  match o with
  | NetResponse status text body =>
      if negb (status =? 200) then Raise (TechError status text)
      else
        match body with
        | BodyJson j => Ok j
        | BodyDecodeError err => Raise (TechError 500 ("Invalid JSON response: " ++ err))
        | BodyClientError err => Raise (TechError 500 ("HTTP client error: " ++ err))
        end
  | NetClientError err => Raise (TechError 500 ("HTTP client error: " ++ err))
  | NetTimeout => Raise TimeoutError
  | NetSessionClosed => Raise RuntimeError
  | NetTypeError => Raise TypeError
  end.

(** The same seen through [handle_api_errors]: a timeout becomes status 408. *)
Definition guarded_result (o : net_outcome) : result json :=
  match request_result o with
  | Raise TimeoutError => Raise (TechError 408 "Request timeout")
  | r => r
  end.

(** ** Rejected logins *)

(** The request [authenticate] sends. *)
Definition auth_request (t : Tech) (username password : string) : request :=
  mk_request t POST "authentication"
    (Some (JObj [("username", JStr username); ("password", JStr password)])).

(** The server rejects a login by a status other than 200, or by a body of
    status 200 whose [authenticated] is absent or false. *)
Definition rejected (o : net_outcome) : bool :=
  match o with
  | NetResponse status _ body =>
      if status =? 200 then
        match body with
        | BodyJson (JObj fields) =>
            negb (truthy (match dict_get fields "authenticated" with
                          | Some v => v
                          | None => JBool false
                          end))
        | _ => false
        end
      else true
  | _ => false
  end.

Definition status_of (o : net_outcome) : option Z :=
  match o with
  | NetResponse status _ _ => Some status
  | _ => None
  end.

(** The timestamps of all modules are as before. *)
Definition same_last_update (w w' : world) : Prop :=
  forall m, last_update_of w' m = last_update_of w m.

(** The timestamp of each module is as before or has been reset to [None]. *)
Definition no_new_stamp (w w' : world) : Prop :=
  forall m, last_update_of w' m = last_update_of w m \/ last_update_of w' m = None.

(** ** A refresh in closed form *)

(** The request of [get_module_data]. *)
Definition module_request (t : Tech) (module_udid : string) : request :=
  mk_request t GET ("users/" ++ fmt_user_id (user_id t) ++ "/modules/" ++ module_udid) None.

(** The session's answer to the module request sent from the world [w]. *)
Definition fetched (E : Env) (w : world) (module_udid : string) : net_outcome :=
  session_answer E w (module_request (self w) module_udid).

(** The record of a module, the empty one when it has none yet. *)
Definition module_or_empty (w : world) (module_udid : string) : module_record :=
  match modules (self w) !! module_udid with
  | Some r => r
  | None => empty_module
  end.

Definition put_module (module_udid : string) (r : module_record) (w : world) : world :=
  with_self (with_modules <[module_udid := r]>) w.

Definition tick (w : world) : world :=
  {| self := self w; sent := sent w; ticks := S (ticks w);
     session_closed := session_closed w; update_lock := update_lock w |}.

(** [zone["zone"]["id"]] as a dictionary key *)
Definition zone_key (zone : json) : result key :=
  z <~ py_getitem zone "zone" ;;
  zone_id <~ py_getitem z "id" ;;
  py_hash zone_id.

(** [tile["id"]] as a dictionary key *)
Definition tile_key (tile : json) : result key :=
  tile_id <~ py_getitem tile "id" ;;
  py_hash tile_id.

(** The writes a merge loop performs, in order, and the exception that stops
    it, if any. *)
Fixpoint merge_plan (key_of : json -> result key) (l : list json)
  : list (key * json) * option exn :=
  match l with
  | [] => ([], None)
  | x :: rest =>
      match key_of x with
      | Raise e => ([], Some e)
      | Ok k => let '(ws, e) := merge_plan key_of rest in ((k, x) :: ws, e)
      end
  end.

(** [for (k, v) in ws: cache[k] = v] *)
Definition apply_writes (ws : list (key * json)) (cache : gmap key json) : gmap key json :=
  foldl (fun c kv => <[fst kv := snd kv]> c) cache ws.

(** The last value written under [k], if any. *)
Fixpoint last_write (ws : list (key * json)) (k : key) : option json :=
  match ws with
  | [] => None
  | (k', v) :: rest =>
      match last_write rest k with
      | Some v' => Some v'
      | None => if decide (k' = k) then Some v else None
      end
  end.

(** What a refresh does with the zones of the payload [p]. *)
Definition zones_plan (p : json) : list (key * json) * option exn :=
  match zones_elements p with
  | Raise e => ([], Some e)
  | Ok zs =>
      if truthy zs then
        match _filter_zones zs with
        | Raise e => ([], Some e)
        | Ok filtered => merge_plan zone_key filtered
        end
      else ([], None)
  end.

(** What a refresh does with the tiles of the payload [p]. *)
Definition tiles_plan (p : json) : list (key * json) * option exn :=
  match py_get p "tiles" (JArr []) with
  | Raise e => ([], Some e)
  | Ok ts =>
      if truthy ts then
        match _filter_tiles ts with
        | Raise e => ([], Some e)
        | Ok filtered => merge_plan tile_key filtered
        end
      else ([], None)
  end.

(** The record of the module after [module_data] has processed the payload
    [p] at time [now], and what the method returns or raises. *)
Definition refreshed (p : json) (now : pyfloat) (r0 : module_record)
  : result module_record * module_record :=
  let zp := zones_plan p in
  let r1 := with_zones (apply_writes (fst zp)) r0 in
  match snd zp with
  | Some e => (Raise e, r1)
  | None =>
      let tp := tiles_plan p in
      let r2 := with_tiles (apply_writes (fst tp)) r1 in
      match snd tp with
      | Some e => (Raise e, r2)
      | None =>
          let r3 := with_last_update (Some now) r2 in
          (Ok r3, r3)
      end
  end.

(** Exceptions raised by the session, which [handle_api_errors] translates. *)
Definition is_network_exn (e : exn) : bool :=
  match e with
  | ClientError _ | TimeoutError => true
  | _ => false
  end.

(** The ids carried by the zone records and by the tiles of a payload. *)
Definition ok_keys (key_of : json -> result key) (items : list json) : list key :=
  omap (fun x => match key_of x with Ok k => Some k | Raise _ => None end) items.

Definition payload_zone_ids (p : json) : list key :=
  match zones_elements p with
  | Ok zs => match py_iter zs with Ok items => ok_keys zone_key items | Raise _ => [] end
  | Raise _ => []
  end.

Definition payload_tile_ids (p : json) : list key :=
  match py_get p "tiles" (JArr []) with
  | Ok ts => match py_iter ts with Ok items => ok_keys tile_key items | Raise _ => [] end
  | Raise _ => []
  end.

(** What a merge loop returns or raises. *)
Definition plan_result (plan : list (key * json) * option exn) : result unit :=
  match snd plan with
  | Some e => Raise e
  | None => Ok tt
  end.

(** ** Monotonic merge *)

(** The ids carried by the payload the server returns to the module request
    sent from [w]; none when the request fails. *)
Definition fetched_zone_ids (E : Env) (w : world) (module_udid : string) : list key :=
  match guarded_result (fetched E w module_udid) with
  | Ok p => payload_zone_ids p
  | Raise _ => []
  end.

Definition fetched_tile_ids (E : Env) (w : world) (module_udid : string) : list key :=
  match guarded_result (fetched E w module_udid) with
  | Ok p => payload_tile_ids p
  | Raise _ => []
  end.

(** [c'] is [c] after some writes, all under ids of [ids]. *)
Definition merged_from (ids : list key) (c c' : gmap key json) : Prop :=
  exists ws, c' = apply_writes ws c /\ forall k, k ∈ map fst ws -> k ∈ ids.

(** ** The caches after a refresh, as functions of the server's answer *)

(** The zones of the refreshed module after [module_data] or
    [get_module_zones]. *)
Definition zones_after (o : net_outcome) (c : gmap key json) : gmap key json :=
  match guarded_result o with
  | Ok p => apply_writes (fst (zones_plan p)) c
  | Raise _ => c
  end.

(** The tiles of the refreshed module after [get_module_tiles]. *)
Definition tiles_after (o : net_outcome) (c : gmap key json) : gmap key json :=
  match guarded_result o with
  | Ok p => apply_writes (fst (tiles_plan p)) c
  | Raise _ => c
  end.

(** The tiles of the refreshed module after [module_data]: the tiles are not
    reached when the zones raise. *)
Definition tiles_after_module_data (o : net_outcome) (c : gmap key json)
  : gmap key json :=
  match guarded_result o with
  | Ok p =>
      match snd (zones_plan p) with
      | Some _ => c
      | None => apply_writes (fst (tiles_plan p)) c
      end
  | Raise _ => c
  end.

(** ** Worlds and payloads used in examples *)

Definition example_zone (id : Z) : json :=
  JObj [("zone", JObj [("id", JInt id); ("visibility", JBool true);
                       ("zoneState", JStr "zoneOn")]);
        ("mode", JObj [("id", JInt (id + 100))])].

Definition example_payload (zone_ids : list Z) : json :=
  JObj [("zones", JObj [("elements", JArr (map example_zone zone_ids))]);
        ("tiles", JArr [])].

(** A client whose cache for module ["m"] holds the zone 7. *)
Definition cached_world : world :=
  snd (module_data (constant_env (example_payload [7])) "m" logged_world).

(** ** Repeated refreshes *)

(** The world after [n] consecutive calls of [module_data], whatever each
    returned or raised. *)
Fixpoint refresh_n (E : Env) (module_udid : string) (n : nat) (w : world) : world :=
  match n with
  | O => w
  | S n' => snd (module_data E module_udid (refresh_n E module_udid n' w))
  end.

(** The server gives the same answer to the module request whatever was sent
    before. *)
Definition same_answer_each_time (E : Env) (req : request) : Prop :=
  forall h h', transport E h req = transport E h' req.

(** ** Valid zone records, in the words of the specification *)

(** The record is non-null, contains a ["zone"] sub-record, that sub-record
    is non-null and contains a visibility field, and its [zoneState] is not
    ["zoneUnregistered"]. *)
Definition valid_zone (zone : json) : bool :=
  match zone with
  | JObj fields =>
      match dict_get fields "zone" with
      | Some (JObj sub) =>
          match dict_get sub "visibility" with
          | Some _ =>
              match dict_get sub "zoneState" with
              | Some (JStr state) => negb (String.eqb state "zoneUnregistered")
              | _ => true
              end
          | None => false
          end
      | _ => false
      end
  | _ => false
  end.

(** A zone record of a payload: null, or an object whose ["zone"], when
    present, is null or an object. *)
Definition zone_record (zone : json) : bool :=
  match zone with
  | JNull => true
  | JObj fields =>
      match dict_get fields "zone" with
      | None | Some JNull | Some (JObj _) => true
      | Some _ => false
      end
  | _ => false
  end.

(** The key of a record that has one. *)
Definition zone_id_key (zone : json) : key :=
  match zone_key zone with
  | Ok k => k
  | Raise _ => KNone
  end.

(** The writes that cache the records of [accepted], in order. *)
Definition zone_writes (accepted : list json) : list (key * json) :=
  map (fun zone => (zone_id_key zone, zone)) accepted.

(** A valid zone record without an id. *)
Definition zone_without_id : json :=
  JObj [("zone", JObj [("visibility", JBool true); ("zoneState", JStr "zoneOn")])].

(** Every item is a zone record, and carries an id usable as a dictionary
    key if it is valid. *)
Definition has_zone_key (zone : json) : bool :=
  match zone_key zone with
  | Ok _ => true
  | Raise _ => false
  end.

Definition zone_records_with_ids (items : list json) : bool :=
  forallb (fun z => zone_record z && implb (valid_zone z) (has_zone_key z)) items.

(** A payload with a valid zone, an unregistered one, a null record and a
    record without a ["zone"] sub-record. *)
Definition mixed_items : list json :=
  [example_zone 7;
   JObj [("zone", JObj [("id", JInt 8); ("visibility", JBool true);
                        ("zoneState", JStr "zoneUnregistered")])];
   JNull;
   JObj [("mode", JObj [("id", JInt 9)])]].

Definition mixed_payload : json :=
  JObj [("zones", JObj [("elements", JArr mixed_items)])].

(** ** Tenths of a degree, in the words of the specification *)










(** The body [set_const_temp] posts. *)
Definition const_temp_body (mode_id : json) (zone_id set_temperature : Z) : json :=
  JObj [("mode",
         JObj [("id", mode_id);
               ("parentId", JInt zone_id);
               ("mode", JStr "constantTemp");
               ("constTempTime", JInt 60);
               ("setTemperature", JInt set_temperature);
               ("scheduleIndex", JInt 0)])].

(** The path of the zone mutation endpoint. *)
Definition zones_path (t : Tech) (module_udid : string) : string :=
  "users/" ++ fmt_user_id (user_id t) ++ "/modules/" ++ module_udid ++ "/zones".

(** ** Coroutines

    The methods of the client are coroutines.  Under asyncio the coroutines
    of one client run on one thread, and one gives up control only where it
    awaits something that is not ready: in this client the lock, at
    [async with self.update_lock], and the answer of the session to a
    request.  The code between two such places runs in one piece.  A
    coroutine is modelled by the tree of what it does next: it ends, reads
    or changes the world, asks for the lock, releases it, or hands a request
    to the session and awaits the outcome.  The awaits of one request (the
    response, its text, its JSON) are one wait: nothing of the client runs
    between them, and they stand at the same place with respect to the
    lock. *)
Inductive task (A : Type) : Type :=
| Done (r : result A)
| Get (k : world -> task A)
| Put (f : world -> world) (k : task A)
| Acquire (k : result unit -> task A)
| Release (k : task A)
| Await (req : request) (k : result (Z * string * body_outcome) -> task A).
Arguments Done {A} r.
Arguments Get {A} k.
Arguments Put {A} f k.
Arguments Acquire {A} k.
Arguments Release {A} k.
Arguments Await {A} req k.

(** Code without [await]: it runs in one piece. *)
Definition sync {A} (m : M A) : task A :=
  Get (fun w => Put (fun w' => snd (m w')) (Done (fst (m w)))).

(** [x = await t; k x] *)
Fixpoint tbind {A B} (t : task A) (k : A -> task B) : task B :=
  match t with
  | Done (Ok a) => k a
  | Done (Raise e) => Done (Raise e)
  | Get c => Get (fun w => tbind (c w) k)
  | Put f c => Put f (tbind c k)
  | Acquire c => Acquire (fun r => tbind (c r) k)
  | Release c => Release (tbind c k)
  | Await req c => Await req (fun r => tbind (c r) k)
  end.

(** [try: t  except ...: h] *)
Fixpoint ttry {A} (t : task A) (h : exn -> option (task A)) : task A :=
  match t with
  | Done (Ok a) => Done (Ok a)
  | Done (Raise e) =>
      match h e with
      | Some handler => handler
      | None => Done (Raise e)
      end
  | Get c => Get (fun w => ttry (c w) h)
  | Put f c => Put f (ttry c h)
  | Acquire c => Acquire (fun r => ttry (c r) h)
  | Release c => Release (ttry c h)
  | Await req c => Await req (fun r => ttry (c r) h)
  end.

(** [try: t  finally: self.update_lock.release()] *)
Fixpoint released_at_end {A} (t : task A) : task A :=
  match t with
  | Done r => Release (Done r)
  | Get c => Get (fun w => released_at_end (c w))
  | Put f c => Put f (released_at_end c)
  | Acquire c => Acquire (fun r => released_at_end (c r))
  | Release c => Release (released_at_end c)
  | Await req c => Await req (fun r => released_at_end (c r))
  end.

(** [async with self.update_lock: body]: the lock is awaited, and released
    however the body ends; when the wait for the lock is cancelled, the body
    does not run and nothing is released. *)
Definition with_update_lock {A} (body : task A) : task A :=
  Acquire (fun r =>
    match r with
    | Ok _ => released_at_end body
    | Raise e => Done (Raise e)
    end).

(** The coroutines of the client that [module_data] awaits, with their
    awaits in place. *)
Definition session_request_coro (req : request) : task (Z * string * body_outcome) :=
  Await req (fun r => Done r).

Definition _make_request_coro (method : http_method) (path : string) (data : option json)
  : task json :=
  tbind (sync get_self) (fun self =>
    let url := base_url self ++ lstrip_slash path in
    ttry
      (tbind
         (session_request_coro
            {| req_method := method; req_url := url; req_headers := headers self;
               req_timeout := DEFAULT_TIMEOUT; req_data := data |})
         (fun response =>
            let '(status, response_text, body) := response in
            if negb (status =? 200) then Done (Raise (TechError status response_text))
            else
              match body with
              | BodyJson j => Done (Ok j)
              | BodyDecodeError err =>
                  Done (Raise (TechError 500 ("Invalid JSON response: " ++ err)))
              | BodyClientError err => Done (Raise (ClientError err))
              end))
      (fun e =>
         match e with
         | ClientError err =>
             Some (Done (Raise (TechError 500 ("HTTP client error: " ++ err))))
         | _ => None
         end)).

Definition handle_api_errors_coro {A} (name : string) (func : task A) : task A :=
  tbind (sync get_self) (fun self =>
    if negb (truthy (authenticated self))
       && negb (existsb (String.eqb name) ["authenticate"])
    then Done (Raise (TechError 401 "Not authenticated"))
    else
      ttry func
        (fun e =>
           match e with
           | ClientError err =>
               Some (Done (Raise (TechError 500 ("HTTP client error: " ++ err))))
           | TimeoutError => Some (Done (Raise (TechError 408 "Request timeout")))
           | _ => None
           end)).

Definition get_coro (path : string) : task json :=
  handle_api_errors_coro "get" (_make_request_coro GET path None).

Definition get_module_data_coro (module_udid : string) : task json :=
  handle_api_errors_coro "get_module_data"
    (tbind (sync get_self) (fun self =>
       get_coro ("users/" ++ fmt_user_id (user_id self) ++ "/modules/" ++ module_udid))).

(** The statements of [module_data] after the payload has arrived; none of
    them awaits. *)
Definition merge_payload (module_udid : string) (now : pyfloat) (result : json)
  : M module_record :=
  zones <- lift (zones_elements result) ;;
  (if truthy zones then
     filtered_zones <- lift (_filter_zones zones) ;;
     merge_zones module_udid filtered_zones
   else ret tt) ;;;
  tiles <- lift (py_get result "tiles" (JArr [])) ;;
  (if truthy tiles then
     filtered_tiles <- lift (_filter_tiles tiles) ;;
     merge_tiles module_udid filtered_tiles
   else ret tt) ;;;
  store_last_update module_udid now ;;;
  module_entry module_udid.

(** [Tech.module_data] as a coroutine. *)
Definition module_data_coro (E : Env) (module_udid : string) : task module_record :=
  handle_api_errors_coro "module_data"
    (with_update_lock
       (tbind (sync (time_time E)) (fun now =>
        tbind (sync (_initialize_module_data module_udid)) (fun _ =>
        tbind (get_module_data_coro module_udid) (fun result =>
        sync (merge_payload module_udid now result)))))).

(** The coroutine run from its first step to its last without another one
    in between, on a lock that is free. *)
Fixpoint run_alone (E : Env) {A} (t : task A) : M A :=
  match t with
  | Done r => lift r
  | Get k => fun w => run_alone E (k w) w
  | Put f k => fun w => run_alone E k (f w)
  | Acquire k => fun w => run_alone E (k (Ok tt)) (set_lock true w)
  | Release k => fun w => run_alone E k (set_lock false w)
  | Await req k =>
      fun w => run_alone E (k (fst (session_request E req w))) (snd (session_request E req w))
  end.

(** ** Concurrent coroutines

    A coroutine has not started, is suspended in [update_lock.acquire()], is
    suspended in a request whose outcome the session has still to deliver,
    or has ended. *)
Inductive coroutine (A : Type) : Type :=
| Ready (t : task A)
| AtLock (k : result unit -> task A)
| AtRequest (r : result (Z * string * body_outcome))
    (k : result (Z * string * body_outcome) -> task A)
| Finished (r : result A).
Arguments Ready {A} t.
Arguments AtLock {A} k.
Arguments AtRequest {A} r k.
Arguments Finished {A} r.

(** The coroutine runs until it has to wait or ends.  It stops at every
    [acquire]: whether it may go on at once is the lock's to say. *)
Fixpoint advance (E : Env) {A} (t : task A) (w : world) : coroutine A * world :=
  match t with
  | Done r => (Finished r, w)
  | Get k => advance E (k w) w
  | Put f k => advance E k (f w)
  | Acquire k => (AtLock k, w)
  | Release k => advance E k (set_lock false w)
  | Await req k =>
      (AtRequest (fst (session_request E req w)) k, snd (session_request E req w))
  end.

(** The coroutines in progress on one client, and the world they share. *)
Record system (A : Type) : Type := {
  sys_world : world;
  sys_tasks : list (coroutine A) }.
Arguments sys_world {A} s.
Arguments sys_tasks {A} s.

(** The coroutine [i] goes on with [t] in the world [w]. *)
Definition resume (E : Env) {A} (i : nat) (t : task A) (w : world)
  (tasks : list (coroutine A)) : system A :=
  {| sys_world := snd (advance E t w);
     sys_tasks := <[i := fst (advance E t w)]> tasks |}.

(** One step of the event loop: a coroutine starts; one that waits for the
    lock gets it, which asyncio's [Lock] allows only when the lock is free;
    the outcome of a request is delivered; or a waiting coroutine is
    cancelled and finds [CancelledError] where it waited. *)
Inductive step (E : Env) {A : Type} : system A -> system A -> Prop :=
| step_start w tasks i t :
    tasks !! i = Some (Ready t) ->
    step E {| sys_world := w; sys_tasks := tasks |} (resume E i t w tasks)
| step_acquire w tasks i k :
    tasks !! i = Some (AtLock k) ->
    update_lock w = false ->
    step E {| sys_world := w; sys_tasks := tasks |}
           (resume E i (k (Ok tt)) (set_lock true w) tasks)
| step_outcome w tasks i r k :
    tasks !! i = Some (AtRequest r k) ->
    step E {| sys_world := w; sys_tasks := tasks |} (resume E i (k r) w tasks)
| step_cancel_at_lock w tasks i k :
    tasks !! i = Some (AtLock k) ->
    step E {| sys_world := w; sys_tasks := tasks |}
           (resume E i (k (Raise CancelledError)) w tasks)
| step_cancel_at_request w tasks i r k :
    tasks !! i = Some (AtRequest r k) ->
    step E {| sys_world := w; sys_tasks := tasks |}
           (resume E i (k (Raise CancelledError)) w tasks).

Definition in_flight {A} (c : coroutine A) : bool :=
  match c with
  | AtRequest _ _ => true
  | _ => false
  end.

(** The number of requests that are in flight. *)
Definition fetches_in_flight {A} (s : system A) : nat :=
  length (List.filter in_flight (sys_tasks s)).

(** The calls [module_data(m)] for the module ids [ms], none of them started
    yet, on a client whose lock is free. *)
Definition calls (E : Env) (w : world) (ms : list string) : system module_record :=
  {| sys_world := set_lock false w;
     sys_tasks := map (fun m => Ready (module_data_coro E m)) ms |}.

(** The lock is held exactly when one request is in flight. *)
Definition lock_invariant {A} (s : system A) : Prop :=
  fetches_in_flight s = if update_lock (sys_world s) then 1%nat else 0%nat.

(** The discipline of a coroutine that starts holding the lock or not
    ([held_in]) and ends holding it or not ([held_out]): it asks for the lock
    only when it does not hold it, releases it only when it holds it, awaits
    the session only while it holds it, and the code in between leaves the
    lock alone. *)
Fixpoint guarded {A} (held_in held_out : bool) (t : task A) : Prop :=
  match t with
  | Done _ => held_in = held_out
  | Get k => forall w, guarded held_in held_out (k w)
  | Put f k => (forall w, update_lock (f w) = update_lock w) /\ guarded held_in held_out k
  | Acquire k =>
      held_in = false /\ guarded true held_out (k (Ok tt)) /\
      forall e, guarded false held_out (k (Raise e))
  | Release k => held_in = true /\ guarded false held_out k
  | Await req k => held_in = true /\ forall r, guarded true held_out (k r)
  end.

(** What is left of a coroutine keeps the discipline. *)
Definition keeps_discipline {A} (c : coroutine A) : Prop :=
  match c with
  | Ready t => guarded false false t
  | AtLock k => guarded true false (k (Ok tt)) /\ forall e, guarded false false (k (Raise e))
  | AtRequest _ k => forall r, guarded true false (k r)
  | Finished _ => True
  end.

(** The lock is as before. *)
Definition same_lock (w w' : world) : Prop := update_lock w' = update_lock w.

(** ** Kinds of exceptions *)

(** An instance of [TechError] itself, not of its subclass. *)
Definition is_base_TechError (e : exn) : bool :=
  match e with
  | TechError _ _ => true
  | _ => false
  end.

(** Exceptions of Python's own operations on a value of the wrong shape. *)
Definition is_builtin_exn (e : exn) : bool :=
  match e with
  | KeyError | TypeError | AttributeError | ValueError | OverflowError => true
  | _ => false
  end.

(** What a closed session raises. *)
Definition is_RuntimeError (e : exn) : bool :=
  match e with
  | RuntimeError => true
  | _ => false
  end.

(** What the methods other than [authenticate] can raise. *)
Definition api_exn (e : exn) : Prop :=
  is_base_TechError e = true \/ (is_builtin_exn e || is_RuntimeError e) = true.

(** Every exception the computation raises satisfies [P]. *)
Definition raises_in {A} (P : exn -> Prop) (m : M A) : Prop :=
  forall w e, fst (m w) = Raise e -> P e.

(** ** Sessions: sequences of method calls, [authenticate] included *)

Inductive method : Type :=
| Authenticate (username password : string)
| Method (c : call).

Definition run_method (E : Env) (x : method) : M unit :=
  match x with
  | Authenticate username password => void (authenticate E username password)
  | Method c => run_call E c
  end.

(** The world after a sequence of method calls, whatever each raised. *)
Definition run_methods (E : Env) (xs : list method) (w : world) : world :=
  fold_left (fun w x => snd (run_method E x w)) xs w.

(** ** Answers to a login *)

(** The answer is no decodable response: the session failed, or the body
    could not be read as JSON. *)
Definition undecodable (o : net_outcome) : bool :=
  match o with
  | NetClientError _ => true
  | NetResponse _ _ (BodyDecodeError _ | BodyClientError _) => true
  | _ => false
  end.

(** A server that accepts every login with the user id ["17"] and the token
    ["secret"], and one whose acceptance lacks the token. *)
Definition accepting_env : Env :=
  constant_env (JObj [("authenticated", JBool true); ("user_id", JStr "17");
                      ("token", JStr "secret")]).

Definition half_accepting_env : Env :=
  constant_env (JObj [("authenticated", JBool true); ("user_id", JStr "17")]).

(** A session that times out on every request. *)
Definition timeout_env : Env :=
  {| transport := fun _ _ => NetTimeout;
     clock := fun _ => S754_zero false;
     py_str := fun v => match v with JStr s => s | _ => "" end;
     TECH_SUPPORTED_LANGUAGES := ["en"; "pl"] |}.

(** ** Tiles of a payload *)

(** The tile is an object whose [visibility] is present and true. *)
Definition visible_tile (tile : json) : bool :=
  match tile with
  | JObj fields =>
      match dict_get fields "visibility" with
      | Some v => truthy v
      | None => false
      end
  | _ => false
  end.

Definition is_object (v : json) : bool :=
  match v with
  | JObj _ => true
  | _ => false
  end.

Definition has_tile_key (tile : json) : bool :=
  match tile_key tile with
  | Ok _ => true
  | Raise _ => false
  end.

(** Every tile is an object, and carries an id usable as a dictionary key
    if it is visible. *)
Definition tile_objects_with_ids (items : list json) : bool :=
  forallb (fun t => is_object t && implb (visible_tile t) (has_tile_key t)) items.

Definition tile_id_key (tile : json) : key :=
  match tile_key tile with
  | Ok k => k
  | Raise _ => KNone
  end.

Definition tile_writes (accepted : list json) : list (key * json) :=
  map (fun tile => (tile_id_key tile, tile)) accepted.

Definition example_tile (id : Z) (visible : bool) : json :=
  JObj [("id", JInt id); ("type", JInt 11); ("visibility", JBool visible)].

(** A payload without zones and with the given tiles. *)
Definition tiles_payload (tiles : list json) : json :=
  JObj [("zones", JObj [("elements", JArr [])]); ("tiles", JArr tiles)].

(** ** Requests of the commands *)

(** The body [set_zone] posts. *)
Definition zone_state_body (zone_id : Z) (on : bool) : json :=
  JObj [("zone", JObj [("id", JInt zone_id);
                       ("zoneState", JStr (if on then "zoneOn" else "zoneOff"))])].

(** ** Slashes *)

Definition starts_with_slash (s : string) : bool :=
  match s with
  | String c _ => Ascii.eqb c "/"%char
  | EmptyString => false
  end.

Fixpoint ends_with_slash (s : string) : bool :=
  match s with
  | EmptyString => false
  | String c EmptyString => Ascii.eqb c "/"%char
  | String _ rest => ends_with_slash rest
  end.

(** ** Calls that write the caches *)

(** The calls that write [self.modules]: the refresh operations, the methods
    that start with one, and [clear_module_cache]. *)
Definition writes_cache (c : call) : bool :=
  match c with
  | CallGetModuleZones _ | CallGetModuleTiles _ | CallModuleData _
  | CallGetZone _ _ | CallGetTile _ _ | CallSetConstTemp _ _ _
  | CallClearModuleCache _ => true
  | _ => false
  end.

(** The client object is as before. *)
Definition same_self (w w' : world) : Prop := self w' = self w.

(** An attribute of the client object is as before. *)
Definition same_field {A} (field : Tech -> A) (w w' : world) : Prop :=
  field (self w') = field (self w).

(** ** Well-formed caches *)

(** Every cached zone passes the test of [_filter_zones] and is stored under
    its own id; every cached tile passes the test of [_filter_tiles] and is
    stored under its own id. *)
Definition well_formed_cache (w : world) : Prop :=
  forall m,
    (forall k zone, zones_of w m !! k = Some zone ->
                    zone_test zone = Ok true /\ zone_key zone = Ok k) /\
    (forall k tile, tiles_of w m !! k = Some tile ->
                    tile_test tile = Ok true /\ tile_key tile = Ok k).

(** The string consists of slashes only. *)
Fixpoint only_slashes (s : string) : bool :=
  match s with
  | EmptyString => true
  | String c rest => Ascii.eqb c "/"%char && only_slashes rest
  end.

(** * The thermostat entity of [climate.py]

    [TechThermostat] shows one cached zone to the host and passes the host's
    commands to the client.  The entity is modelled by the attributes that
    [update_properties] and [async_set_temperature] read and write. *)

(** Constants of [homeassistant.const] and of [climate.py]. *)
Definition CONF_ZONE : string := "zone".
Definition STATE_ON : string := "on".
Definition STATE_OFF : string := "off".
Definition DEFAULT_MIN_TEMP : Z := 5.
Definition DEFAULT_MAX_TEMP : Z := 35.
Definition ZONE_SET_TEMP : string := "setTemperature".
Definition ZONE_CURRENT_TEMP : string := "currentTemperature".
Definition ZONE_HUMIDITY : string := "humidity".
Definition ZONE_DURING_CHANGE : string := "duringChange".
Definition ZONE_FLAGS : string := "flags".
Definition ZONE_RELAY_STATE : string := "relayState".
Definition ZONE_ALGORITHM : string := "algorithm".
Definition ZONE_STATE : string := "zoneState".
Definition ZONE_ON : string := "zoneOn".
Definition NO_ALARM : string := "noAlarm".
Definition ALGORITHM_HEATING : string := "heating".
Definition ALGORITHM_COOLING : string := "cooling".

Inductive HVACAction : Type :=
| HVACAction_OFF
| HVACAction_HEATING
| HVACAction_COOLING
| HVACAction_IDLE.

Inductive HVACMode : Type :=
| HVACMode_OFF
| HVACMode_HEAT.

(** [_id] is the zone id the entity passes to [set_const_temp], an integer
    as there; [_target_temperature] is the float [update_properties] computes
    or the number [async_set_temperature] was called with. *)
Record TechThermostat : Type := {
  _udid : string;
  _id : Z;
  _temperature : option pyfloat;
  _target_temperature : option pynum;
  _humidity : option json;
  _state : HVACAction;
  _mode : HVACMode }.

Definition set_target_temperature (v : option pynum) (th : TechThermostat)
  : TechThermostat :=
  {| _udid := _udid th; _id := _id th; _temperature := _temperature th;
     _target_temperature := v; _humidity := _humidity th;
     _state := _state th; _mode := _mode th |}.

Definition set_temperature (v : option pyfloat) (th : TechThermostat) : TechThermostat :=
  {| _udid := _udid th; _id := _id th; _temperature := v;
     _target_temperature := _target_temperature th; _humidity := _humidity th;
     _state := _state th; _mode := _mode th |}.

Definition set_humidity (v : option json) (th : TechThermostat) : TechThermostat :=
  {| _udid := _udid th; _id := _id th; _temperature := _temperature th;
     _target_temperature := _target_temperature th; _humidity := v;
     _state := _state th; _mode := _mode th |}.

Definition set_state (v : HVACAction) (th : TechThermostat) : TechThermostat :=
  {| _udid := _udid th; _id := _id th; _temperature := _temperature th;
     _target_temperature := _target_temperature th; _humidity := _humidity th;
     _state := v; _mode := _mode th |}.

Definition set_mode (v : HVACMode) (th : TechThermostat) : TechThermostat :=
  {| _udid := _udid th; _id := _id th; _temperature := _temperature th;
     _target_temperature := _target_temperature th; _humidity := _humidity th;
     _state := _state th; _mode := v |}.

(** [z / 10] for an integer [z]: the quotient rounded to the nearest float;
    a quotient beyond the floats raises. *)
Definition int_truediv_10 (z : Z) : result pyfloat :=
  let quotient (s : bool) (p : positive) : result pyfloat :=
    match SFdiv prec emax (S754_finite s p 0) float_ten with
    | S754_infinity _ => Raise OverflowError
    | f => Ok f
    end in
  match z with
  | Z0 => Ok (S754_zero false)
  | Zpos p => quotient false p
  | Zneg p => quotient true p
  end.

(** [x / 10] *)
Definition py_truediv_10 (x : json) : result pyfloat :=
  match x with
  | JInt z => int_truediv_10 z
  | JBool b => int_truediv_10 (Z.b2z b)
  | JFloat f => Ok (SFdiv prec emax f float_ten)
  | _ => Raise TypeError
  end.

(** [x >= 0] *)
Definition py_ge_0 (x : json) : result bool :=
  match x with
  | JInt z => Ok (0 <=? z)
  | JBool _ => Ok true
  | JFloat f => Ok (SFleb (S754_zero false) f)
  | _ => Raise TypeError
  end.

(** The statements of a method of the entity: each one reads the entity and
    leaves it, changed or not, with or without an exception. *)
Definition statement : Type := TechThermostat -> result unit * TechThermostat.

Definition and_then (s1 s2 : statement) : statement :=
  fun th =>
    match s1 th with
    | (Ok _, th') => s2 th'
    | (Raise e, th') => (Raise e, th')
    end.

(** the part of [update_properties] under [# Update target temperature] *)
Definition update_target_temperature (zone_data : json) : statement :=
  fun th =>
    match py_get zone_data ZONE_SET_TEMP JNull with
    | Raise e => (Raise e, th)
    | Ok set_temp =>
        if negb (is_None set_temp) then
          match py_get zone_data ZONE_DURING_CHANGE (JBool false) with
          | Raise e => (Raise e, th)
          | Ok during_change =>
              if negb (truthy during_change) then
                match py_truediv_10 set_temp with
                | Raise e => (Raise e, th)
                | Ok t => (Ok tt, set_target_temperature (Some (PyFloat t)) th)
                end
              else (Ok tt, th)
          end
        else (Ok tt, set_target_temperature None th)
    end.

(** the part under [# Update current temperature] *)
Definition update_current_temperature (zone_data : json) : statement :=
  fun th =>
    match py_get zone_data ZONE_CURRENT_TEMP JNull with
    | Raise e => (Raise e, th)
    | Ok current_temp =>
        if negb (is_None current_temp) then
          match py_truediv_10 current_temp with
          | Raise e => (Raise e, th)
          | Ok t => (Ok tt, set_temperature (Some t) th)
          end
        else (Ok tt, set_temperature None th)
    end.

(** the part under [# Update humidity] *)
Definition update_humidity (zone_data : json) : statement :=
  fun th =>
    match py_get zone_data ZONE_HUMIDITY JNull with
    | Raise e => (Raise e, th)
    | Ok humidity =>
        if negb (is_None humidity) then
          match py_ge_0 humidity with
          | Raise e => (Raise e, th)
          | Ok b => (Ok tt, set_humidity (if b then Some humidity else None) th)
          end
        else (Ok tt, set_humidity None th)
    end.

(** the part under [# Update HVAC state and mode] *)
Definition update_state (zone_data : json) : statement :=
  fun th =>
    match py_get zone_data ZONE_FLAGS (JObj []) with
    | Raise e => (Raise e, th)
    | Ok flags =>
        match py_get flags ZONE_RELAY_STATE JNull with
        | Raise e => (Raise e, th)
        | Ok relay_state =>
            match py_get flags ZONE_ALGORITHM JNull with
            | Raise e => (Raise e, th)
            | Ok algorithm =>
                (Ok tt,
                 set_state
                   (if is_str STATE_ON relay_state then
                      if is_str ALGORITHM_HEATING algorithm then HVACAction_HEATING
                      else if is_str ALGORITHM_COOLING algorithm then HVACAction_COOLING
                      else HVACAction_IDLE
                    else if is_str STATE_OFF relay_state then HVACAction_IDLE
                    else HVACAction_OFF) th)
            end
        end
    end.

(** the part under [# Update HVAC mode] *)
Definition update_mode (zone_data : json) : statement :=
  fun th =>
    match py_get zone_data ZONE_STATE JNull with
    | Raise e => (Raise e, th)
    | Ok zone_state =>
        (Ok tt,
         set_mode (if is_str ZONE_ON zone_state || is_str NO_ALARM zone_state
                   then HVACMode_HEAT else HVACMode_OFF) th)
    end.

(** [TechThermostat.update_properties] *)
Definition update_properties (device : json) : statement :=
  fun th =>
    match py_getitem device CONF_ZONE with
    | Raise e => (Raise e, th)
    | Ok zone_data =>
        and_then (update_target_temperature zone_data)
          (and_then (update_current_temperature zone_data)
             (and_then (update_humidity zone_data)
                (and_then (update_state zone_data) (update_mode zone_data)))) th
    end.

(** the integer [z] as a float *)
Definition float_of_Z (z : Z) : pyfloat := binary_normalize prec emax z 0 false.

(** [self.min_temp <= temperature <= self.max_temp] *)
Definition in_bounds (temperature : pynum) : bool :=
  match temperature with
  | PyInt z => (DEFAULT_MIN_TEMP <=? z) && (z <=? DEFAULT_MAX_TEMP)
  | PyFloat f =>
      SFleb (float_of_Z DEFAULT_MIN_TEMP) f && SFleb f (float_of_Z DEFAULT_MAX_TEMP)
  end.

(** [TechThermostat.async_set_temperature], called with the keyword
    [temperature] or without it.  Beside the outcome and the entity, the
    result tells whether [coordinator.async_request_refresh()] was reached:
    the refresh itself is the host's. *)
Definition async_set_temperature (E : Env) (temperature : option pynum)
  (th : TechThermostat) (w : world) : (result unit * TechThermostat * bool) * world :=
  match temperature with
  | Some t =>
      if negb (in_bounds t) then ((Ok tt, th, false), w)
      else
        match set_const_temp E (_udid th) (_id th) t w with
        | (Ok _, w') => ((Ok tt, set_target_temperature (Some t) th, true), w')
        | (Raise e, w') => ((Raise e, th, false), w')
        end
  | None => ((Ok tt, th, false), w)
  end.

(** An entity for the zone [id] of the module ["m"], as its constructor
    leaves it before the first [update_properties]. *)
Definition new_thermostat (id : Z) : TechThermostat :=
  {| _udid := "m"; _id := id; _temperature := None; _target_temperature := None;
     _humidity := None; _state := HVACAction_OFF; _mode := HVACMode_OFF |}.

(** The scaled value of the temperature shown for [k] tenths is [k] again,
    and the temperature is within the bounds of the entity. *)
Definition tenths_round_trip (k : Z) : bool :=
  match int_truediv_10 k with
  | Ok t =>
      in_bounds (PyFloat t) &&
      match py_int (py_mul_10 (PyFloat t)) with
      | Ok n => n =? k
      | Raise _ => false
      end
  | Raise _ => false
  end.

(** * Properties *)

(** ** Relations kept by every step of a computation *)

Section Respects.
Context (R : world -> world -> Prop) `{!PreOrder R}.

Lemma respects_ret {A} (a : A) : respects R (ret a).
Proof. intros w. reflexivity. Qed.

Lemma respects_raise {A} (e : exn) : respects R (@raise A e).
Proof. intros w. reflexivity. Qed.

Lemma respects_lift {A} (r : result A) : respects R (lift r).
Proof. intros w. reflexivity. Qed.

Lemma respects_get_self : respects R get_self.
Proof. intros w. reflexivity. Qed.

Lemma respects_bind {A B} (m : M A) (k : A -> M B) :
  respects R m -> (forall a, respects R (k a)) -> respects R (bind m k).
Proof.
  intros Hm Hk w. unfold bind. specialize (Hm w).
  destruct (m w) as [[a|e] w']; simpl in *; [|done].
  etransitivity; [exact Hm | apply Hk].
Qed.

Lemma respects_try_except {A} (m : M A) (h : exn -> option (M A)) :
  respects R m ->
  (forall e k, h e = Some k -> respects R k) ->
  respects R (try_except m h).
Proof.
  intros Hm Hh w. unfold try_except. specialize (Hm w).
  destruct (m w) as [[a|e] w']; simpl in *; [done|].
  destruct (h e) as [k|] eqn:He; [|done].
  etransitivity; [exact Hm | eapply Hh, He].
Qed.

Lemma respects_for_each {A} (body : A -> M unit) (l : list A) :
  (forall x, respects R (body x)) -> respects R (for_each body l).
Proof.
  intros Hb. induction l as [|x l IH]; simpl.
  - apply respects_ret.
  - apply respects_bind; auto.
Qed.

Lemma respects_void {A} (m : M A) : respects R m -> respects R (void m).
Proof.
  intros Hm w. unfold void. specialize (Hm w).
  destruct (m w) as [[a|e] w']; exact Hm.
Qed.

(** Steps that leave the client object alone are allowed by [R]. *)
Context (R_self : forall w w', self w' = self w -> R w w').

Lemma respects_time_time E : respects R (time_time E).
Proof. intros w. apply R_self. reflexivity. Qed.

Lemma respects_session_request E req : respects R (session_request E req).
Proof.
  intros w. apply R_self. unfold session_request.
  destruct (session_answer E w req); reflexivity.
Qed.

Lemma respects_async_with_update_lock {A} (body : M A) :
  respects R body -> respects R (async_with_update_lock body).
Proof.
  intros Hb w. unfold async_with_update_lock, try_finally.
  specialize (Hb (set_lock true w)).
  destruct (body (set_lock true w)) as [r w']; simpl in *.
  etransitivity; [apply (R_self w (set_lock true w)); reflexivity|].
  etransitivity; [exact Hb|]. apply R_self. reflexivity.
Qed.

Lemma respects_close : respects R close.
Proof.
  intros w. apply R_self. unfold close.
  destruct (session_closed w); reflexivity.
Qed.

Lemma respects_make_request E method path data :
  respects R (_make_request E method path data).
Proof.
  unfold _make_request.
  apply respects_bind; [apply respects_get_self|]. intros t.
  apply respects_try_except.
  - apply respects_bind; [apply respects_session_request|].
    intros [[status text] body].
    destruct (negb (status =? 200)); [apply respects_raise|].
    destruct body; auto using respects_ret, respects_raise.
  - intros e k Hk. destruct e; inversion Hk; subst. apply respects_raise.
Qed.

Lemma respects_handle_api_errors {A} name (func : M A) :
  respects R func -> respects R (handle_api_errors name func).
Proof.
  intros Hf. unfold handle_api_errors.
  apply respects_bind; [apply respects_get_self|]. intros t.
  destruct (_ && _); [apply respects_raise|].
  apply respects_try_except; [exact Hf|].
  intros e k Hk. destruct e; inversion Hk; subst; apply respects_raise.
Qed.

Lemma respects_get E path : respects R (get E path).
Proof. apply respects_handle_api_errors, respects_make_request. Qed.

Lemma respects_post E path data : respects R (post E path data).
Proof. apply respects_handle_api_errors, respects_make_request. Qed.

Lemma respects_list_modules E : respects R (list_modules E).
Proof.
  apply respects_handle_api_errors, respects_bind; [apply respects_get_self|].
  intros t. apply respects_get.
Qed.

Lemma respects_get_module_data E m : respects R (get_module_data E m).
Proof.
  apply respects_handle_api_errors, respects_bind; [apply respects_get_self|].
  intros t. apply respects_get.
Qed.

Lemma respects_get_translations E l : respects R (get_translations E l).
Proof. apply respects_handle_api_errors, respects_get. Qed.

Lemma respects_set_zone E m z on : respects R (set_zone E m z on).
Proof.
  apply respects_handle_api_errors, respects_bind; [apply respects_get_self|].
  intros t. apply respects_post.
Qed.

Lemma respects_module_entry m : respects R (module_entry m).
Proof.
  apply respects_bind; [apply respects_get_self|]. intros t.
  destruct (modules t !! m); auto using respects_ret, respects_raise.
Qed.

Lemma respects_cached_zones m : respects R (cached_zones m).
Proof.
  apply respects_bind; [apply respects_module_entry|]. intros r. apply respects_ret.
Qed.

Lemma respects_cached_tiles m : respects R (cached_tiles m).
Proof.
  apply respects_bind; [apply respects_module_entry|]. intros r. apply respects_ret.
Qed.

Lemma respects_is_authenticated : respects R is_authenticated.
Proof. apply respects_bind; [apply respects_get_self|]. intros t. apply respects_ret. Qed.

Lemma respects_get_module_last_update m : respects R (get_module_last_update m).
Proof. apply respects_bind; [apply respects_get_self|]. intros t. apply respects_ret. Qed.

(** The writes to [self.modules] of the unguarded fetches. *)
Context (R_init : forall m, respects R (_initialize_module_data m)).
Context (R_store_zone : forall m zone_id zone, respects R (store_zone m zone_id zone)).
Context (R_store_tile : forall m tile_id tile, respects R (store_tile m tile_id tile)).

Lemma respects_merge_zones m l : respects R (merge_zones m l).
Proof.
  apply respects_for_each. intros zone.
  apply respects_bind; [apply respects_lift|]. intros z.
  apply respects_bind; [apply respects_lift|]. intros zone_id.
  apply R_store_zone.
Qed.

Lemma respects_merge_tiles m l : respects R (merge_tiles m l).
Proof.
  apply respects_for_each. intros tile.
  apply respects_bind; [apply respects_lift|]. intros tile_id.
  apply R_store_tile.
Qed.

Lemma respects_get_module_zones E m : respects R (get_module_zones E m).
Proof.
  apply respects_handle_api_errors.
  apply respects_bind; [apply R_init|]. intros _.
  apply respects_bind; [apply respects_get_module_data|]. intros payload.
  apply respects_bind; [apply respects_lift|]. intros zs.
  destruct (negb (truthy zs)); [apply respects_cached_zones|].
  apply respects_bind; [apply respects_lift|]. intros filtered.
  apply respects_bind; [apply respects_merge_zones|]. intros _.
  apply respects_cached_zones.
Qed.

Lemma respects_get_module_tiles E m : respects R (get_module_tiles E m).
Proof.
  apply respects_handle_api_errors.
  apply respects_bind; [apply R_init|]. intros _.
  apply respects_bind; [apply respects_get_module_data|]. intros payload.
  apply respects_bind; [apply respects_lift|]. intros ts.
  destruct (negb (truthy ts)); [apply respects_cached_tiles|].
  apply respects_bind; [apply respects_lift|]. intros filtered.
  apply respects_bind; [apply respects_merge_tiles|]. intros _.
  apply respects_cached_tiles.
Qed.

Lemma respects_get_zone E m z : respects R (get_zone E m z).
Proof.
  apply respects_bind; [apply respects_get_module_zones|]. intros _.
  apply respects_bind; [apply respects_cached_zones|]. intros cache.
  destruct (cache !! KNum z); auto using respects_ret, respects_raise.
Qed.

Lemma respects_get_tile E m z : respects R (get_tile E m z).
Proof.
  apply respects_bind; [apply respects_get_module_tiles|]. intros _.
  apply respects_bind; [apply respects_cached_tiles|]. intros cache.
  destruct (cache !! KNum z); auto using respects_ret, respects_raise.
Qed.

Lemma respects_set_const_temp E m z t : respects R (set_const_temp E m z t).
Proof.
  apply respects_handle_api_errors.
  apply respects_bind; [apply respects_get_module_zones|]. intros _.
  apply respects_bind; [apply respects_cached_zones|]. intros cache.
  destruct (cache !! KNum z); [|apply respects_raise].
  apply respects_bind; [apply respects_get_self|]. intros self0.
  apply respects_bind; [apply respects_lift|]. intros mode.
  apply respects_bind; [apply respects_lift|]. intros mode_id.
  apply respects_bind; [apply respects_lift|]. intros temp.
  apply respects_post.
Qed.

(** The stamp of the guarded refresh. *)
Lemma respects_module_data E m :
  (forall now, respects R (store_last_update m now)) ->
  respects R (module_data E m).
Proof.
  intros R_stamp.
  apply respects_handle_api_errors, respects_async_with_update_lock.
  apply respects_bind; [apply respects_time_time|]. intros now.
  apply respects_bind; [apply R_init|]. intros _.
  apply respects_bind; [apply respects_get_module_data|]. intros payload.
  apply respects_bind; [apply respects_lift|]. intros zs.
  apply respects_bind.
  { destruct (truthy zs); [|apply respects_ret].
    apply respects_bind; [apply respects_lift|]. intros filtered.
    apply respects_merge_zones. }
  intros _.
  apply respects_bind; [apply respects_lift|]. intros ts.
  apply respects_bind.
  { destruct (truthy ts); [|apply respects_ret].
    apply respects_bind; [apply respects_lift|]. intros filtered.
    apply respects_merge_tiles. }
  intros _.
  apply respects_bind; [apply R_stamp|]. intros _.
  apply respects_module_entry.
Qed.

End Respects.

(** ** Credentials *)

Global Instance same_credentials_preorder : PreOrder same_credentials.
Proof.
  split.
  - intros w. reflexivity.
  - intros w1 w2 w3 H12 H23. unfold same_credentials in *. congruence.
Qed.

Lemma same_credentials_self w w' : self w' = self w -> same_credentials w w'.
Proof. unfold same_credentials, credentials. intros ->. reflexivity. Qed.

Lemma same_credentials_modules f : respects same_credentials (modify_self (with_modules f)).
Proof. intros w. reflexivity. Qed.

Lemma same_credentials_init m : respects same_credentials (_initialize_module_data m).
Proof. apply same_credentials_modules. Qed.

Lemma same_credentials_store_zone m zone_id zone :
  respects same_credentials (store_zone m zone_id zone).
Proof.
  apply respects_bind; [apply _|apply respects_module_entry, _|]. intros _.
  apply respects_bind; [apply _|apply respects_lift, _|]. intros k.
  apply same_credentials_modules.
Qed.

Lemma same_credentials_store_tile m tile_id tile :
  respects same_credentials (store_tile m tile_id tile).
Proof.
  apply respects_bind; [apply _|apply respects_module_entry, _|]. intros _.
  apply respects_bind; [apply _|apply respects_lift, _|]. intros k.
  apply same_credentials_modules.
Qed.

Lemma same_credentials_store_last_update m now :
  respects same_credentials (store_last_update m now).
Proof.
  apply respects_bind; [apply _|apply respects_module_entry, _|]. intros _.
  apply same_credentials_modules.
Qed.

Lemma same_credentials_clear_module_cache m :
  respects same_credentials (clear_module_cache m).
Proof.
  unfold clear_module_cache. destruct m as [udid|]; [|apply same_credentials_modules].
  destruct (truthy_str _); apply same_credentials_modules.
Qed.

Lemma same_credentials_run_call E c : respects same_credentials (run_call E c).
Proof.
  pose proof same_credentials_self as Hs.
  pose proof same_credentials_init as Hi.
  pose proof same_credentials_store_zone as Hz.
  pose proof same_credentials_store_tile as Ht.
  destruct c; simpl; apply respects_void.
  - apply respects_get; auto with typeclass_instances.
  - apply respects_post; auto with typeclass_instances.
  - apply respects_list_modules; auto with typeclass_instances.
  - apply respects_get_module_data; auto with typeclass_instances.
  - apply respects_get_translations; auto with typeclass_instances.
  - apply respects_get_module_zones; auto with typeclass_instances.
  - apply respects_get_module_tiles; auto with typeclass_instances.
  - apply respects_module_data; auto with typeclass_instances.
    intros now. apply same_credentials_store_last_update.
  - apply respects_get_zone; auto with typeclass_instances.
  - apply respects_get_tile; auto with typeclass_instances.
  - apply respects_set_const_temp; auto with typeclass_instances.
  - apply respects_set_zone; auto with typeclass_instances.
  - apply respects_is_authenticated; auto with typeclass_instances.
  - apply respects_get_module_last_update; auto with typeclass_instances.
  - apply same_credentials_clear_module_cache.
  - apply respects_close; auto with typeclass_instances.
Qed.

Lemma same_credentials_run_calls E cs w : credentials (run_calls E cs w) = credentials w.
Proof.
  revert w. induction cs as [|c cs IH]; intros w; [reflexivity|].
  change (run_calls E (c :: cs) w) with (run_calls E cs (snd (run_call E c w))).
  rewrite IH. apply same_credentials_run_call.
Qed.

(** C7, as stated, fails: a client constructed with a user id and a token
    holds credentials and is authenticated although [authenticate] never ran. *)
Lemma credentials_established_by_init :
  credentials (new_world (__init__ (Some "17") (Some "secret") TECH_API_URL))
  = (Some "17", JStr "secret", JBool true).
Proof. reflexivity. Qed.

(** C7, amended: credentials are established by the constructor (when it is
    given a non-empty user id and token) or by [authenticate]; every other
    method of the client, and every sequence of them, leaves [user_id],
    [token] and [authenticated] as they were. *)
Theorem credentials_changed_only_by_authenticate (E : Env) :
  (forall c w, credentials (snd (run_call E c w)) = credentials w) /\
  (forall cs w, credentials (run_calls E cs w) = credentials w) /\
  (forall u t url,
      credentials (new_world (__init__ u t url))
      = if truthy_str u && truthy_str t
        then (u, match t with Some s => JStr s | None => JNull end, JBool true)
        else (None, JNull, JBool false)).
Proof.
  split; [|split].
  - intros c w. apply same_credentials_run_call.
  - intros cs w. apply same_credentials_run_calls.
  - intros u t url. unfold __init__, credentials, new_world.
    destruct (truthy_str u && truthy_str t); reflexivity.
Qed.

(** ** The authentication pre-check of the decorator *)

Lemma handle_api_errors_unauthenticated {A} name (func : M A) w :
  truthy (authenticated (self w)) = false ->
  existsb (String.eqb name) ["authenticate"] = false ->
  handle_api_errors name func w = (Raise (TechError 401 "Not authenticated"), w).
Proof.
  intros Ha Hn. unfold handle_api_errors, bind, get_self.
  rewrite Ha, Hn. reflexivity.
Qed.

Lemma handle_api_errors_authenticated {A} name (func : M A) w :
  truthy (authenticated (self w)) = true ->
  handle_api_errors name func w =
  try_except func
    (fun e =>
       match e with
       | ClientError err => Some (raise (TechError 500 ("HTTP client error: " ++ err)))
       | TimeoutError => Some (raise (TechError 408 "Request timeout"))
       | _ => None
       end) w.
Proof.
  intros Ha. unfold handle_api_errors, bind, get_self. rewrite Ha. reflexivity.
Qed.

(** C2, as stated, fails: the pre-check raises the base class [TechError]
    (status 401), which is not a [TechLoginError]. *)
Lemma unauthenticated_get_not_login_error :
  truthy (authenticated (self fresh_world)) = false /\
  fst (get (constant_env JNull) "users" fresh_world)
  = Raise (TechError 401 "Not authenticated") /\
  is_TechLoginError (TechError 401 "Not authenticated") = false.
Proof. repeat split. Qed.

(** C2, amended: each of the ten decorated methods, called while the session
    is unauthenticated, raises [TechError] with status 401 and message
    "Not authenticated" and leaves the world as it was: no request is sent. *)
Theorem unauthenticated_call_rejected (E : Env) (c : call) (w : world) :
  decorated c = true ->
  truthy (authenticated (self w)) = false ->
  run_call E c w = (Raise (TechError 401 "Not authenticated"), w).
Proof.
  intros Hd Ha.
  destruct c; try discriminate Hd; simpl;
    unfold void, get, post, list_modules, get_module_data, get_translations,
      get_module_zones, get_module_tiles, module_data, set_const_temp, set_zone;
    rewrite handle_api_errors_unauthenticated by (exact Ha || reflexivity);
    reflexivity.
Qed.

Lemma unauthenticated_call_rejected_witness :
  run_call (constant_env JNull) (CallModuleData "m") fresh_world
  = (Raise (TechError 401 "Not authenticated"), fresh_world).
Proof. apply unauthenticated_call_rejected; reflexivity. Defined.

(** ** Requests in closed form *)

Lemma make_request_run E method path data w :
  _make_request E method path data w =
  (request_result (session_answer E w (mk_request (self w) method path data)),
   log_request (mk_request (self w) method path data) w).
Proof.
  unfold _make_request, bind, get_self, try_except, session_request, mk_request,
    log_request, request_result, raise, ret.
  simpl. destruct (session_answer E w _) as [status text body|err| | |]; simpl;
    try reflexivity.
  destruct (negb (status =? 200)); simpl; [reflexivity|].
  destruct body; reflexivity.
Qed.

(** ** Rejected logins *)

(** C6, as stated, fails twice: a rejected login on a client that was
    authenticated raises but leaves [authenticated] true, and a rejection by
    a body of status 200 with [authenticated] false raises nothing: the call
    returns [False]. *)
Lemma authenticate_rejected_counterexample :
  (rejected (session_answer (status_env 401) logged_world
               (auth_request (self logged_world) "user" "wrong")) = true /\
   fst (authenticate (status_env 401) "user" "wrong" logged_world)
   = Raise (TechLoginError 401 "Login failed: Authentication failed") /\
   authenticated (self (snd (authenticate (status_env 401) "user" "wrong" logged_world)))
   = JBool true) /\
  (rejected (session_answer (constant_env (JObj [("authenticated", JBool false)]))
               fresh_world (auth_request (self fresh_world) "user" "wrong")) = true /\
   fst (authenticate (constant_env (JObj [("authenticated", JBool false)]))
          "user" "wrong" fresh_world)
   = Ok (JBool false)).
Proof. repeat split. Qed.

(** C6, amended: when the server rejects the login with a status other than
    200, [authenticate] raises [TechLoginError] (status 401) and leaves the
    client object as it was; when it rejects with a body of status 200 whose
    [authenticated] is absent or false, [authenticate] raises nothing, stores
    that false value in [authenticated] and returns it. Either way the user id
    and the token are unchanged, one request was sent, and a session that was
    unauthenticated is unauthenticated afterwards. *)
Theorem authenticate_rejected (E : Env) (username password : string) (w : world) :
  rejected (session_answer E w (auth_request (self w) username password)) = true ->
  let o := session_answer E w (auth_request (self w) username password) in
  let r := fst (authenticate E username password w) in
  let w' := snd (authenticate E username password w) in
  sent w' = (sent w ++ [auth_request (self w) username password])%list /\
  user_id (self w') = user_id (self w) /\
  token (self w') = token (self w) /\
  (status_of o <> Some 200 ->
   r = Raise (TechLoginError 401 "Login failed: Authentication failed") /\
   self w' = self w) /\
  (status_of o = Some 200 ->
   exists v, r = Ok v /\ truthy v = false /\ authenticated (self w') = v) /\
  (truthy (authenticated (self w)) = false ->
   truthy (authenticated (self w')) = false).
Proof.
  intros Hrej. cbv zeta.
  destruct (authenticate E username password w) as [r w'] eqn:Hrun. simpl.
  unfold authenticate, bind, try_except in Hrun.
  rewrite make_request_run in Hrun.
  fold (auth_request (self w) username password) in Hrun.
  destruct (session_answer E w (auth_request (self w) username password))
    as [status text body|err| | |]; simpl in Hrej; try discriminate Hrej.
  unfold request_result in Hrun.
  destruct (status =? 200) eqn:Hs.
  - apply Z.eqb_eq in Hs. subst status.
    destruct body as [j|err|err]; try discriminate Hrej.
    destruct j as [| | | | | |fields]; try discriminate Hrej.
    simpl in *. apply negb_true_iff in Hrej.
    unfold lift, modify_self, get_self, ret in Hrun. simpl in Hrun.
    destruct (dict_get fields "authenticated") as [v|]; simpl in *.
    + rewrite Hrej in Hrun. simpl in Hrun. injection Hrun as <- <-.
      split_and!; try done. intros _. exists v. done.
    + injection Hrun as <- <-.
      split_and!; try done. intros _. exists (JBool false). done.
  - simpl in Hrun. injection Hrun as <- <-.
    split_and!; try done.
    intros [= Hst]. subst status. discriminate Hs.
Qed.

Lemma authenticate_rejected_witness :
  let E := status_env 401 in
  let w' := snd (authenticate E "user" "wrong" fresh_world) in
  fst (authenticate E "user" "wrong" fresh_world)
  = Raise (TechLoginError 401 "Login failed: Authentication failed") /\
  self w' = self fresh_world.
Proof.
  intros E w'.
  apply (authenticate_rejected E "user" "wrong" fresh_world); [reflexivity|].
  simpl. discriminate.
Defined.

(** ** The timestamp of a module *)

Global Instance same_last_update_preorder : PreOrder same_last_update.
Proof.
  split.
  - intros w m. reflexivity.
  - intros w1 w2 w3 H12 H23 m. rewrite H23. apply H12.
Qed.

Lemma same_last_update_self w w' : self w' = self w -> same_last_update w w'.
Proof. intros H m. unfold last_update_of. rewrite H. reflexivity. Qed.

Lemma same_last_update_init m : respects same_last_update (_initialize_module_data m).
Proof.
  intros w m'. unfold last_update_of. simpl.
  destruct (modules (self w) !! m) eqn:Hm; [reflexivity|].
  destruct (decide (m = m')) as [->|Hne].
  - rewrite lookup_insert_eq, Hm. reflexivity.
  - rewrite lookup_insert_ne by done. reflexivity.
Qed.

Lemma last_update_of_alter f m w m' :
  (forall r, last_update (f r) = last_update r) ->
  last_update_of (with_self (with_modules (alter f m)) w) m' = last_update_of w m'.
Proof.
  intros Hf. unfold last_update_of. simpl. rewrite lookup_alter.
  destruct (decide (m = m')) as [->|Hne]; [|reflexivity].
  destruct (modules (self w) !! m'); simpl; [apply Hf|reflexivity].
Qed.

Lemma same_last_update_store_zone m zone_id zone :
  respects same_last_update (store_zone m zone_id zone).
Proof.
  apply respects_bind; [apply _|apply respects_module_entry, _|]. intros _.
  apply respects_bind; [apply _|apply respects_lift, _|]. intros k.
  intros w m'. apply last_update_of_alter. reflexivity.
Qed.

Lemma same_last_update_store_tile m tile_id tile :
  respects same_last_update (store_tile m tile_id tile).
Proof.
  apply respects_bind; [apply _|apply respects_module_entry, _|]. intros _.
  apply respects_bind; [apply _|apply respects_lift, _|]. intros k.
  intros w m'. apply last_update_of_alter. reflexivity.
Qed.

Lemma no_new_stamp_clear_module_cache m : respects no_new_stamp (clear_module_cache m).
Proof.
  assert (Hall : forall w, no_new_stamp w (with_self (with_modules (fun _ => ∅)) w)).
  { intros w m'. right. unfold last_update_of. simpl. rewrite lookup_empty. reflexivity. }
  intros w. unfold clear_module_cache. destruct m as [udid|]; [|apply Hall].
  destruct (truthy_str _); [|apply Hall].
  intros m'. unfold last_update_of. simpl.
  destruct (modules (self w) !! udid) eqn:Hm; [|by left].
  destruct (decide (udid = m')) as [->|Hne].
  - right. rewrite lookup_insert_eq. reflexivity.
  - left. rewrite lookup_insert_ne by done. reflexivity.
Qed.

Lemma same_last_update_run_call E c :
  match c with
  | CallModuleData _ | CallClearModuleCache _ => True
  | _ => respects same_last_update (run_call E c)
  end.
Proof.
  pose proof same_last_update_self as Hs.
  pose proof same_last_update_init as Hi.
  pose proof same_last_update_store_zone as Hz.
  pose proof same_last_update_store_tile as Ht.
  destruct c; simpl; try exact I; apply respects_void.
  - apply respects_get; auto with typeclass_instances.
  - apply respects_post; auto with typeclass_instances.
  - apply respects_list_modules; auto with typeclass_instances.
  - apply respects_get_module_data; auto with typeclass_instances.
  - apply respects_get_translations; auto with typeclass_instances.
  - apply respects_get_module_zones; auto with typeclass_instances.
  - apply respects_get_module_tiles; auto with typeclass_instances.
  - apply respects_get_zone; auto with typeclass_instances.
  - apply respects_get_tile; auto with typeclass_instances.
  - apply respects_set_const_temp; auto with typeclass_instances.
  - apply respects_set_zone; auto with typeclass_instances.
  - apply respects_is_authenticated; auto with typeclass_instances.
  - apply respects_get_module_last_update; auto with typeclass_instances.
  - apply respects_close; auto with typeclass_instances.
Qed.

(** C10: the unguarded fetches [get_module_zones] and [get_module_tiles]
    leave the [last_update] of every module as it was, whatever the server
    answers and whether they return or raise; and of all the methods other
    than [authenticate], only [module_data] can set a timestamp: every other
    one leaves each module's [last_update] as it was, or ([clear_module_cache])
    resets it to [None]. *)
Theorem last_update_only_by_module_data (E : Env) (w : world) :
  (forall m m',
      last_update_of (snd (get_module_zones E m w)) m' = last_update_of w m' /\
      last_update_of (snd (get_module_tiles E m w)) m' = last_update_of w m' /\
      fst (get_module_last_update m' (snd (get_module_zones E m w)))
      = fst (get_module_last_update m' w) /\
      fst (get_module_last_update m' (snd (get_module_tiles E m w)))
      = fst (get_module_last_update m' w)) /\
  (forall c,
      match c with
      | CallModuleData _ => True
      | _ => no_new_stamp w (snd (run_call E c w))
      end).
Proof.
  pose proof same_last_update_self as Hs.
  pose proof same_last_update_init as Hi.
  pose proof same_last_update_store_zone as Hz.
  pose proof same_last_update_store_tile as Ht.
  split.
  - intros m m'.
    assert (Hzones : last_update_of (snd (get_module_zones E m w)) m' = last_update_of w m').
    { apply (respects_get_module_zones same_last_update); auto. }
    assert (Htiles : last_update_of (snd (get_module_tiles E m w)) m' = last_update_of w m').
    { apply (respects_get_module_tiles same_last_update); auto. }
    split_and!; try done.
    + unfold get_module_last_update, bind, get_self, ret. simpl. f_equal. exact Hzones.
    + unfold get_module_last_update, bind, get_self, ret. simpl. f_equal. exact Htiles.
  - intros c. pose proof (same_last_update_run_call E c) as Hc.
    destruct c; try exact I;
      try (intros m'; left; apply Hc).
    simpl. apply (respects_void no_new_stamp), no_new_stamp_clear_module_cache.
Qed.

(** ** The merge loops in closed form *)

Lemma put_module_id m r w : modules (self w) !! m = Some r -> put_module m r w = w.
Proof.
  destruct w as [[bu hd uid tok au slu ms] sn tk cl lk]. simpl. intros H.
  unfold put_module, with_self, with_modules. simpl. rewrite insert_id by exact H.
  reflexivity.
Qed.

Lemma put_module_twice m r r' w : put_module m r' (put_module m r w) = put_module m r' w.
Proof.
  unfold put_module, with_self, with_modules. simpl. rewrite insert_insert_eq. reflexivity.
Qed.

Lemma lookup_put_module m r w : modules (self (put_module m r w)) !! m = Some r.
Proof. simpl. apply lookup_insert_eq. Qed.

Lemma with_zones_nil r : with_zones (apply_writes []) r = r.
Proof. destruct r; reflexivity. Qed.

Lemma with_tiles_nil r : with_tiles (apply_writes []) r = r.
Proof. destruct r; reflexivity. Qed.

Lemma alter_module f m r w :
  modules (self w) !! m = Some r ->
  with_self (with_modules (alter f m)) w = put_module m (f r) w.
Proof.
  intros H. unfold put_module, with_self, with_modules.
  rewrite (alter_alt_Some _ _ _ _ H). reflexivity.
Qed.

Lemma store_zone_run m zone_id zone w r k :
  modules (self w) !! m = Some r -> py_hash zone_id = Ok k ->
  store_zone m zone_id zone w = (Ok tt, put_module m (with_zones <[k := zone]> r) w).
Proof.
  intros H Hk. unfold store_zone, module_entry, bind, get_self, lift, modify_self, ret.
  simpl. rewrite H, Hk. rewrite (alter_module _ _ _ _ H). reflexivity.
Qed.

Lemma store_tile_run m tile_id tile w r k :
  modules (self w) !! m = Some r -> py_hash tile_id = Ok k ->
  store_tile m tile_id tile w = (Ok tt, put_module m (with_tiles <[k := tile]> r) w).
Proof.
  intros H Hk. unfold store_tile, module_entry, bind, get_self, lift, modify_self, ret.
  simpl. rewrite H, Hk. rewrite (alter_module _ _ _ _ H). reflexivity.
Qed.

Lemma zone_body_run m zone w r :
  modules (self w) !! m = Some r ->
  (z <- lift (py_getitem zone "zone") ;;
   zone_id <- lift (py_getitem z "id") ;;
   store_zone m zone_id zone) w =
  match zone_key zone with
  | Ok k => (Ok tt, put_module m (with_zones <[k := zone]> r) w)
  | Raise e => (Raise e, w)
  end.
Proof.
  intros Hr. unfold zone_key, rbind, bind at 1, lift at 1.
  destruct (py_getitem zone "zone") as [z|e]; [|reflexivity].
  unfold bind at 1, lift at 1.
  destruct (py_getitem z "id") as [zone_id|e]; [|reflexivity].
  destruct (py_hash zone_id) as [k|e] eqn:Hk.
  - apply (store_zone_run _ _ _ _ _ _ Hr Hk).
  - unfold store_zone, module_entry, bind, get_self, lift, ret. simpl.
    rewrite Hr, Hk. reflexivity.
Qed.

Lemma tile_body_run m tile w r :
  modules (self w) !! m = Some r ->
  (tile_id <- lift (py_getitem tile "id") ;;
   store_tile m tile_id tile) w =
  match tile_key tile with
  | Ok k => (Ok tt, put_module m (with_tiles <[k := tile]> r) w)
  | Raise e => (Raise e, w)
  end.
Proof.
  intros Hr. unfold tile_key, rbind, bind at 1, lift at 1.
  destruct (py_getitem tile "id") as [tile_id|e]; [|reflexivity].
  destruct (py_hash tile_id) as [k|e] eqn:Hk.
  - apply (store_tile_run _ _ _ _ _ _ Hr Hk).
  - unfold store_tile, module_entry, bind, get_self, lift, ret. simpl.
    rewrite Hr, Hk. reflexivity.
Qed.

Lemma merge_zones_run m l : forall w r,
  modules (self w) !! m = Some r ->
  merge_zones m l w =
  (plan_result (merge_plan zone_key l),
   put_module m (with_zones (apply_writes (fst (merge_plan zone_key l))) r) w).
Proof.
  unfold merge_zones. induction l as [|zone l IH]; intros w r Hr.
  - cbn [for_each merge_plan fst]. unfold ret.
    rewrite with_zones_nil, put_module_id by exact Hr. reflexivity.
  - cbn [for_each merge_plan]. unfold bind at 1.
    rewrite (zone_body_run _ _ _ _ Hr).
    destruct (zone_key zone) as [k|e].
    + rewrite (IH _ _ (lookup_put_module _ _ _)).
      destruct (merge_plan zone_key l) as [ws e]. cbn [fst].
      rewrite put_module_twice. reflexivity.
    + cbn [fst]. rewrite with_zones_nil, put_module_id by exact Hr. reflexivity.
Qed.

Lemma merge_tiles_run m l : forall w r,
  modules (self w) !! m = Some r ->
  merge_tiles m l w =
  (plan_result (merge_plan tile_key l),
   put_module m (with_tiles (apply_writes (fst (merge_plan tile_key l))) r) w).
Proof.
  unfold merge_tiles. induction l as [|tile l IH]; intros w r Hr.
  - cbn [for_each merge_plan fst]. unfold ret.
    rewrite with_tiles_nil, put_module_id by exact Hr. reflexivity.
  - cbn [for_each merge_plan]. unfold bind at 1.
    rewrite (tile_body_run _ _ _ _ Hr).
    destruct (tile_key tile) as [k|e].
    + rewrite (IH _ _ (lookup_put_module _ _ _)).
      destruct (merge_plan tile_key l) as [ws e]. cbn [fst].
      rewrite put_module_twice. reflexivity.
    + cbn [fst]. rewrite with_tiles_nil, put_module_id by exact Hr. reflexivity.
Qed.

(** ** The decorated requests in closed form *)

Lemma guarded_result_not_network o e :
  guarded_result o = Raise e -> is_network_exn e = false.
Proof.
  unfold guarded_result, request_result.
  destruct o as [status text body|err| | |]; simpl.
  - destruct (negb (status =? 200)); [intros [= <-]; reflexivity|].
    destruct body; intros [= <-]; reflexivity.
  - intros [= <-]. reflexivity.
  - intros [= <-]. reflexivity.
  - intros [= <-]. reflexivity.
  - intros [= <-]. reflexivity.
Qed.

(** The handler of the decorator lets through whatever is not an exception
    of the session. *)
Lemma handle_api_errors_passthrough {A} name (func : M A) w :
  truthy (authenticated (self w)) = true ->
  (forall e, fst (func w) = Raise e -> is_network_exn e = false) ->
  handle_api_errors name func w = func w.
Proof.
  intros Ha Hf. rewrite handle_api_errors_authenticated by exact Ha.
  unfold try_except. destruct (func w) as [[a|e] w'] eqn:Hrun; [reflexivity|].
  specialize (Hf e eq_refl). destruct e; try discriminate Hf; reflexivity.
Qed.

Lemma get_run E path w :
  truthy (authenticated (self w)) = true ->
  get E path w =
  (guarded_result (session_answer E w (mk_request (self w) GET path None)),
   log_request (mk_request (self w) GET path None) w).
Proof.
  intros Ha. unfold get. rewrite handle_api_errors_authenticated by exact Ha.
  unfold try_except. rewrite make_request_run. unfold guarded_result, request_result.
  destruct (session_answer E w _) as [status text body|err| | |]; simpl; try reflexivity.
  destruct (negb (status =? 200)); [reflexivity|].
  destruct body; reflexivity.
Qed.

Lemma post_run E path data w :
  truthy (authenticated (self w)) = true ->
  post E path data w =
  (guarded_result (session_answer E w (mk_request (self w) POST path (optional data))),
   log_request (mk_request (self w) POST path (optional data)) w).
Proof.
  intros Ha. unfold post. rewrite handle_api_errors_authenticated by exact Ha.
  unfold try_except. rewrite make_request_run. unfold guarded_result, request_result.
  destruct (session_answer E w _) as [status text body|err| | |]; simpl; try reflexivity.
  destruct (negb (status =? 200)); [reflexivity|].
  destruct body; reflexivity.
Qed.

Lemma get_module_data_run E m w :
  truthy (authenticated (self w)) = true ->
  get_module_data E m w =
  (guarded_result (fetched E w m), log_request (module_request (self w) m) w).
Proof.
  intros Ha. unfold get_module_data.
  rewrite handle_api_errors_passthrough; [| exact Ha |].
  - unfold bind, get_self. rewrite get_run by exact Ha. reflexivity.
  - intros e. unfold bind, get_self. rewrite get_run by exact Ha. simpl.
    apply guarded_result_not_network.
Qed.

(** ** Exceptions of the operations on decoded values *)

Lemma py_getitem_not_network v k e : py_getitem v k = Raise e -> is_network_exn e = false.
Proof.
  destruct v; simpl; try (intros [= <-]; reflexivity).
  destruct (dict_get fields k); intros [= <-]; reflexivity.
Qed.

Lemma py_get_not_network v k d e : py_get v k d = Raise e -> is_network_exn e = false.
Proof.
  destruct v; simpl; try (intros [= <-]; reflexivity).
  destruct (dict_get fields k); discriminate.
Qed.

Lemma py_in_not_network k v e : py_in k v = Raise e -> is_network_exn e = false.
Proof. destruct v; simpl; try (intros [= <-]; reflexivity); discriminate. Qed.

Lemma py_iter_not_network v e : py_iter v = Raise e -> is_network_exn e = false.
Proof. destruct v; simpl; try (intros [= <-]; reflexivity); discriminate. Qed.

Lemma py_hash_not_network v e : py_hash v = Raise e -> is_network_exn e = false.
Proof. destruct v; simpl; try (intros [= <-]; reflexivity); discriminate. Qed.

Lemma filter_r_not_network {A} (p : A -> result bool) l e :
  (forall x e, p x = Raise e -> is_network_exn e = false) ->
  filter_r p l = Raise e -> is_network_exn e = false.
Proof.
  intros Hp. induction l as [|x l IH]; simpl; [discriminate|].
  unfold rbind. destruct (p x) as [b|e'] eqn:Hx.
  - destruct (filter_r p l) as [l'|e']; [discriminate|].
    intros [= <-]. apply IH. reflexivity.
  - intros [= <-]. eapply Hp, Hx.
Qed.

Lemma zone_test_not_network zone e : zone_test zone = Raise e -> is_network_exn e = false.
Proof.
  unfold zone_test, rbind. destruct (is_None zone); [discriminate|].
  destruct (py_in "zone" zone) as [b|e'] eqn:H1;
    [|intros [= <-]; eapply py_in_not_network, H1].
  destruct (negb b); [discriminate|].
  destruct (py_getitem zone "zone") as [z|e'] eqn:H2;
    [|intros [= <-]; eapply py_getitem_not_network, H2].
  destruct (is_None z); [discriminate|].
  destruct (py_in "visibility" z) as [b'|e'] eqn:H3;
    [|intros [= <-]; eapply py_in_not_network, H3].
  destruct (negb b'); [discriminate|].
  destruct (py_get z "zoneState" JNull) as [st|e'] eqn:H4;
    [discriminate|intros [= <-]; eapply py_get_not_network, H4].
Qed.

Lemma tile_test_not_network tile e : tile_test tile = Raise e -> is_network_exn e = false.
Proof.
  unfold tile_test, rbind.
  destruct (py_get tile "visibility" (JBool false)) as [v|e'] eqn:H1;
    [discriminate|intros [= <-]; eapply py_get_not_network, H1].
Qed.

Lemma zone_key_not_network zone e : zone_key zone = Raise e -> is_network_exn e = false.
Proof.
  unfold zone_key, rbind.
  destruct (py_getitem zone "zone") as [z|e'] eqn:H1;
    [|intros [= <-]; eapply py_getitem_not_network, H1].
  destruct (py_getitem z "id") as [i|e'] eqn:H2;
    [|intros [= <-]; eapply py_getitem_not_network, H2].
  apply py_hash_not_network.
Qed.

Lemma tile_key_not_network tile e : tile_key tile = Raise e -> is_network_exn e = false.
Proof.
  unfold tile_key, rbind.
  destruct (py_getitem tile "id") as [i|e'] eqn:H2;
    [|intros [= <-]; eapply py_getitem_not_network, H2].
  apply py_hash_not_network.
Qed.

Lemma merge_plan_not_network key_of l e :
  (forall x e, key_of x = Raise e -> is_network_exn e = false) ->
  snd (merge_plan key_of l) = Some e -> is_network_exn e = false.
Proof.
  intros Hk. induction l as [|x l IH]; simpl; [discriminate|].
  destruct (key_of x) as [k|e'] eqn:Hx.
  - destruct (merge_plan key_of l) as [ws e']. simpl in *. exact IH.
  - simpl. intros [= <-]. eapply Hk, Hx.
Qed.

Lemma zones_plan_not_network p e :
  snd (zones_plan p) = Some e -> is_network_exn e = false.
Proof.
  unfold zones_plan, zones_elements, rbind.
  destruct (py_get p "zones" (JObj [])) as [zs|e'] eqn:H1;
    [|simpl; intros [= <-]; eapply py_get_not_network, H1].
  destruct (py_get zs "elements" (JArr [])) as [els|e'] eqn:H2;
    [|simpl; intros [= <-]; eapply py_get_not_network, H2].
  destruct (truthy els); [|discriminate].
  unfold _filter_zones, rbind.
  destruct (py_iter els) as [items|e'] eqn:H3;
    [|simpl; intros [= <-]; eapply py_iter_not_network, H3].
  destruct (filter_r zone_test items) as [filtered|e'] eqn:H4.
  - apply merge_plan_not_network, zone_key_not_network.
  - simpl. intros [= <-].
    eapply (filter_r_not_network zone_test), H4. apply zone_test_not_network.
Qed.

Lemma tiles_plan_not_network p e :
  snd (tiles_plan p) = Some e -> is_network_exn e = false.
Proof.
  unfold tiles_plan.
  destruct (py_get p "tiles" (JArr [])) as [ts|e'] eqn:H1;
    [|simpl; intros [= <-]; eapply py_get_not_network, H1].
  destruct (truthy ts); [|discriminate].
  unfold _filter_tiles, rbind.
  destruct (py_iter ts) as [items|e'] eqn:H3;
    [|simpl; intros [= <-]; eapply py_iter_not_network, H3].
  destruct (filter_r tile_test items) as [filtered|e'] eqn:H4.
  - apply merge_plan_not_network, tile_key_not_network.
  - simpl. intros [= <-].
    eapply (filter_r_not_network tile_test), H4. apply tile_test_not_network.
Qed.

(** ** The refresh operations in closed form *)

Lemma handle_api_errors_closed {A} name (func : M A) w r w' :
  truthy (authenticated (self w)) = true ->
  func w = (r, w') ->
  (forall e, r = Raise e -> is_network_exn e = false) ->
  handle_api_errors name func w = (r, w').
Proof.
  intros Ha Hrun Hr. rewrite handle_api_errors_passthrough; [exact Hrun|exact Ha|].
  rewrite Hrun. exact Hr.
Qed.

Lemma handle_api_errors_closed' {A} name (func : M A) w x :
  truthy (authenticated (self w)) = true ->
  func w = x ->
  (forall e, fst x = Raise e -> is_network_exn e = false) ->
  handle_api_errors name func w = x.
Proof.
  intros Ha Hrun Hr. destruct x as [r w']. apply handle_api_errors_closed; assumption.
Qed.

Lemma initialize_module_data_run m w :
  _initialize_module_data m w = (Ok tt, put_module m (module_or_empty w m) w).
Proof.
  unfold _initialize_module_data, modify_self, module_or_empty. f_equal.
  destruct (modules (self w) !! m) as [r|] eqn:Hm.
  - rewrite put_module_id by exact Hm.
    destruct w as [[bu hd uid tok au slu ms] sn tk cl lk].
    unfold with_self, with_modules. simpl in *. rewrite Hm. reflexivity.
  - unfold put_module, with_self, with_modules. simpl. rewrite Hm. reflexivity.
Qed.

Lemma module_entry_run m r w :
  modules (self w) !! m = Some r -> module_entry m w = (Ok r, w).
Proof.
  intros H. unfold module_entry, bind, get_self, ret. simpl. rewrite H. reflexivity.
Qed.

Lemma get_module_zones_run E m w :
  truthy (authenticated (self w)) = true ->
  get_module_zones E m w =
  let req := module_request (self w) m in
  let r0 := module_or_empty w m in
  match guarded_result (fetched E w m) with
  | Raise e => (Raise e, put_module m r0 (log_request req w))
  | Ok p =>
      (match snd (zones_plan p) with
       | Some e => Raise e
       | None => Ok (apply_writes (fst (zones_plan p)) (zones r0))
       end,
       put_module m (with_zones (apply_writes (fst (zones_plan p))) r0) (log_request req w))
  end.
Proof.
  intros Ha. cbv zeta. unfold get_module_zones.
  set (req := module_request (self w) m). set (r0 := module_or_empty w m).
  assert (Hw1 : modules (self (put_module m r0 (log_request req w))) !! m = Some r0)
    by apply lookup_put_module.
  destruct (guarded_result (fetched E w m)) as [p|e] eqn:Hfetch.
  - apply handle_api_errors_closed; [exact Ha| |].
    + unfold bind at 1. rewrite initialize_module_data_run. fold r0.
      unfold bind at 1. rewrite get_module_data_run by exact Ha.
      change (fetched E (put_module m r0 w) m) with (fetched E w m). rewrite Hfetch.
      change (log_request (module_request (self (put_module m r0 w)) m) (put_module m r0 w))
        with (put_module m r0 (log_request req w)).
      unfold bind at 1, lift at 1. unfold zones_plan.
      destruct (zones_elements p) as [zs|e]; cbn [fst snd];
        [|rewrite with_zones_nil; reflexivity].
      destruct (truthy zs); cbn [negb fst snd].
      * unfold bind at 1, lift at 1.
        destruct (_filter_zones zs) as [filtered|e]; cbn [fst snd];
          [|rewrite with_zones_nil; reflexivity].
        unfold bind at 1. rewrite (merge_zones_run _ _ _ _ Hw1).
        rewrite put_module_twice. unfold plan_result.
        destruct (merge_plan zone_key filtered) as [ws [e|]]; cbn [fst snd]; [reflexivity|].
        unfold cached_zones, bind at 1.
        rewrite (module_entry_run _ _ _ (lookup_put_module _ _ _)). reflexivity.
      * unfold cached_zones, bind at 1. rewrite (module_entry_run _ _ _ Hw1).
        rewrite with_zones_nil. reflexivity.
    + intros e. destruct (snd (zones_plan p)) as [e'|] eqn:Hp; [|discriminate].
      intros [= <-]. eapply zones_plan_not_network, Hp.
  - apply handle_api_errors_closed; [exact Ha| |].
    + unfold bind at 1. rewrite initialize_module_data_run. fold r0.
      unfold bind at 1. rewrite get_module_data_run by exact Ha.
      change (fetched E (put_module m r0 w) m) with (fetched E w m). rewrite Hfetch.
      reflexivity.
    + intros e' [= <-]. eapply guarded_result_not_network, Hfetch.
Qed.

Lemma get_module_tiles_run E m w :
  truthy (authenticated (self w)) = true ->
  get_module_tiles E m w =
  let req := module_request (self w) m in
  let r0 := module_or_empty w m in
  match guarded_result (fetched E w m) with
  | Raise e => (Raise e, put_module m r0 (log_request req w))
  | Ok p =>
      (match snd (tiles_plan p) with
       | Some e => Raise e
       | None => Ok (apply_writes (fst (tiles_plan p)) (tiles r0))
       end,
       put_module m (with_tiles (apply_writes (fst (tiles_plan p))) r0) (log_request req w))
  end.
Proof.
  intros Ha. cbv zeta. unfold get_module_tiles.
  set (req := module_request (self w) m). set (r0 := module_or_empty w m).
  assert (Hw1 : modules (self (put_module m r0 (log_request req w))) !! m = Some r0)
    by apply lookup_put_module.
  destruct (guarded_result (fetched E w m)) as [p|e] eqn:Hfetch.
  - apply handle_api_errors_closed; [exact Ha| |].
    + unfold bind at 1. rewrite initialize_module_data_run. fold r0.
      unfold bind at 1. rewrite get_module_data_run by exact Ha.
      change (fetched E (put_module m r0 w) m) with (fetched E w m). rewrite Hfetch.
      change (log_request (module_request (self (put_module m r0 w)) m) (put_module m r0 w))
        with (put_module m r0 (log_request req w)).
      unfold bind at 1, lift at 1. unfold tiles_plan.
      destruct (py_get p "tiles" (JArr [])) as [ts|e]; cbn [fst snd];
        [|rewrite with_tiles_nil; reflexivity].
      destruct (truthy ts); cbn [negb fst snd].
      * unfold bind at 1, lift at 1.
        destruct (_filter_tiles ts) as [filtered|e]; cbn [fst snd];
          [|rewrite with_tiles_nil; reflexivity].
        unfold bind at 1. rewrite (merge_tiles_run _ _ _ _ Hw1).
        rewrite put_module_twice. unfold plan_result.
        destruct (merge_plan tile_key filtered) as [ws [e|]]; cbn [fst snd]; [reflexivity|].
        unfold cached_tiles, bind at 1.
        rewrite (module_entry_run _ _ _ (lookup_put_module _ _ _)). reflexivity.
      * unfold cached_tiles, bind at 1. rewrite (module_entry_run _ _ _ Hw1).
        rewrite with_tiles_nil. reflexivity.
    + intros e. destruct (snd (tiles_plan p)) as [e'|] eqn:Hp; [|discriminate].
      intros [= <-]. eapply tiles_plan_not_network, Hp.
  - apply handle_api_errors_closed; [exact Ha| |].
    + unfold bind at 1. rewrite initialize_module_data_run. fold r0.
      unfold bind at 1. rewrite get_module_data_run by exact Ha.
      change (fetched E (put_module m r0 w) m) with (fetched E w m). rewrite Hfetch.
      reflexivity.
    + intros e' [= <-]. eapply guarded_result_not_network, Hfetch.
Qed.

Lemma store_last_update_run m now r w :
  modules (self w) !! m = Some r ->
  store_last_update m now w = (Ok tt, put_module m (with_last_update (Some now) r) w).
Proof.
  intros H. unfold store_last_update, bind at 1.
  rewrite (module_entry_run _ _ _ H). unfold modify_self.
  rewrite (alter_module _ _ _ _ H). reflexivity.
Qed.

(** The second half of [module_data]: tiles, timestamp, return value. *)
Lemma tiles_and_stamp_run m p now w r :
  modules (self w) !! m = Some r ->
  (tiles <- lift (py_get p "tiles" (JArr [])) ;;
   (if truthy tiles then
      filtered_tiles <- lift (_filter_tiles tiles) ;;
      merge_tiles m filtered_tiles
    else ret tt) ;;;
   store_last_update m now ;;;
   module_entry m) w =
  let r2 := with_tiles (apply_writes (fst (tiles_plan p))) r in
  match snd (tiles_plan p) with
  | Some e => (Raise e, put_module m r2 w)
  | None => (Ok (with_last_update (Some now) r2),
             put_module m (with_last_update (Some now) r2) w)
  end.
Proof.
  intros Hr. cbv zeta. unfold bind at 1, lift at 1. unfold tiles_plan.
  destruct (py_get p "tiles" (JArr [])) as [ts|e]; cbn [fst snd];
    [|rewrite with_tiles_nil, put_module_id by exact Hr; reflexivity].
  unfold bind at 1.
  destruct (truthy ts).
  - unfold bind at 1, lift at 1.
    destruct (_filter_tiles ts) as [filtered|e]; cbn [fst snd];
      [|rewrite with_tiles_nil, put_module_id by exact Hr; reflexivity].
    rewrite (merge_tiles_run _ _ _ _ Hr). unfold plan_result.
    destruct (merge_plan tile_key filtered) as [ws [e|]]; cbn [fst snd]; [reflexivity|].
    unfold bind at 1.
    rewrite (store_last_update_run _ _ _ _ (lookup_put_module _ _ _)).
    rewrite put_module_twice.
    rewrite (module_entry_run _ _ _ (lookup_put_module _ _ _)). reflexivity.
  - unfold ret at 1. cbn [fst snd]. unfold bind at 1.
    rewrite (store_last_update_run _ _ _ _ Hr).
    rewrite (module_entry_run _ _ _ (lookup_put_module _ _ _)).
    rewrite with_tiles_nil. reflexivity.
Qed.

Lemma refreshed_not_network p now r0 e :
  fst (refreshed p now r0) = Raise e -> is_network_exn e = false.
Proof.
  unfold refreshed.
  destruct (snd (zones_plan p)) as [e1|] eqn:Hz.
  - simpl. intros [= <-]. eapply zones_plan_not_network, Hz.
  - destruct (snd (tiles_plan p)) as [e2|] eqn:Ht; [|discriminate].
    simpl. intros [= <-]. eapply tiles_plan_not_network, Ht.
Qed.

Lemma module_data_run E m w :
  truthy (authenticated (self w)) = true ->
  module_data E m w =
  let req := module_request (self w) m in
  let r0 := module_or_empty w m in
  match guarded_result (fetched E w m) with
  | Raise e => (Raise e, set_lock false (put_module m r0 (log_request req (tick w))))
  | Ok p =>
      (fst (refreshed p (clock E (ticks w)) r0),
       set_lock false
         (put_module m (snd (refreshed p (clock E (ticks w)) r0)) (log_request req (tick w))))
  end.
Proof.
  intros Ha. cbv zeta. unfold module_data.
  set (req := module_request (self w) m). set (r0 := module_or_empty w m).
  set (now := clock E (ticks w)).
  set (w2 := put_module m r0 (log_request req (tick (set_lock true w)))).
  assert (Hw2 : modules (self w2) !! m = Some r0) by apply lookup_put_module.
  apply handle_api_errors_closed'; [exact Ha| |].
  - unfold async_with_update_lock, try_finally.
    unfold bind at 1.
    change (time_time E (set_lock true w)) with (Ok now, tick (set_lock true w)).
    cbv iota beta.
    unfold bind at 1. rewrite initialize_module_data_run.
    change (module_or_empty (tick (set_lock true w)) m) with r0.
    cbv iota beta.
    unfold bind at 1. rewrite get_module_data_run by exact Ha.
    change (fetched E (put_module m r0 (tick (set_lock true w))) m) with (fetched E w m).
    change (log_request (module_request (self (put_module m r0 (tick (set_lock true w)))) m)
              (put_module m r0 (tick (set_lock true w)))) with w2.
    destruct (guarded_result (fetched E w m)) as [p|e]; [|reflexivity].
    unfold bind at 1, lift at 1. unfold refreshed at 1 2, zones_plan.
    destruct (zones_elements p) as [zs|e]; cbn [fst snd];
      [|rewrite with_zones_nil; reflexivity].
    unfold bind at 1.
    destruct (truthy zs).
    + unfold bind at 1, lift at 1.
      destruct (_filter_zones zs) as [filtered|e]; cbn [fst snd];
        [|rewrite with_zones_nil; reflexivity].
      rewrite (merge_zones_run _ _ _ _ Hw2). unfold plan_result.
      destruct (merge_plan zone_key filtered) as [ws [e|]]; cbn [fst snd].
      * unfold w2. rewrite put_module_twice. reflexivity.
      * rewrite (tiles_and_stamp_run _ _ _ _ _ (lookup_put_module _ _ _)).
        cbv zeta. unfold w2. rewrite !put_module_twice.
        destruct (snd (tiles_plan p)); reflexivity.
    + unfold ret at 1. cbn [fst snd].
      rewrite (tiles_and_stamp_run _ _ _ _ _ Hw2).
      cbv zeta. unfold w2. rewrite !put_module_twice, with_zones_nil.
      destruct (snd (tiles_plan p)); reflexivity.
  - intros e. destruct (guarded_result (fetched E w m)) as [p|e'] eqn:Hfetch.
    + apply refreshed_not_network.
    + simpl. intros [= <-]. eapply guarded_result_not_network, Hfetch.
Qed.

(** ** Writes into a cache *)

Lemma lookup_apply_writes ws : forall c k,
  apply_writes ws c !! k =
  match last_write ws k with
  | Some v => Some v
  | None => c !! k
  end.
Proof.
  induction ws as [|[k' v] ws IH]; intros c k; [reflexivity|].
  change (apply_writes ((k', v) :: ws) c) with (apply_writes ws (<[k' := v]> c)).
  rewrite IH. simpl. destruct (last_write ws k); [reflexivity|].
  rewrite lookup_insert. destruct (decide (k' = k)); reflexivity.
Qed.

Lemma apply_writes_idempotent ws c :
  apply_writes ws (apply_writes ws c) = apply_writes ws c.
Proof.
  apply map_eq. intros k. rewrite !lookup_apply_writes.
  destruct (last_write ws k); reflexivity.
Qed.

Lemma last_write_not_written ws k : k ∉ map fst ws -> last_write ws k = None.
Proof.
  induction ws as [|[k' v] ws IH]; intros Hk; [reflexivity|].
  simpl in *. rewrite not_elem_of_cons in Hk. destruct Hk as [Hne Hk].
  rewrite (IH Hk). destruct (decide (k' = k)); [congruence|reflexivity].
Qed.

Lemma last_write_written ws k v :
  last_write ws k = Some v -> (k, v) ∈ ws.
Proof.
  induction ws as [|[k' v'] ws IH]; [discriminate|]. simpl.
  destruct (last_write ws k) as [v0|].
  - intros [= ->]. right. apply IH. reflexivity.
  - destruct (decide (k' = k)) as [->|]; [|discriminate].
    intros [= ->]. left.
Qed.

Lemma merged_from_keeps ids c c' k :
  merged_from ids c c' -> is_Some (c !! k) -> is_Some (c' !! k).
Proof.
  intros (ws & -> & _) Hk. rewrite lookup_apply_writes.
  destruct (last_write ws k); [eauto|exact Hk].
Qed.

Lemma merged_from_other ids c c' k :
  merged_from ids c c' -> k ∉ ids -> c' !! k = c !! k.
Proof.
  intros (ws & -> & Hids) Hk. rewrite lookup_apply_writes.
  rewrite last_write_not_written; [reflexivity|]. intros Hin. apply Hk, Hids, Hin.
Qed.

Lemma merged_from_refl ids c : merged_from ids c c.
Proof. exists []. split; [reflexivity|]. intros k Hk. inversion Hk. Qed.

(** ** The ids written by a refresh are ids of the payload *)

Lemma filter_r_subset {A} (p : A -> result bool) l l' :
  filter_r p l = Ok l' -> forall x, x ∈ l' -> x ∈ l.
Proof.
  revert l'. induction l as [|y l IH]; intros l'; simpl.
  - intros [= <-] x Hx. inversion Hx.
  - unfold rbind. destruct (p y) as [b|e]; [|discriminate].
    destruct (filter_r p l) as [l0|e]; [|discriminate].
    intros [= <-] x Hx. destruct b.
    + apply elem_of_cons in Hx as [->|Hx]; [left|right; eauto].
    + right. eauto.
Qed.

Lemma merge_plan_keys key_of l k :
  k ∈ map fst (fst (merge_plan key_of l)) -> k ∈ ok_keys key_of l.
Proof.
  unfold ok_keys. induction l as [|x l IH]; simpl; [intros H; inversion H|].
  destruct (key_of x) as [k'|e]; [|intros H; inversion H].
  destruct (merge_plan key_of l) as [ws e]. simpl in *.
  intros H. apply elem_of_cons in H as [->|H]; [left|right; auto].
Qed.

Lemma ok_keys_subset key_of l l' k :
  (forall x, x ∈ l' -> x ∈ l) -> k ∈ ok_keys key_of l' -> k ∈ ok_keys key_of l.
Proof.
  unfold ok_keys. intros Hsub. rewrite !list_elem_of_omap.
  intros (x & Hx & Hk). exists x. split; [auto|exact Hk].
Qed.

Lemma zones_plan_keys p k :
  k ∈ map fst (fst (zones_plan p)) -> k ∈ payload_zone_ids p.
Proof.
  unfold zones_plan, payload_zone_ids.
  destruct (zones_elements p) as [zs|e]; [|intros H; inversion H].
  destruct (truthy zs); [|intros H; inversion H].
  unfold _filter_zones, rbind.
  destruct (py_iter zs) as [items|e]; [|intros H; inversion H].
  destruct (filter_r zone_test items) as [filtered|e] eqn:Hf; [|intros H; inversion H].
  intros H. apply merge_plan_keys in H.
  eapply ok_keys_subset; [|exact H]. eapply filter_r_subset, Hf.
Qed.

Lemma tiles_plan_keys p k :
  k ∈ map fst (fst (tiles_plan p)) -> k ∈ payload_tile_ids p.
Proof.
  unfold tiles_plan, payload_tile_ids.
  destruct (py_get p "tiles" (JArr [])) as [ts|e]; [|intros H; inversion H].
  destruct (truthy ts); [|intros H; inversion H].
  unfold _filter_tiles, rbind.
  destruct (py_iter ts) as [items|e]; [|intros H; inversion H].
  destruct (filter_r tile_test items) as [filtered|e] eqn:Hf; [|intros H; inversion H].
  intros H. apply merge_plan_keys in H.
  eapply ok_keys_subset; [|exact H]. eapply filter_r_subset, Hf.
Qed.

(** ** The caches after each refresh operation *)

Lemma zones_of_insert w w' m r m' :
  modules (self w') = <[m := r]> (modules (self w)) ->
  zones_of w' m' = if decide (m = m') then zones r else zones_of w m'.
Proof.
  intros H. unfold zones_of. rewrite H, lookup_insert.
  destruct (decide (m = m')); reflexivity.
Qed.

Lemma tiles_of_insert w w' m r m' :
  modules (self w') = <[m := r]> (modules (self w)) ->
  tiles_of w' m' = if decide (m = m') then tiles r else tiles_of w m'.
Proof.
  intros H. unfold tiles_of. rewrite H, lookup_insert.
  destruct (decide (m = m')); reflexivity.
Qed.

Lemma zones_module_or_empty w m : zones (module_or_empty w m) = zones_of w m.
Proof. unfold module_or_empty, zones_of. destruct (modules (self w) !! m); reflexivity. Qed.

Lemma tiles_module_or_empty w m : tiles (module_or_empty w m) = tiles_of w m.
Proof. unfold module_or_empty, tiles_of. destruct (modules (self w) !! m); reflexivity. Qed.

Lemma module_data_cache E m w m' :
  truthy (authenticated (self w)) = true ->
  zones_of (snd (module_data E m w)) m'
  = (if decide (m = m') then zones_after (fetched E w m) (zones_of w m)
     else zones_of w m') /\
  tiles_of (snd (module_data E m w)) m'
  = (if decide (m = m') then tiles_after_module_data (fetched E w m) (tiles_of w m)
     else tiles_of w m').
Proof.
  intros Ha. rewrite (module_data_run E m w Ha). cbv zeta.
  unfold zones_after, tiles_after_module_data.
  destruct (guarded_result (fetched E w m)) as [p|e]; cbn [snd].
  - erewrite (zones_of_insert w _ m _ m'), (tiles_of_insert w _ m _ m') by reflexivity.
    unfold refreshed.
    destruct (snd (zones_plan p)); [|destruct (snd (tiles_plan p))]; cbn [snd zones tiles
      with_zones with_tiles with_last_update];
      rewrite ?zones_module_or_empty, ?tiles_module_or_empty; split; reflexivity.
  - erewrite (zones_of_insert w _ m _ m'), (tiles_of_insert w _ m _ m') by reflexivity.
    rewrite zones_module_or_empty, tiles_module_or_empty. split; reflexivity.
Qed.

Lemma get_module_zones_cache E m w m' :
  truthy (authenticated (self w)) = true ->
  zones_of (snd (get_module_zones E m w)) m'
  = (if decide (m = m') then zones_after (fetched E w m) (zones_of w m)
     else zones_of w m') /\
  tiles_of (snd (get_module_zones E m w)) m' = tiles_of w m'.
Proof.
  intros Ha. rewrite (get_module_zones_run E m w Ha). cbv zeta. unfold zones_after.
  destruct (guarded_result (fetched E w m)) as [p|e]; cbn [snd];
    erewrite (zones_of_insert w _ m _ m'), (tiles_of_insert w _ m _ m') by reflexivity;
    cbn [zones tiles with_zones];
    rewrite ?zones_module_or_empty, ?tiles_module_or_empty;
    (split; [reflexivity|]); destruct (decide (m = m')) as [->|]; reflexivity.
Qed.

Lemma get_module_tiles_cache E m w m' :
  truthy (authenticated (self w)) = true ->
  zones_of (snd (get_module_tiles E m w)) m' = zones_of w m' /\
  tiles_of (snd (get_module_tiles E m w)) m'
  = (if decide (m = m') then tiles_after (fetched E w m) (tiles_of w m)
     else tiles_of w m').
Proof.
  intros Ha. rewrite (get_module_tiles_run E m w Ha). cbv zeta. unfold tiles_after.
  destruct (guarded_result (fetched E w m)) as [p|e]; cbn [snd];
    erewrite (zones_of_insert w _ m _ m'), (tiles_of_insert w _ m _ m') by reflexivity;
    cbn [zones tiles with_tiles];
    rewrite ?zones_module_or_empty, ?tiles_module_or_empty;
    (split; [|reflexivity]); destruct (decide (m = m')) as [->|]; reflexivity.
Qed.

Lemma zones_after_merged E w m :
  merged_from (fetched_zone_ids E w m) (zones_of w m)
    (zones_after (fetched E w m) (zones_of w m)).
Proof.
  unfold zones_after, fetched_zone_ids.
  destruct (guarded_result (fetched E w m)) as [p|e]; [|apply merged_from_refl].
  exists (fst (zones_plan p)). split; [reflexivity|]. intros k. apply zones_plan_keys.
Qed.

Lemma tiles_after_merged E w m :
  merged_from (fetched_tile_ids E w m) (tiles_of w m)
    (tiles_after (fetched E w m) (tiles_of w m)).
Proof.
  unfold tiles_after, fetched_tile_ids.
  destruct (guarded_result (fetched E w m)) as [p|e]; [|apply merged_from_refl].
  exists (fst (tiles_plan p)). split; [reflexivity|]. intros k. apply tiles_plan_keys.
Qed.

Lemma tiles_after_module_data_merged E w m :
  merged_from (fetched_tile_ids E w m) (tiles_of w m)
    (tiles_after_module_data (fetched E w m) (tiles_of w m)).
Proof.
  unfold tiles_after_module_data, fetched_tile_ids.
  destruct (guarded_result (fetched E w m)) as [p|e]; [|apply merged_from_refl].
  destruct (snd (zones_plan p)); [apply merged_from_refl|].
  exists (fst (tiles_plan p)). split; [reflexivity|]. intros k. apply tiles_plan_keys.
Qed.

(** Every refresh operation only merges, and only under ids of the payload. *)
Lemma refresh_merged E m w m' :
  (merged_from (fetched_zone_ids E w m) (zones_of w m')
     (zones_of (snd (module_data E m w)) m') /\
   merged_from (fetched_tile_ids E w m) (tiles_of w m')
     (tiles_of (snd (module_data E m w)) m')) /\
  (merged_from (fetched_zone_ids E w m) (zones_of w m')
     (zones_of (snd (get_module_zones E m w)) m') /\
   merged_from (fetched_tile_ids E w m) (tiles_of w m')
     (tiles_of (snd (get_module_zones E m w)) m')) /\
  (merged_from (fetched_zone_ids E w m) (zones_of w m')
     (zones_of (snd (get_module_tiles E m w)) m') /\
   merged_from (fetched_tile_ids E w m) (tiles_of w m')
     (tiles_of (snd (get_module_tiles E m w)) m')).
Proof.
  destruct (truthy (authenticated (self w))) eqn:Ha.
  - destruct (module_data_cache E m w m' Ha) as [-> ->].
    destruct (get_module_zones_cache E m w m' Ha) as [-> ->].
    destruct (get_module_tiles_cache E m w m' Ha) as [-> ->].
    destruct (decide (m = m')) as [<-|Hne];
      auto 10 using merged_from_refl, zones_after_merged, tiles_after_merged,
        tiles_after_module_data_merged.
  - unfold module_data, get_module_zones, get_module_tiles.
    rewrite !handle_api_errors_unauthenticated by (exact Ha || reflexivity).
    simpl. auto 10 using merged_from_refl.
Qed.

(** C1: a refresh ([module_data], [get_module_zones] or [get_module_tiles])
    never deletes an id from the zones or tiles of any module, and leaves the
    entry of every zone id and tile id that the payload does not carry as it
    was, whether the refresh returns or raises. *)
Theorem refresh_merge_monotonic (E : Env) (m : string) (w w' : world)
  (m' : string) (k : key) :
  w' = snd (module_data E m w) \/
  w' = snd (get_module_zones E m w) \/
  w' = snd (get_module_tiles E m w) ->
  (is_Some (zones_of w m' !! k) -> is_Some (zones_of w' m' !! k)) /\
  (is_Some (tiles_of w m' !! k) -> is_Some (tiles_of w' m' !! k)) /\
  (k ∉ fetched_zone_ids E w m -> zones_of w' m' !! k = zones_of w m' !! k) /\
  (k ∉ fetched_tile_ids E w m -> tiles_of w' m' !! k = tiles_of w m' !! k).
Proof.
  intros Hw'.
  assert (Hm : merged_from (fetched_zone_ids E w m) (zones_of w m') (zones_of w' m') /\
               merged_from (fetched_tile_ids E w m) (tiles_of w m') (tiles_of w' m')).
  { destruct (refresh_merged E m w m') as (Hd & Hz & Ht).
    destruct Hw' as [->| [->| ->]]; assumption. }
  destruct Hm as [Hzones Htiles]. split_and!.
  - apply (merged_from_keeps _ _ _ _ Hzones).
  - apply (merged_from_keeps _ _ _ _ Htiles).
  - apply (merged_from_other _ _ _ _ Hzones).
  - apply (merged_from_other _ _ _ _ Htiles).
Qed.

Lemma refresh_merge_monotonic_witness :
  zones_of (snd (module_data (constant_env (example_payload [8])) "m" cached_world)) "m"
    !! KNum 7
  = zones_of cached_world "m" !! KNum 7.
Proof.
  apply (refresh_merge_monotonic (constant_env (example_payload [8])) "m" cached_world
           _ "m" (KNum 7)).
  - left. reflexivity.
  - vm_compute. intros H. apply list_elem_of_singleton in H. discriminate H.
Defined.

(** ** Repeated refreshes *)

Lemma module_data_frame E m w :
  authenticated (self (snd (module_data E m w))) = authenticated (self w) /\
  forall m0, module_request (self (snd (module_data E m w))) m0
             = module_request (self w) m0.
Proof.
  destruct (truthy (authenticated (self w))) eqn:Ha.
  - rewrite (module_data_run E m w Ha). cbv zeta.
    destruct (guarded_result (fetched E w m)); split; reflexivity.
  - unfold module_data. rewrite handle_api_errors_unauthenticated by (exact Ha || reflexivity).
    split; reflexivity.
Qed.

Lemma refresh_n_frame E m n w :
  authenticated (self (refresh_n E m n w)) = authenticated (self w) /\
  forall m0, module_request (self (refresh_n E m n w)) m0 = module_request (self w) m0.
Proof.
  induction n as [|n [IHa IHr]]; [split; reflexivity|]. simpl.
  destruct (module_data_frame E m (refresh_n E m n w)) as [Ha Hr]. split.
  - rewrite Ha. exact IHa.
  - intros m0. rewrite Hr. apply IHr.
Qed.

Lemma refresh_n_session_closed E m n w :
  session_closed (refresh_n E m n w) = session_closed w.
Proof.
  induction n as [|n IH]; [reflexivity|]. simpl. rewrite <- IH.
  generalize (refresh_n E m n w). intros w0.
  destruct (truthy (authenticated (self w0))) eqn:Ha.
  - rewrite (module_data_run E m w0 Ha). cbv zeta.
    destruct (guarded_result (fetched E w0 m)); reflexivity.
  - unfold module_data. rewrite handle_api_errors_unauthenticated by (exact Ha || reflexivity).
    reflexivity.
Qed.

Lemma zones_after_idempotent o c : zones_after o (zones_after o c) = zones_after o c.
Proof.
  unfold zones_after. destruct (guarded_result o); [|reflexivity].
  apply apply_writes_idempotent.
Qed.

Lemma tiles_after_module_data_idempotent o c :
  tiles_after_module_data o (tiles_after_module_data o c) = tiles_after_module_data o c.
Proof.
  unfold tiles_after_module_data. destruct (guarded_result o); [|reflexivity].
  destruct (snd (zones_plan _)); [reflexivity|]. apply apply_writes_idempotent.
Qed.

(** One more refresh with the same answer changes neither cache. *)
Lemma module_data_again E m w1 o m' :
  fetched E w1 m = o ->
  (exists c, zones_of w1 m = zones_after o c) ->
  (exists c, tiles_of w1 m = tiles_after_module_data o c) ->
  zones_of (snd (module_data E m w1)) m' = zones_of w1 m' /\
  tiles_of (snd (module_data E m w1)) m' = tiles_of w1 m'.
Proof.
  intros Ho [cz Hz] [ct Ht].
  destruct (truthy (authenticated (self w1))) eqn:Ha.
  - destruct (module_data_cache E m w1 m' Ha) as [-> ->]. rewrite Ho.
    destruct (decide (m = m')) as [<-|]; [|split; reflexivity].
    rewrite Hz, Ht, zones_after_idempotent, tiles_after_module_data_idempotent.
    split; reflexivity.
  - unfold module_data. rewrite handle_api_errors_unauthenticated by (exact Ha || reflexivity).
    split; reflexivity.
Qed.

(** C4: when the server gives the same answer to the module request each
    time, the zones and the tiles of every module after [n >= 1] consecutive
    calls of [module_data] are those after a single call. *)
Theorem refresh_idempotent (E : Env) (m : string) (w : world) (n : nat) (m' : string) :
  same_answer_each_time E (module_request (self w) m) ->
  (1 <= n)%nat ->
  zones_of (refresh_n E m n w) m' = zones_of (refresh_n E m 1 w) m' /\
  tiles_of (refresh_n E m n w) m' = tiles_of (refresh_n E m 1 w) m'.
Proof.
  intros Hsame Hn.
  set (o := fetched E w m).
  assert (Hfetch : forall k, fetched E (refresh_n E m k w) m = o).
  { intros k. unfold o, fetched, session_answer.
    rewrite refresh_n_session_closed. destruct (session_closed w); [reflexivity|].
    destruct (refresh_n_frame E m k w) as [_ ->]. apply Hsame. }
  assert (Hone : forall k, (1 <= k)%nat ->
            (forall m0, zones_of (refresh_n E m k w) m0 = zones_of (refresh_n E m 1 w) m0) /\
            (forall m0, tiles_of (refresh_n E m k w) m0 = tiles_of (refresh_n E m 1 w) m0)).
  { assert (Hfirst : zones_of (refresh_n E m 1 w) m = zones_after o (zones_of w m) /\
                     tiles_of (refresh_n E m 1 w) m
                     = tiles_after_module_data o (tiles_of w m) \/
                     refresh_n E m 1 w = w /\ truthy (authenticated (self w)) = false).
    { simpl. destruct (truthy (authenticated (self w))) eqn:Ha.
      - left. destruct (module_data_cache E m w m Ha) as [-> ->].
        rewrite !decide_True by reflexivity. split; reflexivity.
      - right. unfold module_data.
        rewrite handle_api_errors_unauthenticated by (exact Ha || reflexivity).
        split; reflexivity. }
    induction k as [|k IH]; [lia|]. intros _.
    destruct k as [|k]; [split; reflexivity|].
    destruct IH as [IHz IHt]; [lia|].
    change (refresh_n E m (S (S k)) w)
      with (snd (module_data E m (refresh_n E m (S k) w))).
    destruct Hfirst as [[Hz1 Ht1]|[Hw1 Ha]].
    - split; intros m0.
      + rewrite <- IHz.
        apply (module_data_again E m (refresh_n E m (S k) w) o m0 (Hfetch _)).
        * exists (zones_of w m). rewrite IHz. exact Hz1.
        * exists (tiles_of w m). rewrite IHt. exact Ht1.
      + rewrite <- IHt.
        apply (module_data_again E m (refresh_n E m (S k) w) o m0 (Hfetch _)).
        * exists (zones_of w m). rewrite IHz. exact Hz1.
        * exists (tiles_of w m). rewrite IHt. exact Ht1.
    - assert (Ha' : truthy (authenticated (self (refresh_n E m (S k) w))) = false).
      { destruct (refresh_n_frame E m (S k) w) as [-> _]. exact Ha. }
      unfold module_data.
      rewrite handle_api_errors_unauthenticated by (exact Ha' || reflexivity).
      split; assumption. }
  destruct (Hone n Hn) as [Hz Ht]. split; [apply Hz|apply Ht].
Qed.

Lemma refresh_idempotent_witness :
  zones_of (refresh_n (constant_env (example_payload [7; 8])) "m" 3 logged_world) "m"
  = zones_of (refresh_n (constant_env (example_payload [7; 8])) "m" 1 logged_world) "m".
Proof.
  apply (refresh_idempotent (constant_env (example_payload [7; 8])) "m" logged_world 3 "m").
  - intros h h'. reflexivity.
  - lia.
Defined.

(** ** The filter of zones *)

Lemma zone_test_valid zone :
  zone_record zone = true -> zone_test zone = Ok (valid_zone zone).
Proof.
  unfold zone_record, zone_test, valid_zone, rbind.
  destruct zone as [| | | | | |fields]; try discriminate; [reflexivity|].
  simpl. destruct (dict_get fields "zone") as [z|]; [|reflexivity]. simpl.
  destruct z as [| | | | | |sub]; try discriminate; [reflexivity|].
  intros _. simpl.
  destruct (dict_get sub "visibility"); [|reflexivity]. simpl.
  unfold py_ne_str, is_str.
  destruct (dict_get sub "zoneState") as [[| | | |state| |]|]; reflexivity.
Qed.

Lemma filter_r_filter {A} (p : A -> result bool) (q : A -> bool) l :
  (forall x, x ∈ l -> p x = Ok (q x)) -> filter_r p l = Ok (List.filter q l).
Proof.
  induction l as [|x l IH]; intros H; [reflexivity|]. simpl.
  rewrite (H x) by left. simpl. rewrite IH by (intros y Hy; apply H; right; exact Hy).
  simpl. destruct (q x); reflexivity.
Qed.

Lemma merge_plan_all_keys l :
  (forall z, z ∈ l -> exists k, zone_key z = Ok k) ->
  merge_plan zone_key l = (zone_writes l, None).
Proof.
  induction l as [|z l IH]; intros H; [reflexivity|]. simpl.
  destruct (H z) as [k Hk]; [left|]. unfold zone_id_key. rewrite Hk.
  rewrite IH by (intros y Hy; apply H; right; exact Hy). reflexivity.
Qed.

Lemma elem_of_List_filter {A} (q : A -> bool) l x :
  x ∈ List.filter q l <-> x ∈ l /\ q x = true.
Proof. rewrite !list_elem_of_In. apply filter_In. Qed.

(** The plan for a payload of zone records that all carry an id when valid. *)
Lemma zones_plan_records p items :
  zones_elements p = Ok (JArr items) ->
  (forall z, z ∈ items -> zone_record z = true) ->
  (forall z, z ∈ items -> valid_zone z = true -> exists k, zone_key z = Ok k) ->
  zones_plan p = (zone_writes (List.filter valid_zone items), None).
Proof.
  intros Hel Hrec Hid. unfold zones_plan. rewrite Hel.
  destruct items as [|z0 items0] eqn:Hitems; [reflexivity|]. rewrite <- Hitems in *.
  assert (Ht : truthy (JArr items) = true) by (rewrite Hitems; reflexivity).
  rewrite Ht. unfold _filter_zones, rbind. simpl.
  rewrite (filter_r_filter zone_test valid_zone)
    by (intros x Hx; apply zone_test_valid, Hrec, Hx).
  apply merge_plan_all_keys. intros z Hz. apply elem_of_List_filter in Hz as [Hz Hv].
  apply Hid; assumption.
Qed.

Lemma last_write_zone_writes l k z :
  last_write (zone_writes l) k = Some z -> z ∈ l.
Proof.
  intros H. apply last_write_written in H. unfold zone_writes in H.
  apply list_elem_of_fmap in H as (y & [= _ ->] & Hy). exact Hy.
Qed.

Lemma last_write_NoDup ws k v :
  NoDup (map fst ws) -> (k, v) ∈ ws -> last_write ws k = Some v.
Proof.
  induction ws as [|[k' v'] ws IH]; intros Hnd Hin; [inversion Hin|].
  simpl in *. apply NoDup_cons in Hnd as [Hnotin Hnd].
  apply elem_of_cons in Hin as [[= -> ->]|Hin].
  - rewrite last_write_not_written by exact Hnotin.
    rewrite decide_True by reflexivity. reflexivity.
  - rewrite (IH Hnd Hin). reflexivity.
Qed.

(** C3, as stated, fails: a record that passes the five conditions but has
    no id is not cached; the refresh raises [KeyError]. *)
Lemma valid_zone_without_id_raises :
  let E := constant_env (JObj [("zones", JObj [("elements", JArr [zone_without_id])])]) in
  valid_zone zone_without_id = true /\
  fst (get_module_zones E "m" logged_world) = Raise KeyError /\
  fst (module_data E "m" logged_world) = Raise KeyError /\
  zones_of (snd (get_module_zones E "m" logged_world)) "m" !! KNone = None /\
  map_to_list (zones_of (snd (module_data E "m" logged_world)) "m") = [].
Proof. vm_compute. repeat split. Qed.

(** C3, amended: for a payload whose zone records (null, or objects whose
    ["zone"] is absent, null or an object) carry an id whenever they pass the
    test, the refresh operations raise nothing on account of the zones and
    write into the module's zones exactly the records that pass the test
    (non-null, with a non-null ["zone"] sub-record that has a visibility field
    and whose [zoneState] is not ["zoneUnregistered"]), in order, each under
    its id; a record that fails the test is never written; a record that
    passes it is cached under its id (by a later record of the same id when
    there is one). *)
Theorem zones_cached_iff_valid (E : Env) (m : string) (w : world)
  (p : json) (items : list json) :
  truthy (authenticated (self w)) = true ->
  guarded_result (fetched E w m) = Ok p ->
  zones_elements p = Ok (JArr items) ->
  zone_records_with_ids items = true ->
  let accepted := List.filter valid_zone items in
  let wz := snd (get_module_zones E m w) in
  let wd := snd (module_data E m w) in
  fst (get_module_zones E m w) = Ok (zones_of wz m) /\
  (forall e, fst (module_data E m w) = Raise e -> snd (tiles_plan p) = Some e) /\
  zones_of wz m = apply_writes (zone_writes accepted) (zones_of w m) /\
  zones_of wd m = apply_writes (zone_writes accepted) (zones_of w m) /\
  (forall z, z ∈ items -> (z ∈ accepted <-> valid_zone z = true)) /\
  (forall z k, z ∈ items -> valid_zone z = false ->
               zones_of wz m !! k = Some z -> zones_of w m !! k = Some z) /\
  (forall z k, z ∈ items -> valid_zone z = false ->
               zones_of wd m !! k = Some z -> zones_of w m !! k = Some z) /\
  (forall z, z ∈ items -> valid_zone z = true ->
             exists z', z' ∈ accepted /\ zone_id_key z' = zone_id_key z /\
                        zones_of wz m !! zone_id_key z = Some z' /\
                        zones_of wd m !! zone_id_key z = Some z') /\
  (NoDup (map zone_id_key accepted) ->
   forall z, z ∈ items -> valid_zone z = true ->
             zones_of wz m !! zone_id_key z = Some z /\
             zones_of wd m !! zone_id_key z = Some z).
Proof.
  intros Ha Hfetch Hel Hwf accepted wz wd.
  assert (Hrec : forall z, z ∈ items -> zone_record z = true).
  { intros z Hz. apply list_elem_of_In in Hz.
    unfold zone_records_with_ids in Hwf. rewrite forallb_forall in Hwf.
    apply Hwf in Hz. apply andb_true_iff in Hz as [Hz _]. exact Hz. }
  assert (Hid : forall z, z ∈ items -> valid_zone z = true -> exists k, zone_key z = Ok k).
  { intros z Hz Hv. apply list_elem_of_In in Hz.
    unfold zone_records_with_ids in Hwf. rewrite forallb_forall in Hwf.
    apply Hwf in Hz. apply andb_true_iff in Hz as [_ Hz]. rewrite Hv in Hz.
    unfold has_zone_key in Hz. simpl in Hz.
    destruct (zone_key z) as [k|e]; [eauto|discriminate]. }
  pose proof (zones_plan_records p items Hel Hrec Hid) as Hplan. fold accepted in Hplan.
  assert (Hwz : zones_of wz m = apply_writes (zone_writes accepted) (zones_of w m)).
  { unfold wz. destruct (get_module_zones_cache E m w m Ha) as [-> _].
    rewrite decide_True by reflexivity. unfold zones_after.
    rewrite Hfetch, Hplan. reflexivity. }
  assert (Hwd : zones_of wd m = apply_writes (zone_writes accepted) (zones_of w m)).
  { unfold wd. destruct (module_data_cache E m w m Ha) as [-> _].
    rewrite decide_True by reflexivity. unfold zones_after.
    rewrite Hfetch, Hplan. reflexivity. }
  assert (Hdrop : forall z k, z ∈ items -> valid_zone z = false ->
            apply_writes (zone_writes accepted) (zones_of w m) !! k = Some z ->
            zones_of w m !! k = Some z).
  { intros z k Hz Hv. rewrite lookup_apply_writes.
    destruct (last_write (zone_writes accepted) k) as [z'|] eqn:Hl; [|done].
    intros [= ->]. apply last_write_zone_writes in Hl.
    apply elem_of_List_filter in Hl as [_ Hv']. congruence. }
  assert (Hin : forall z, z ∈ items -> valid_zone z = true ->
            exists z', z' ∈ accepted /\ zone_id_key z' = zone_id_key z /\
              apply_writes (zone_writes accepted) (zones_of w m) !! zone_id_key z = Some z').
  { intros z Hz Hv. rewrite lookup_apply_writes.
    destruct (last_write (zone_writes accepted) (zone_id_key z)) as [z'|] eqn:Hl.
    - exists z'. pose proof (last_write_written _ _ _ Hl) as Hw.
      unfold zone_writes in Hw.
      apply list_elem_of_fmap in Hw as (y & [= Hk ->] & Hy). auto.
    - exfalso. assert (Hnot : zone_id_key z ∈ map fst (zone_writes accepted)).
      { unfold zone_writes. rewrite map_map. simpl.
        apply (list_elem_of_fmap_2 zone_id_key). apply elem_of_List_filter. auto. }
      clear -Hl Hnot. induction (zone_writes accepted) as [|[k' v'] ws IH];
        [inversion Hnot|].
      simpl in *. destruct (last_write ws (zone_id_key z)); [discriminate|].
      destruct (decide (k' = zone_id_key z)) as [|Hne]; [discriminate|].
      apply elem_of_cons in Hnot as [Heq|Hnot]; [congruence|auto]. }
  split_and!.
  - rewrite Hwz.
    rewrite (get_module_zones_run E m w Ha). cbv zeta. rewrite Hfetch, Hplan.
    cbn [fst snd]. rewrite zones_module_or_empty. reflexivity.
  - intros e. rewrite (module_data_run E m w Ha). cbv zeta. rewrite Hfetch.
    cbn [fst]. unfold refreshed. rewrite Hplan. cbn [fst snd].
    destruct (snd (tiles_plan p)); [intros [= ->]; reflexivity|discriminate].
  - exact Hwz.
  - exact Hwd.
  - intros z Hz. unfold accepted. rewrite elem_of_List_filter. tauto.
  - intros z k Hz Hv. rewrite Hwz. apply Hdrop; assumption.
  - intros z k Hz Hv. rewrite Hwd. apply Hdrop; assumption.
  - intros z Hz Hv. destruct (Hin z Hz Hv) as (z' & Hz' & Hk & Hl).
    exists z'. rewrite Hwz, Hwd. auto.
  - intros Hnd z Hz Hv. rewrite Hwz, Hwd, lookup_apply_writes.
    rewrite (last_write_NoDup _ (zone_id_key z) z); [split; reflexivity| |].
    + unfold zone_writes. rewrite map_map. exact Hnd.
    + unfold zone_writes. apply (list_elem_of_fmap_2 (fun zone => (zone_id_key zone, zone))).
      apply elem_of_List_filter. auto.
Qed.

Lemma zones_cached_iff_valid_witness :
  zones_of (snd (get_module_zones (constant_env mixed_payload) "m" logged_world)) "m"
  = apply_writes (zone_writes (List.filter valid_zone mixed_items))
      (zones_of logged_world "m").
Proof.
  apply (zones_cached_iff_valid (constant_env mixed_payload) "m" logged_world
           mixed_payload mixed_items); reflexivity.
Defined.

(** ** Lookups after a refresh *)

(** C9: [get_zone] (resp. [get_tile]) first runs [get_module_zones] (resp.
    [get_module_tiles]); an exception of that refresh leaves unchanged;
    after it, the id absent from the module's cached map raises [KeyError],
    which is neither a [TechError] nor a [TechLoginError], and the id present
    returns the cached entry. *)
Theorem get_zone_get_tile_after_refresh (E : Env) (m : string) (id : Z) (w : world) :
  get_zone E m id w =
  (let '(r, w1) := get_module_zones E m w in
   match r with
   | Raise e => (Raise e, w1)
   | Ok _ =>
       (match zones_of w1 m !! KNum id with
        | Some zone => Ok zone
        | None => Raise KeyError
        end, w1)
   end) /\
  get_tile E m id w =
  (let '(r, w1) := get_module_tiles E m w in
   match r with
   | Raise e => (Raise e, w1)
   | Ok _ =>
       (match tiles_of w1 m !! KNum id with
        | Some tile => Ok tile
        | None => Raise KeyError
        end, w1)
   end) /\
  is_TechError KeyError = false /\ is_TechLoginError KeyError = false.
Proof.
  split_and!; try reflexivity.
  - unfold get_zone, bind at 1.
    destruct (get_module_zones E m w) as [[zs|e] w1]; [|reflexivity].
    unfold cached_zones, module_entry, bind, get_self, ret, raise, zones_of. simpl.
    destruct (modules (self w1) !! m) as [r|]; simpl.
    + destruct (zones r !! KNum id); reflexivity.
    + rewrite lookup_empty. reflexivity.
  - unfold get_tile, bind at 1.
    destruct (get_module_tiles E m w) as [[ts|e] w1]; [|reflexivity].
    unfold cached_tiles, module_entry, bind, get_self, ret, raise, tiles_of. simpl.
    destruct (modules (self w1) !! m) as [r|]; simpl.
    + destruct (tiles r !! KNum id); reflexivity.
    + rewrite lookup_empty. reflexivity.
Qed.

(** ** Truncation of the scaled temperature *)




(** ** The request of [set_const_temp] *)

Lemma get_module_zones_frame E m w :
  authenticated (self (snd (get_module_zones E m w))) = authenticated (self w) /\
  user_id (self (snd (get_module_zones E m w))) = user_id (self w) /\
  base_url (self (snd (get_module_zones E m w))) = base_url (self w) /\
  headers (self (snd (get_module_zones E m w))) = headers (self w).
Proof.
  destruct (truthy (authenticated (self w))) eqn:Ha.
  - rewrite (get_module_zones_run E m w Ha). cbv zeta.
    destruct (guarded_result (fetched E w m)); split_and!; reflexivity.
  - unfold get_module_zones.
    rewrite handle_api_errors_unauthenticated by (exact Ha || reflexivity).
    split_and!; reflexivity.
Qed.

(** ** Concurrent guarded refreshes *)

(** *** A coroutine run alone is the method *)

Lemma run_alone_sync E {A} (m : M A) w : run_alone E (sync m) w = m w.
Proof. simpl. destruct (m w); reflexivity. Qed.

Lemma run_alone_tbind E {A B} (t : task A) (k : A -> task B) w :
  run_alone E (tbind t k) w = bind (run_alone E t) (fun a => run_alone E (k a)) w.
Proof.
  revert w. induction t as [r|c IH|f c IH|c IH|c IH|req c IH]; intros w.
  - destruct r; reflexivity.
  - simpl. rewrite IH. reflexivity.
  - simpl. rewrite IH. reflexivity.
  - simpl. rewrite IH. reflexivity.
  - simpl. rewrite IH. reflexivity.
  - simpl. rewrite IH. reflexivity.
Qed.

Lemma run_alone_ttry E {A} (t : task A) (h : exn -> option (task A)) w :
  run_alone E (ttry t h) w
  = try_except (run_alone E t) (fun e => option_map (run_alone E) (h e)) w.
Proof.
  revert w. induction t as [r|c IH|f c IH|c IH|c IH|req c IH]; intros w.
  - destruct r as [a|e]; [reflexivity|].
    unfold try_except. simpl. destruct (h e); reflexivity.
  - simpl. rewrite IH. reflexivity.
  - simpl. rewrite IH. reflexivity.
  - simpl. rewrite IH. reflexivity.
  - simpl. rewrite IH. reflexivity.
  - simpl. rewrite IH. reflexivity.
Qed.

Lemma run_alone_released_at_end E {A} (t : task A) w :
  run_alone E (released_at_end t) w = try_finally (run_alone E t) (set_lock false) w.
Proof.
  revert w. induction t as [r|c IH|f c IH|c IH|c IH|req c IH]; intros w.
  - reflexivity.
  - simpl. rewrite IH. reflexivity.
  - simpl. rewrite IH. reflexivity.
  - simpl. rewrite IH. reflexivity.
  - simpl. rewrite IH. reflexivity.
  - simpl. rewrite IH. reflexivity.
Qed.

Lemma run_alone_with_update_lock E {A} (body : task A) w :
  run_alone E (with_update_lock body) w = async_with_update_lock (run_alone E body) w.
Proof. unfold with_update_lock, async_with_update_lock. simpl. apply run_alone_released_at_end. Qed.

Lemma run_alone_tbind_eq E {A B} (t : task A) (k : A -> task B) (m : M A) (f : A -> M B) :
  (forall w, run_alone E t w = m w) ->
  (forall a w, run_alone E (k a) w = f a w) ->
  forall w, run_alone E (tbind t k) w = bind m f w.
Proof.
  intros Ht Hk w. rewrite run_alone_tbind. unfold bind. rewrite Ht.
  destruct (m w) as [[a|e] w']; [apply Hk|reflexivity].
Qed.

Lemma run_alone_handle_api_errors E {A} name (t : task A) (func : M A) :
  (forall w, run_alone E t w = func w) ->
  forall w, run_alone E (handle_api_errors_coro name t) w = handle_api_errors name func w.
Proof.
  intros Ht w. unfold handle_api_errors_coro, handle_api_errors.
  apply run_alone_tbind_eq; [intros w0; apply run_alone_sync|]. clear w. intros self0 w.
  destruct (negb (truthy (authenticated self0)) && _); [reflexivity|].
  rewrite run_alone_ttry. unfold try_except. rewrite Ht.
  destruct (func w) as [[a|e] w']; [reflexivity|].
  destruct e; reflexivity.
Qed.

Lemma run_alone_make_request E method path data w :
  run_alone E (_make_request_coro method path data) w = _make_request E method path data w.
Proof.
  unfold _make_request_coro, _make_request.
  apply run_alone_tbind_eq; [intros w0; apply run_alone_sync|]. clear w. intros self0 w.
  cbv zeta. rewrite run_alone_ttry. unfold try_except.
  rewrite run_alone_tbind. unfold bind, session_request_coro. simpl run_alone at 1.
  change (lift (fst (session_request E ?r w)) (snd (session_request E ?r w)))
    with (fst (session_request E r w), snd (session_request E r w)).
  rewrite <- surjective_pairing.
  destruct (session_request E _ w) as [[[[status text] body]|e] w'].
  - destruct (negb (status =? 200)); [reflexivity|].
    destruct body; reflexivity.
  - destruct e; reflexivity.
Qed.

Lemma run_alone_get E path w : run_alone E (get_coro path) w = get E path w.
Proof.
  revert w. apply run_alone_handle_api_errors. intros w. apply run_alone_make_request.
Qed.

Lemma run_alone_get_module_data E m w :
  run_alone E (get_module_data_coro m) w = get_module_data E m w.
Proof.
  revert w. apply run_alone_handle_api_errors.
  apply run_alone_tbind_eq; [intros w; apply run_alone_sync|].
  intros self0 w. apply run_alone_get.
Qed.

Lemma run_alone_module_data E m w :
  run_alone E (module_data_coro E m) w = module_data E m w.
Proof.
  revert w. apply run_alone_handle_api_errors. intros w.
  rewrite run_alone_with_update_lock. unfold async_with_update_lock, try_finally.
  assert (Hbody : forall w0,
    run_alone E
      (tbind (sync (time_time E)) (fun now =>
       tbind (sync (_initialize_module_data m)) (fun _ =>
       tbind (get_module_data_coro m) (fun result =>
       sync (merge_payload m now result))))) w0
    = bind (time_time E) (fun now =>
      bind (_initialize_module_data m) (fun _ =>
      bind (get_module_data E m) (fun result => merge_payload m now result))) w0).
  { apply run_alone_tbind_eq; [intros w0; apply run_alone_sync|]. intros now.
    apply run_alone_tbind_eq; [intros w0; apply run_alone_sync|]. intros _.
    apply run_alone_tbind_eq; [intros w0; apply run_alone_get_module_data|]. intros result w0.
    apply run_alone_sync. }
  rewrite Hbody. reflexivity.
Qed.

(** *** The coroutines keep the discipline of the lock *)

Global Instance same_lock_preorder : PreOrder same_lock.
Proof.
  split.
  - intros w. reflexivity.
  - intros w1 w2 w3 H12 H23. unfold same_lock in *. congruence.
Qed.

Lemma same_lock_modify_self f : respects same_lock (modify_self f).
Proof. intros w. reflexivity. Qed.

Lemma same_lock_session_request E req : respects same_lock (session_request E req).
Proof. intros w. unfold session_request. destruct (session_answer E w req); reflexivity. Qed.

Lemma same_lock_store_zone m zone_id zone : respects same_lock (store_zone m zone_id zone).
Proof.
  apply respects_bind; [apply _|apply respects_module_entry, _|]. intros _.
  apply respects_bind; [apply _|apply respects_lift, _|]. intros k.
  apply same_lock_modify_self.
Qed.

Lemma same_lock_store_tile m tile_id tile : respects same_lock (store_tile m tile_id tile).
Proof.
  apply respects_bind; [apply _|apply respects_module_entry, _|]. intros _.
  apply respects_bind; [apply _|apply respects_lift, _|]. intros k.
  apply same_lock_modify_self.
Qed.

Lemma same_lock_store_last_update m now : respects same_lock (store_last_update m now).
Proof.
  apply respects_bind; [apply _|apply respects_module_entry, _|]. intros _.
  apply same_lock_modify_self.
Qed.

Lemma same_lock_merge_payload m now result : respects same_lock (merge_payload m now result).
Proof.
  pose proof same_lock_store_zone as Hz.
  pose proof same_lock_store_tile as Ht.
  unfold merge_payload.
  apply respects_bind; [apply _|apply respects_lift, _|]. intros zs.
  apply respects_bind; [apply _| |].
  { destruct (truthy zs); [|apply respects_ret, _].
    apply respects_bind; [apply _|apply respects_lift, _|]. intros filtered.
    apply respects_merge_zones; auto with typeclass_instances. }
  intros _.
  apply respects_bind; [apply _|apply respects_lift, _|]. intros ts.
  apply respects_bind; [apply _| |].
  { destruct (truthy ts); [|apply respects_ret, _].
    apply respects_bind; [apply _|apply respects_lift, _|]. intros filtered.
    apply respects_merge_tiles; auto with typeclass_instances. }
  intros _.
  apply respects_bind; [apply _|apply same_lock_store_last_update|]. intros _.
  apply respects_module_entry, _.
Qed.

Lemma guarded_sync {A} (held : bool) (m : M A) :
  respects same_lock m -> guarded held held (sync m).
Proof. intros Hm w. split; [intros w'; apply Hm|reflexivity]. Qed.

Lemma guarded_tbind {A B} (t : task A) (k : A -> task B) : forall held_in held_out,
  guarded held_in held_out t ->
  (forall a, guarded held_out held_out (k a)) ->
  guarded held_in held_out (tbind t k).
Proof.
  induction t as [r|c IH|f c IH|c IH|c IH|req c IH]; intros held_in held_out Ht Hk; simpl in *.
  - destruct r as [a|e]; [|exact Ht]. subst held_in. apply Hk.
  - intros w. apply IH; [apply Ht|exact Hk].
  - destruct Ht as [Hf Ht]. split; [exact Hf|]. apply IH; assumption.
  - destruct Ht as (Hin & Hok & Hraise). split_and!; [exact Hin| |].
    + apply IH; assumption.
    + intros e. apply IH; [apply Hraise|exact Hk].
  - destruct Ht as [Hin Ht]. split; [exact Hin|]. apply IH; assumption.
  - destruct Ht as [Hin Ht]. split; [exact Hin|]. intros r. apply IH; [apply Ht|exact Hk].
Qed.

Lemma guarded_ttry {A} (t : task A) (h : exn -> option (task A)) : forall held_in held_out,
  guarded held_in held_out t ->
  (forall e handler, h e = Some handler -> guarded held_out held_out handler) ->
  guarded held_in held_out (ttry t h).
Proof.
  induction t as [r|c IH|f c IH|c IH|c IH|req c IH]; intros held_in held_out Ht Hh; simpl in *.
  - destruct r as [a|e]; [exact Ht|].
    destruct (h e) as [handler|] eqn:He; [|exact Ht].
    subst held_in. exact (Hh e handler He).
  - intros w. apply IH; [apply Ht|exact Hh].
  - destruct Ht as [Hf Ht]. split; [exact Hf|]. apply IH; assumption.
  - destruct Ht as (Hin & Hok & Hraise). split_and!; [exact Hin| |].
    + apply IH; assumption.
    + intros e. apply IH; [apply Hraise|exact Hh].
  - destruct Ht as [Hin Ht]. split; [exact Hin|]. apply IH; assumption.
  - destruct Ht as [Hin Ht]. split; [exact Hin|]. intros r. apply IH; [apply Ht|exact Hh].
Qed.

Lemma guarded_released_at_end {A} (t : task A) : forall held_in,
  guarded held_in true t -> guarded held_in false (released_at_end t).
Proof.
  induction t as [r|c IH|f c IH|c IH|c IH|req c IH]; intros held_in Ht; simpl in *.
  - split; [exact Ht|reflexivity].
  - intros w. apply IH, Ht.
  - destruct Ht as [Hf Ht]. split; [exact Hf|]. apply IH, Ht.
  - destruct Ht as (Hin & Hok & Hraise). split_and!; [exact Hin| |].
    + apply IH, Hok.
    + intros e. apply IH, Hraise.
  - destruct Ht as [Hin Ht]. split; [exact Hin|]. apply IH, Ht.
  - destruct Ht as [Hin Ht]. split; [exact Hin|]. intros r. apply IH, Ht.
Qed.

Lemma guarded_with_update_lock {A} (body : task A) :
  guarded true true body -> guarded false false (with_update_lock body).
Proof.
  intros Hbody. simpl. split_and!; [reflexivity| |reflexivity].
  apply guarded_released_at_end, Hbody.
Qed.

Lemma guarded_handle_api_errors_coro {A} name (held : bool) (func : task A) :
  guarded held held func -> guarded held held (handle_api_errors_coro name func).
Proof.
  intros Hfunc. unfold handle_api_errors_coro.
  apply guarded_tbind; [apply guarded_sync; intros w; reflexivity|]. intros self0.
  destruct (negb (truthy (authenticated self0)) && _); [reflexivity|].
  apply guarded_ttry; [exact Hfunc|].
  intros e handler He. destruct e; inversion He; reflexivity.
Qed.

Lemma guarded_make_request_coro method path data :
  guarded true true (_make_request_coro method path data).
Proof.
  unfold _make_request_coro.
  apply guarded_tbind; [apply guarded_sync; intros w; reflexivity|]. intros self0. cbv zeta.
  apply guarded_ttry.
  - apply guarded_tbind.
    + split; [reflexivity|]. intros r. reflexivity.
    + intros [[status text] body].
      destruct (negb (status =? 200)); [reflexivity|]. destruct body; reflexivity.
  - intros e handler He. destruct e; inversion He; reflexivity.
Qed.

Lemma guarded_get_module_data_coro m : guarded true true (get_module_data_coro m).
Proof.
  apply guarded_handle_api_errors_coro.
  apply guarded_tbind; [apply guarded_sync; intros w; reflexivity|]. intros self0.
  apply guarded_handle_api_errors_coro, guarded_make_request_coro.
Qed.

Lemma guarded_module_data_coro E m : guarded false false (module_data_coro E m).
Proof.
  apply guarded_handle_api_errors_coro, guarded_with_update_lock.
  apply guarded_tbind; [apply guarded_sync; intros w; reflexivity|]. intros now.
  apply guarded_tbind; [apply guarded_sync, same_lock_modify_self|]. intros _.
  apply guarded_tbind; [apply guarded_get_module_data_coro|]. intros result.
  apply guarded_sync, same_lock_merge_payload.
Qed.

(** *** The lock is held exactly while a request is in flight *)

(** A coroutine that keeps the discipline runs to its next wait: if it held
    the lock, it is waiting for the session exactly when the lock is still
    held; if not, it is not waiting for the session and the lock is as it
    found it. *)
Lemma advance_guarded E {A} (t : task A) : forall held w,
  guarded held false t ->
  (held = true -> update_lock w = true) ->
  keeps_discipline (fst (advance E t w)) /\
  (if held then update_lock (snd (advance E t w)) = in_flight (fst (advance E t w))
   else in_flight (fst (advance E t w)) = false /\
        update_lock (snd (advance E t w)) = update_lock w).
Proof.
  induction t as [r|c IH|f c IH|c IH|c IH|req c IH]; intros held w Ht Hw; simpl in *.
  - subst held. split_and!; reflexivity.
  - apply IH; [apply Ht|exact Hw].
  - destruct Ht as [Hf Ht]. destruct (IH held (f w) Ht) as [Hk Hl].
    { intros Hh. rewrite Hf. apply Hw, Hh. }
    split; [exact Hk|]. destruct held; [exact Hl|].
    destruct Hl as [Hin Hl]. split; [exact Hin|]. rewrite Hl. apply Hf.
  - destruct Ht as (-> & Hok & Hraise). split_and!; [exact Hok|exact Hraise|reflexivity|reflexivity].
  - destruct Ht as [-> Ht]. destruct (IH false (set_lock false w) Ht) as (Hk & Hf & Hl).
    { discriminate. }
    split; [exact Hk|]. rewrite Hl, Hf. reflexivity.
  - destruct Ht as [-> Ht]. split; [exact Ht|].
    rewrite (same_lock_session_request E req w). apply Hw. reflexivity.
Qed.

Lemma in_flight_insert {A} (tasks : list (coroutine A)) i c c' :
  tasks !! i = Some c ->
  (length (List.filter in_flight (<[i := c']> tasks)) + Nat.b2n (in_flight c)
   = length (List.filter in_flight tasks) + Nat.b2n (in_flight c'))%nat.
Proof.
  revert i. induction tasks as [|x tasks IH]; intros i Hi; [destruct i; discriminate Hi|].
  destruct i as [|i]; simpl in *.
  - injection Hi as ->. destruct (in_flight c), (in_flight c'); simpl; lia.
  - specialize (IH i Hi). destruct (in_flight x); simpl; lia.
Qed.

Lemma resume_invariant E {A} (tasks : list (coroutine A)) i c t held w :
  tasks !! i = Some c ->
  Forall keeps_discipline tasks ->
  guarded held false t ->
  (held = true -> update_lock w = true) ->
  (length (List.filter in_flight tasks)
   = if held then Nat.b2n (in_flight c)
     else if update_lock w then 1%nat else 0%nat) ->
  (held = false -> in_flight c = false) ->
  Forall keeps_discipline (sys_tasks (resume E i t w tasks)) /\
  lock_invariant (resume E i t w tasks).
Proof.
  intros Hi Hall Ht Hw Hcount Hc.
  destruct (advance_guarded E t held w Ht Hw) as [Hk Hl].
  pose proof (in_flight_insert tasks i c (fst (advance E t w)) Hi) as Hins.
  unfold lock_invariant, fetches_in_flight, resume. simpl.
  split; [apply Forall_insert; assumption|].
  destruct held.
  - rewrite Hl. rewrite Hcount in Hins.
    destruct (in_flight (fst (advance E t w))); simpl in *; lia.
  - destruct Hl as [Hf Hl]. rewrite Hl. rewrite Hf, (Hc eq_refl) in Hins. simpl in Hins. lia.
Qed.

Lemma step_invariant E {A} (s s' : system A) :
  step E s s' ->
  Forall keeps_discipline (sys_tasks s) /\ lock_invariant s ->
  Forall keeps_discipline (sys_tasks s') /\ lock_invariant s'.
Proof.
  intros Hstep [Hall Hinv]. unfold lock_invariant, fetches_in_flight in Hinv.
  destruct Hstep as [w tasks i t Hi|w tasks i k Hi Hfree|w tasks i r k Hi
                    |w tasks i k Hi|w tasks i r k Hi]; simpl in Hall, Hinv.
  - pose proof (proj1 (Forall_lookup _ _) Hall i _ Hi) as Hc. simpl in Hc.
    apply (resume_invariant E tasks i (Ready t) t false w); auto; discriminate.
  - pose proof (proj1 (Forall_lookup _ _) Hall i _ Hi) as [Hok _].
    apply (resume_invariant E tasks i (AtLock k) (k (Ok tt)) true (set_lock true w)); auto.
    rewrite Hinv, Hfree. reflexivity.
  - pose proof (proj1 (Forall_lookup _ _) Hall i _ Hi) as Hc. simpl in Hc.
    pose proof (in_flight_insert tasks i (AtRequest r k) (Finished (Raise CancelledError)) Hi)
      as Hins. simpl in Hins.
    assert (Hlock : update_lock w = true).
    { destruct (update_lock w); [reflexivity|]. lia. }
    apply (resume_invariant E tasks i (AtRequest r k) (k r) true w); auto.
    rewrite Hinv, Hlock. reflexivity.
  - pose proof (proj1 (Forall_lookup _ _) Hall i _ Hi) as [_ Hraise].
    apply (resume_invariant E tasks i (AtLock k) (k (Raise CancelledError)) false w); auto.
    discriminate.
  - pose proof (proj1 (Forall_lookup _ _) Hall i _ Hi) as Hc. simpl in Hc.
    pose proof (in_flight_insert tasks i (AtRequest r k) (Finished (Raise CancelledError)) Hi)
      as Hins. simpl in Hins.
    assert (Hlock : update_lock w = true).
    { destruct (update_lock w); [reflexivity|]. lia. }
    apply (resume_invariant E tasks i (AtRequest r k) (k (Raise CancelledError)) true w); auto.
    rewrite Hinv, Hlock. reflexivity.
Qed.

Lemma calls_invariant E w ms :
  Forall keeps_discipline (sys_tasks (calls E w ms)) /\ lock_invariant (calls E w ms).
Proof.
  unfold lock_invariant, fetches_in_flight, calls. simpl. split.
  - apply Forall_forall. intros c Hc. apply list_elem_of_fmap in Hc as (m & -> & _).
    apply guarded_module_data_coro.
  - induction ms as [|m ms IH]; [reflexivity|exact IH].
Qed.

Lemma reachable_invariant E {A} (s s' : system A) :
  rtc (step E) s s' ->
  Forall keeps_discipline (sys_tasks s) /\ lock_invariant s ->
  Forall keeps_discipline (sys_tasks s') /\ lock_invariant s'.
Proof.
  induction 1 as [s|s1 s2 s3 Hstep _ IH]; [tauto|].
  intros Hinv. apply IH. eapply step_invariant; eassumption.
Qed.

(** *** A coroutine that nothing interrupts *)

Lemma alone_reaches_end E {A} (t : task A) : forall held w,
  guarded held false t ->
  update_lock w = held ->
  rtc (step E)
    {| sys_world := snd (advance E t w); sys_tasks := [fst (advance E t w)] |}
    {| sys_world := snd (run_alone E t w); sys_tasks := [Finished (fst (run_alone E t w))] |}.
Proof.
  induction t as [r|c IH|f c IH|c IH|c IH|req c IH]; intros held w Ht Hw; simpl in *.
  - apply rtc_refl.
  - apply (IH w held w); [apply Ht|exact Hw].
  - destruct Ht as [Hf Ht]. apply (IH held (f w)); [exact Ht|]. rewrite Hf. exact Hw.
  - destruct Ht as (-> & Hok & _).
    eapply rtc_l; [apply (step_acquire E w [AtLock c] 0%nat c eq_refl Hw)|].
    apply (IH (Ok tt) true (set_lock true w)); [exact Hok|reflexivity].
  - destruct Ht as [-> Ht]. apply (IH false (set_lock false w)); [exact Ht|reflexivity].
  - destruct Ht as [-> Ht].
    eapply rtc_l.
    { apply (step_outcome E (snd (session_request E req w))
               [AtRequest (fst (session_request E req w)) c] 0%nat
               (fst (session_request E req w)) c eq_refl). }
    apply (IH (fst (session_request E req w)) true (snd (session_request E req w)));
      [apply Ht|]. rewrite (same_lock_session_request E req w). exact Hw.
Qed.

(** C5: concurrent calls of [module_data] on one client, for the same or for
    different modules, never have two of their requests for a module's
    payload in flight at once.  In every state that the calls reach, however
    the event loop interleaves them and whichever of them are cancelled, at
    most one request is in flight, and one is in flight exactly when the
    client's lock is held.  The coroutine of the model is the method: run
    alone it does what [module_data] does, [with_update_lock] run alone is
    [async with self.update_lock], and a call that nothing interrupts ends
    with the result and in the state of [module_data]. *)
Theorem guarded_refreshes_single_flight (E : Env) (w : world) (ms : list string)
  (s : system module_record) :
  rtc (step E) (calls E w ms) s ->
  ((fetches_in_flight s <= 1)%nat /\
   (fetches_in_flight s = 1%nat <-> update_lock (sys_world s) = true)) /\
  (forall m w0, run_alone E (module_data_coro E m) w0 = module_data E m w0) /\
  (forall (A : Type) (body : task A) w0,
     run_alone E (with_update_lock body) w0 = async_with_update_lock (run_alone E body) w0) /\
  (forall m,
     rtc (step E) (calls E w [m])
       {| sys_world := snd (module_data E m (set_lock false w));
          sys_tasks := [Finished (fst (module_data E m (set_lock false w)))] |}).
Proof.
  intros Hreach. split_and!.
  - destruct (reachable_invariant E _ _ Hreach (calls_invariant E w ms)) as [_ Hinv].
    unfold lock_invariant in Hinv. rewrite Hinv.
    destruct (update_lock (sys_world s)); lia.
  - destruct (reachable_invariant E _ _ Hreach (calls_invariant E w ms)) as [_ Hinv].
    unfold lock_invariant in Hinv. rewrite Hinv.
    destruct (update_lock (sys_world s)); split; congruence.
  - intros m w0. apply run_alone_module_data.
  - intros A body w0. apply run_alone_with_update_lock.
  - intros m. rewrite <- run_alone_module_data.
    eapply rtc_l.
    { apply (step_start E (set_lock false w) [Ready (module_data_coro E m)] 0%nat
               (module_data_coro E m) eq_refl). }
    apply (alone_reaches_end E (module_data_coro E m) false (set_lock false w));
      [apply guarded_module_data_coro|reflexivity].
Qed.

Lemma guarded_refreshes_single_flight_witness :
  let E := constant_env (example_payload [7]) in
  exists s : system module_record,
    rtc (step E) (calls E logged_world ["a"; "b"]) s /\
    update_lock (sys_world s) = true /\
    fetches_in_flight s = 1%nat /\
    sent (sys_world s) = [module_request (self logged_world) "a"].
Proof.
  intros E.
  set (s0 := calls E logged_world ["a"; "b"]).
  set (s1 := resume E 0%nat (module_data_coro E "a") (sys_world s0) (sys_tasks s0)).
  set (k1 := match sys_tasks s1 with AtLock k :: _ => k | _ => fun _ => Done (Raise KeyError) end).
  set (s2 := resume E 0%nat (k1 (Ok tt)) (set_lock true (sys_world s1)) (sys_tasks s1)).
  set (s3 := resume E 1%nat (module_data_coro E "b") (sys_world s2) (sys_tasks s2)).
  assert (Hreach : rtc (step E) s0 s3).
  { eapply rtc_l; [apply (step_start E (sys_world s0) (sys_tasks s0) 0%nat _ eq_refl)|].
    eapply rtc_l; [apply (step_acquire E (sys_world s1) (sys_tasks s1) 0%nat k1 eq_refl eq_refl)|].
    eapply rtc_l; [apply (step_start E (sys_world s2) (sys_tasks s2) 1%nat _ eq_refl)|].
    apply rtc_refl. }
  exists s3. split; [exact Hreach|].
  assert (Hlock : update_lock (sys_world s3) = true) by reflexivity.
  split; [exact Hlock|]. split; [|reflexivity].
  destruct (guarded_refreshes_single_flight E logged_world ["a"; "b"] s3 Hreach)
    as [[_ Hiff] _].
  apply Hiff. exact Hlock.
Defined.

(** * Further properties of the client *)

(** ** What a computation can raise *)

Lemma raises_in_mono {A} (P Q : exn -> Prop) (m : M A) :
  (forall e, P e -> Q e) -> raises_in P m -> raises_in Q m.
Proof. intros HPQ Hm w e He. eapply HPQ, Hm, He. Qed.

Lemma raises_in_ret {A} P (a : A) : raises_in P (ret a).
Proof. intros w e He. discriminate He. Qed.

Lemma raises_in_raise {A} (P : exn -> Prop) e : P e -> raises_in P (@raise A e).
Proof. intros HP w e' [= <-]. exact HP. Qed.

Lemma raises_in_lift {A} (P : exn -> Prop) (r : result A) :
  (forall e, r = Raise e -> P e) -> raises_in P (lift r).
Proof. intros Hr w e He. apply Hr. exact He. Qed.

Lemma raises_in_get_self P : raises_in P get_self.
Proof. intros w e He. discriminate He. Qed.

Lemma raises_in_modify_self P f : raises_in P (modify_self f).
Proof. intros w e He. discriminate He. Qed.


Lemma raises_in_bind {A B} P (m : M A) (k : A -> M B) :
  raises_in P m -> (forall a, raises_in P (k a)) -> raises_in P (bind m k).
Proof.
  intros Hm Hk w e. unfold bind. specialize (Hm w).
  destruct (m w) as [[a|e'] w']; simpl in *.
  - apply Hk.
  - intros [= <-]. apply Hm. reflexivity.
Qed.

Lemma raises_in_for_each {A} P (body : A -> M unit) l :
  (forall x, raises_in P (body x)) -> raises_in P (for_each body l).
Proof.
  intros Hb. induction l as [|x l IH]; simpl.
  - apply raises_in_ret.
  - apply raises_in_bind; auto.
Qed.

Lemma raises_in_try_except {A} (P Q : exn -> Prop) (m : M A) h :
  raises_in Q m ->
  (forall e, Q e -> match h e with Some k => raises_in P k | None => P e end) ->
  raises_in P (try_except m h).
Proof.
  intros Hm Hh w e. unfold try_except. specialize (Hm w).
  destruct (m w) as [[a|e'] w']; simpl in *; [discriminate|].
  specialize (Hh e' (Hm e' eq_refl)). destruct (h e') as [k|].
  - apply Hh.
  - intros [= <-]. exact Hh.
Qed.



(** *** Exceptions of the operations on decoded values *)

Lemma py_getitem_builtin v k e : py_getitem v k = Raise e -> is_builtin_exn e = true.
Proof.
  destruct v; simpl; try (intros [= <-]; reflexivity).
  destruct (dict_get fields k); intros [= <-]; reflexivity.
Qed.

Lemma py_get_builtin v k d e : py_get v k d = Raise e -> is_builtin_exn e = true.
Proof.
  destruct v; simpl; try (intros [= <-]; reflexivity).
  destruct (dict_get fields k); discriminate.
Qed.

Lemma py_in_builtin k v e : py_in k v = Raise e -> is_builtin_exn e = true.
Proof. destruct v; simpl; try (intros [= <-]; reflexivity); discriminate. Qed.

Lemma py_iter_builtin v e : py_iter v = Raise e -> is_builtin_exn e = true.
Proof. destruct v; simpl; try (intros [= <-]; reflexivity); discriminate. Qed.

Lemma py_hash_builtin v e : py_hash v = Raise e -> is_builtin_exn e = true.
Proof. destruct v; simpl; try (intros [= <-]; reflexivity); discriminate. Qed.

Lemma py_int_builtin x e : py_int x = Raise e -> is_builtin_exn e = true.
Proof.
  destruct x as [z|[s|s| |s m e']]; simpl; try discriminate; intros [= <-]; reflexivity.
Qed.

Lemma filter_r_builtin {A} (p : A -> result bool) l e :
  (forall x e, p x = Raise e -> is_builtin_exn e = true) ->
  filter_r p l = Raise e -> is_builtin_exn e = true.
Proof.
  intros Hp. induction l as [|x l IH]; simpl; [discriminate|].
  unfold rbind. destruct (p x) as [b|e'] eqn:Hx.
  - destruct (filter_r p l) as [l'|e']; [discriminate|].
    intros [= <-]. apply IH. reflexivity.
  - intros [= <-]. eapply Hp, Hx.
Qed.

Lemma zone_test_builtin zone e : zone_test zone = Raise e -> is_builtin_exn e = true.
Proof.
  unfold zone_test, rbind. destruct (is_None zone); [discriminate|].
  destruct (py_in "zone" zone) as [b|e'] eqn:H1;
    [|intros [= <-]; eapply py_in_builtin, H1].
  destruct (negb b); [discriminate|].
  destruct (py_getitem zone "zone") as [z|e'] eqn:H2;
    [|intros [= <-]; eapply py_getitem_builtin, H2].
  destruct (is_None z); [discriminate|].
  destruct (py_in "visibility" z) as [b'|e'] eqn:H3;
    [|intros [= <-]; eapply py_in_builtin, H3].
  destruct (negb b'); [discriminate|].
  destruct (py_get z "zoneState" JNull) as [st|e'] eqn:H4;
    [discriminate|intros [= <-]; eapply py_get_builtin, H4].
Qed.


Lemma filter_zones_builtin zs e : _filter_zones zs = Raise e -> is_builtin_exn e = true.
Proof.
  unfold _filter_zones, rbind.
  destruct (py_iter zs) as [items|e'] eqn:H1; [|intros [= <-]; eapply py_iter_builtin, H1].
  apply filter_r_builtin, zone_test_builtin.
Qed.


Lemma zones_elements_builtin p e : zones_elements p = Raise e -> is_builtin_exn e = true.
Proof.
  unfold zones_elements, rbind.
  destruct (py_get p "zones" (JObj [])) as [zs|e'] eqn:H1;
    [|intros [= <-]; eapply py_get_builtin, H1].
  apply py_get_builtin.
Qed.

(** *** Exceptions of the methods *)

Lemma api_exn_builtin e : is_builtin_exn e = true -> api_exn e \/ is_network_exn e = true.
Proof. intros H. left. right. rewrite H. reflexivity. Qed.

Lemma raises_in_lift_builtin {A} (r : result A) :
  (forall e, r = Raise e -> is_builtin_exn e = true) ->
  raises_in (fun e => api_exn e \/ is_network_exn e = true) (lift r).
Proof. intros H. apply raises_in_lift. intros e He. apply api_exn_builtin, H, He. Qed.

Lemma raises_in_session_request E req :
  raises_in (fun e => api_exn e \/ is_network_exn e = true) (session_request E req).
Proof.
  intros w e. unfold session_request.
  destruct (session_answer E w req); simpl; try discriminate; intros [= <-];
    first [right; reflexivity|left; right; reflexivity].
Qed.

Lemma raises_in_make_request E method path data :
  raises_in (fun e => api_exn e \/ is_network_exn e = true)
    (_make_request E method path data).
Proof.
  intros w e. rewrite make_request_run. simpl. unfold request_result.
  destruct (session_answer E w _) as [status text body|err| | |].
  - destruct (negb (status =? 200)); [intros [= <-]; left; left; reflexivity|].
    destruct body; try discriminate; intros [= <-]; left; left; reflexivity.
  - intros [= <-]. left. left. reflexivity.
  - intros [= <-]. right. reflexivity.
  - intros [= <-]. left. right. reflexivity.
  - intros [= <-]. left. right. reflexivity.
Qed.

Lemma raises_in_handle_api_errors {A} name (func : M A) :
  raises_in (fun e => api_exn e \/ is_network_exn e = true) func ->
  raises_in api_exn (handle_api_errors name func).
Proof.
  intros Hf. unfold handle_api_errors.
  apply raises_in_bind; [apply raises_in_get_self|]. intros t.
  destruct (_ && _); [apply raises_in_raise; left; reflexivity|].
  eapply raises_in_try_except; [exact Hf|].
  intros e [He|He].
  - destruct e; try exact He; apply raises_in_raise; left; reflexivity.
  - destruct e; try discriminate He; apply raises_in_raise; left; reflexivity.
Qed.

Lemma raises_in_api {A} (m : M A) :
  raises_in api_exn m -> raises_in (fun e => api_exn e \/ is_network_exn e = true) m.
Proof. apply raises_in_mono. intros e He. left. exact He. Qed.

Lemma raises_in_get E path : raises_in api_exn (get E path).
Proof. apply raises_in_handle_api_errors, raises_in_make_request. Qed.



Lemma raises_in_get_module_data E m : raises_in api_exn (get_module_data E m).
Proof.
  apply raises_in_handle_api_errors, raises_in_bind; [apply raises_in_get_self|].
  intros t. apply raises_in_api, raises_in_get.
Qed.



Lemma raises_in_module_entry m :
  raises_in (fun e => api_exn e \/ is_network_exn e = true) (module_entry m).
Proof.
  apply raises_in_bind; [apply raises_in_get_self|]. intros t.
  destruct (modules t !! m); [apply raises_in_ret|].
  apply raises_in_raise. left. right. reflexivity.
Qed.

Lemma raises_in_cached_zones m :
  raises_in (fun e => api_exn e \/ is_network_exn e = true) (cached_zones m).
Proof.
  apply raises_in_bind; [apply raises_in_module_entry|]. intros r. apply raises_in_ret.
Qed.


Lemma raises_in_merge_zones m l :
  raises_in (fun e => api_exn e \/ is_network_exn e = true) (merge_zones m l).
Proof.
  apply raises_in_for_each. intros zone.
  apply raises_in_bind; [apply raises_in_lift_builtin, py_getitem_builtin|]. intros z.
  apply raises_in_bind; [apply raises_in_lift_builtin, py_getitem_builtin|]. intros i.
  apply raises_in_bind; [apply raises_in_module_entry|]. intros _.
  apply raises_in_bind; [apply raises_in_lift_builtin, py_hash_builtin|]. intros k.
  apply raises_in_modify_self.
Qed.


Lemma raises_in_get_module_zones E m : raises_in api_exn (get_module_zones E m).
Proof.
  apply raises_in_handle_api_errors.
  apply raises_in_bind; [apply raises_in_modify_self|]. intros _.
  apply raises_in_bind; [apply raises_in_api, raises_in_get_module_data|]. intros p.
  apply raises_in_bind; [apply raises_in_lift_builtin, zones_elements_builtin|]. intros zs.
  destruct (negb (truthy zs)); [apply raises_in_cached_zones|].
  apply raises_in_bind; [apply raises_in_lift_builtin, filter_zones_builtin|]. intros l.
  apply raises_in_bind; [apply raises_in_merge_zones|]. intros _.
  apply raises_in_cached_zones.
Qed.








(** ** [authenticate] in closed form *)

Lemma authenticate_run E username password w :
  authenticate E username password w =
  let req := auth_request (self w) username password in
  let w0 := log_request req w in
  match request_result (session_answer E w req) with
  | Raise e =>
      (Raise (if is_TechError e
              then TechLoginError 401 "Login failed: Authentication failed" else e), w0)
  | Ok body =>
      match py_get body "authenticated" (JBool false) with
      | Raise e => (Raise e, w0)
      | Ok a =>
          let w1 := with_self (set_authenticated a) w0 in
          if truthy a then
            match py_getitem body "user_id" with
            | Raise e => (Raise e, w1)
            | Ok uid =>
                let w2 := with_self (set_user_id (py_str E uid)) w1 in
                match py_getitem body "token" with
                | Raise e => (Raise e, w2)
                | Ok tok =>
                    (Ok a,
                     with_self (set_header "Authorization" ("Bearer " ++ py_str E tok))
                       (with_self (set_token tok) w2))
                end
            end
          else (Ok a, w1)
      end
  end.
Proof.
  cbv zeta. unfold authenticate, bind at 1, try_except. unfold bind at 1.
  rewrite make_request_run. fold (auth_request (self w) username password).
  destruct (request_result _) as [body|e] eqn:Hreq.
  - unfold bind at 1, lift at 1.
    destruct (py_get body "authenticated" (JBool false)) as [a|e] eqn:Ha.
    + unfold bind at 1, modify_self at 1. cbv iota beta.
      destruct (truthy a).
      * unfold bind at 1, lift at 1.
        destruct (py_getitem body "user_id") as [uid|e] eqn:Hu.
        -- unfold bind at 1, modify_self at 1. cbv iota beta.
           unfold bind at 1, lift at 1.
           destruct (py_getitem body "token") as [tok|e] eqn:Ht.
           ++ reflexivity.
           ++ cbv iota beta.
              pose proof (py_getitem_builtin _ _ _ Ht) as Hb.
              destruct e; try discriminate Hb; reflexivity.
        -- cbv iota beta. pose proof (py_getitem_builtin _ _ _ Hu) as Hb.
           destruct e; try discriminate Hb; reflexivity.
      * reflexivity.
    + cbv iota beta. pose proof (py_get_builtin _ _ _ _ Ha) as Hb.
      destruct e; try discriminate Hb; reflexivity.
  - cbv iota beta. destruct (is_TechError e); reflexivity.
Qed.

(** X2: when the server answers a login with status 200 and a body whose
    [authenticated] is true and that carries [user_id] and [token],
    [authenticate] returns that true value, stores [str(user_id)] and the
    token, sets the [Authorization] header to ["Bearer <token>"], and leaves
    the caches alone; from then on the decorated methods pass the pre-check
    and their requests carry that header. *)
Theorem authenticate_accepted (E : Env) (username password : string) (w : world)
  (text : string) (fields : list (string * json)) (a uid tok : json) :
  session_answer E w (auth_request (self w) username password)
  = NetResponse 200 text (BodyJson (JObj fields)) ->
  dict_get fields "authenticated" = Some a ->
  truthy a = true ->
  dict_get fields "user_id" = Some uid ->
  dict_get fields "token" = Some tok ->
  let w' := snd (authenticate E username password w) in
  fst (authenticate E username password w) = Ok a /\
  credentials w' = (Some (py_str E uid), tok, a) /\
  headers (self w') = <["Authorization" := "Bearer " ++ py_str E tok]> (headers (self w)) /\
  modules (self w') = modules (self w) /\
  sent w' = (sent w ++ [auth_request (self w) username password])%list /\
  forall path,
    snd (get E path w') = log_request (mk_request (self w') GET path None) w' /\
    req_headers (mk_request (self w') GET path None) !! "Authorization"
    = Some ("Bearer " ++ py_str E tok).
Proof.
  intros Ho Ha Hta Hu Ht. cbv zeta. rewrite authenticate_run. cbv zeta.
  rewrite Ho. simpl. rewrite Ha. simpl. rewrite Hta, Hu, Ht. simpl.
  split_and!; try reflexivity.
  intros path. split.
  - rewrite get_run by exact Hta. reflexivity.
  - simpl. apply lookup_insert_eq.
Qed.

Lemma authenticate_accepted_witness :
  credentials (snd (authenticate accepting_env "user" "pass" fresh_world))
  = (Some "17", JStr "secret", JBool true).
Proof.
  apply (authenticate_accepted accepting_env "user" "pass" fresh_world ""
           [("authenticated", JBool true); ("user_id", JStr "17"); ("token", JStr "secret")]
           (JBool true) (JStr "17") (JStr "secret")); reflexivity.
Defined.

(** X3: when the body of status 200 says [authenticated] true and carries a
    [user_id] but no [token], [authenticate] raises [KeyError] after it has
    set [authenticated] and [user_id]: the token and the headers are as
    before.  On a client that had no token, [is_authenticated()] is then false
    although the pre-check of the decorated methods passes, so that their
    requests go out. *)
Theorem authenticate_without_token (E : Env) (username password : string) (w : world)
  (text : string) (fields : list (string * json)) (a uid : json) :
  session_answer E w (auth_request (self w) username password)
  = NetResponse 200 text (BodyJson (JObj fields)) ->
  dict_get fields "authenticated" = Some a ->
  truthy a = true ->
  dict_get fields "user_id" = Some uid ->
  dict_get fields "token" = None ->
  let w' := snd (authenticate E username password w) in
  fst (authenticate E username password w) = Raise KeyError /\
  authenticated (self w') = a /\
  user_id (self w') = Some (py_str E uid) /\
  token (self w') = token (self w) /\
  headers (self w') = headers (self w) /\
  (token (self w) = JNull -> fst (is_authenticated w') = Ok (JBool false)) /\
  forall path,
    sent (snd (get E path w')) = (sent w' ++ [mk_request (self w') GET path None])%list.
Proof.
  intros Ho Ha Hta Hu Ht. cbv zeta. rewrite authenticate_run. cbv zeta.
  rewrite Ho. simpl. rewrite Ha. simpl. rewrite Hta, Hu, Ht. simpl.
  split_and!; try reflexivity.
  - intros Htok. unfold is_authenticated, bind, get_self, ret. simpl.
    rewrite Hta, Htok. reflexivity.
  - intros path. rewrite get_run by exact Hta. reflexivity.
Qed.

Lemma authenticate_without_token_witness :
  fst (authenticate half_accepting_env "user" "pass" fresh_world) = Raise KeyError /\
  authenticated (self (snd (authenticate half_accepting_env "user" "pass" fresh_world)))
  = JBool true.
Proof.
  destruct (authenticate_without_token half_accepting_env "user" "pass" fresh_world ""
              [("authenticated", JBool true); ("user_id", JStr "17")] (JBool true)
              (JStr "17") eq_refl eq_refl eq_refl eq_refl eq_refl) as (Hr & Ha & _).
  split; assumption.
Defined.

(** X4: [authenticate] is not decorated: a timeout of its request leaves as a
    raw [TimeoutError], neither a [TechError] nor a [TechLoginError]; a
    failure of the session or a body that cannot be decoded leaves as
    [TechLoginError] (status 401).  In both cases the client object is as it
    was and one request was sent. *)
Theorem authenticate_transport_failure (E : Env) (username password : string)
  (w : world) :
  let o := session_answer E w (auth_request (self w) username password) in
  let r := fst (authenticate E username password w) in
  let w' := snd (authenticate E username password w) in
  (o = NetTimeout ->
   r = Raise TimeoutError /\ is_TechError TimeoutError = false /\
   w' = log_request (auth_request (self w) username password) w) /\
  (undecodable o = true ->
   r = Raise (TechLoginError 401 "Login failed: Authentication failed") /\
   w' = log_request (auth_request (self w) username password) w).
Proof.
  cbv zeta. rewrite authenticate_run. cbv zeta. split.
  - intros ->. simpl. split_and!; reflexivity.
  - destruct (session_answer E w _) as [status text body|err| | |]; try discriminate.
    + destruct body as [j|err|err]; try discriminate; intros _; simpl;
        destruct (negb (status =? 200)); split; reflexivity.
    + intros _. split; reflexivity.
Qed.

Lemma authenticate_transport_failure_witness :
  fst (authenticate timeout_env "user" "pass" fresh_world) = Raise TimeoutError.
Proof.
  apply (authenticate_transport_failure timeout_env "user" "pass" fresh_world).
  reflexivity.
Defined.

(** ** The world after a refresh *)

Lemma module_data_world E m w :
  truthy (authenticated (self w)) = true ->
  exists r,
    modules (self (snd (module_data E m w))) = <[m := r]> (modules (self w)) /\
    sent (snd (module_data E m w)) = (sent w ++ [module_request (self w) m])%list /\
    update_lock (snd (module_data E m w)) = false.
Proof.
  intros Ha. rewrite (module_data_run E m w Ha). cbv zeta.
  destruct (guarded_result (fetched E w m)); eexists; split_and!; reflexivity.
Qed.

Lemma get_module_zones_world E m w :
  truthy (authenticated (self w)) = true ->
  exists r,
    modules (self (snd (get_module_zones E m w))) = <[m := r]> (modules (self w)) /\
    sent (snd (get_module_zones E m w)) = (sent w ++ [module_request (self w) m])%list.
Proof.
  intros Ha. rewrite (get_module_zones_run E m w Ha). cbv zeta.
  destruct (guarded_result (fetched E w m)); eexists; split_and!; reflexivity.
Qed.

Lemma get_module_tiles_world E m w :
  truthy (authenticated (self w)) = true ->
  exists r,
    modules (self (snd (get_module_tiles E m w))) = <[m := r]> (modules (self w)) /\
    sent (snd (get_module_tiles E m w)) = (sent w ++ [module_request (self w) m])%list.
Proof.
  intros Ha. rewrite (get_module_tiles_run E m w Ha). cbv zeta.
  destruct (guarded_result (fetched E w m)); eexists; split_and!; reflexivity.
Qed.

Lemma refresh_unauthenticated E m w :
  truthy (authenticated (self w)) = false ->
  snd (module_data E m w) = w /\ snd (get_module_zones E m w) = w /\
  snd (get_module_tiles E m w) = w.
Proof.
  intros Ha. unfold module_data, get_module_zones, get_module_tiles.
  rewrite !handle_api_errors_unauthenticated by (exact Ha || reflexivity).
  split_and!; reflexivity.
Qed.

(** X5: the caches are scoped per module: a refresh of the module [m]
    ([module_data], [get_module_zones] or [get_module_tiles]) leaves the
    record of every other module (zones, tiles and timestamp) as it was,
    whatever the payload carries and whether the refresh returns or raises. *)
Theorem refresh_other_modules_untouched (E : Env) (m m' : string) (w w' : world) :
  w' = snd (module_data E m w) \/
  w' = snd (get_module_zones E m w) \/
  w' = snd (get_module_tiles E m w) ->
  m <> m' ->
  modules (self w') !! m' = modules (self w) !! m'.
Proof.
  intros Hw' Hne. destruct (truthy (authenticated (self w))) eqn:Ha.
  - destruct Hw' as [->| [->| ->]].
    + destruct (module_data_world E m w Ha) as (r & -> & _).
      apply lookup_insert_ne, Hne.
    + destruct (get_module_zones_world E m w Ha) as (r & -> & _).
      apply lookup_insert_ne, Hne.
    + destruct (get_module_tiles_world E m w Ha) as (r & -> & _).
      apply lookup_insert_ne, Hne.
  - destruct (refresh_unauthenticated E m w Ha) as (Hd & Hz & Ht).
    destruct Hw' as [->| [->| ->]]; congruence.
Qed.

Lemma refresh_other_modules_untouched_witness :
  modules (self (snd (module_data (constant_env (example_payload [7; 8])) "other"
                        cached_world))) !! "m"
  = modules (self cached_world) !! "m".
Proof.
  apply (refresh_other_modules_untouched (constant_env (example_payload [7; 8]))
           "other" "m" cached_world).
  - left. reflexivity.
  - discriminate.
Defined.

(** X6: on an authenticated client each refresh operation sends exactly one
    request, a GET without body for [users/<user_id>/modules/<udid>] under the
    base URL, and leaves the module with a record, created empty if it had
    none, also when the request fails. *)
Theorem refresh_sends_one_request (E : Env) (m : string) (w w' : world) :
  truthy (authenticated (self w)) = true ->
  w' = snd (module_data E m w) \/
  w' = snd (get_module_zones E m w) \/
  w' = snd (get_module_tiles E m w) ->
  sent w' = (sent w ++ [module_request (self w) m])%list /\
  is_Some (modules (self w') !! m) /\
  req_method (module_request (self w) m) = GET /\
  req_url (module_request (self w) m)
  = base_url (self w) ++ "users/" ++ fmt_user_id (user_id (self w)) ++ "/modules/" ++ m /\
  req_data (module_request (self w) m) = None /\
  req_headers (module_request (self w) m) = headers (self w).
Proof.
  intros Ha Hw'.
  assert (H : exists r, modules (self w') = <[m := r]> (modules (self w)) /\
                        sent w' = (sent w ++ [module_request (self w) m])%list).
  { destruct Hw' as [->| [->| ->]].
    - destruct (module_data_world E m w Ha) as (r & H1 & H2 & _). eauto.
    - apply get_module_zones_world, Ha.
    - apply get_module_tiles_world, Ha. }
  destruct H as (r & Hm & Hs). split_and!; try reflexivity.
  - exact Hs.
  - rewrite Hm, lookup_insert_eq. eauto.
Qed.

Lemma refresh_sends_one_request_witness :
  sent (snd (get_module_tiles (status_env 500) "m" logged_world))
  = (sent logged_world ++ [module_request (self logged_world) "m"])%list.
Proof.
  apply (refresh_sends_one_request (status_env 500) "m" logged_world).
  - reflexivity.
  - right. right. reflexivity.
Defined.

(** X7: [module_data] stamps [last_update] only when the whole refresh
    succeeds: when it returns, it returns the record now cached for the
    module, stamped with the time read at the start of the call; when it
    raises (pre-check, transport, or a payload of the wrong shape), the
    timestamp of every module is as before, although zones merged before the
    failure stay merged.  On an authenticated client [update_lock] is free
    afterwards either way. *)
Theorem module_data_stamps_on_success (E : Env) (m : string) (w : world) :
  let w' := snd (module_data E m w) in
  (forall r, fst (module_data E m w) = Ok r ->
             modules (self w') !! m = Some r /\
             last_update r = Some (clock E (ticks w))) /\
  (forall e m', fst (module_data E m w) = Raise e ->
                last_update_of w' m' = last_update_of w m') /\
  (truthy (authenticated (self w)) = true -> update_lock w' = false).
Proof.
  cbv zeta. destruct (truthy (authenticated (self w))) eqn:Ha.
  - rewrite (module_data_run E m w Ha). cbv zeta.
    assert (Hlu : forall r m', last_update r = last_update (module_or_empty w m) ->
              last_update_of
                (set_lock false
                   (put_module m r (log_request (module_request (self w) m) (tick w)))) m'
              = last_update_of w m').
    { intros r m' Hr. unfold last_update_of. simpl. rewrite lookup_insert.
      destruct (decide (m = m')) as [<-|]; [|reflexivity].
      rewrite Hr. unfold module_or_empty. destruct (modules (self w) !! m); reflexivity. }
    destruct (guarded_result (fetched E w m)) as [p|e0]; cbn [fst snd].
    + unfold refreshed.
      destruct (snd (zones_plan p)) as [e1|]; [|destruct (snd (tiles_plan p)) as [e2|]];
        cbn [fst snd]; split_and!; try reflexivity; try discriminate.
      * intros e m' _. apply Hlu. reflexivity.
      * intros e m' _. apply Hlu. reflexivity.
      * intros r [= <-]. split; [apply lookup_insert_eq|reflexivity].
    + split_and!; try reflexivity; try discriminate.
      intros e m' _. apply Hlu. reflexivity.
  - destruct (refresh_unauthenticated E m w Ha) as (-> & _).
    unfold module_data.
    rewrite handle_api_errors_unauthenticated by (exact Ha || reflexivity).
    split_and!; try discriminate. reflexivity.
Qed.

Lemma module_data_stamps_on_success_witness :
  let E := constant_env (example_payload [7]) in
  exists r, fst (module_data E "m" logged_world) = Ok r /\
            modules (self (snd (module_data E "m" logged_world))) !! "m" = Some r /\
            last_update r = Some (clock E (ticks logged_world)).
Proof.
  intros E.
  destruct (module_data_stamps_on_success E "m" logged_world) as (Hok & _ & _).
  eexists. split; [reflexivity|]. apply Hok. reflexivity.
Defined.

(** X8: when [get_module_zones] (resp. [get_module_tiles]) returns, it
    returns the whole map now cached for the module: the entries of this
    payload and those kept from earlier refreshes. *)
Theorem fetch_returns_whole_cache (E : Env) (m : string) (w : world) :
  (forall zs, fst (get_module_zones E m w) = Ok zs ->
              zs = zones_of (snd (get_module_zones E m w)) m /\
              forall k, is_Some (zones_of w m !! k) -> is_Some (zs !! k)) /\
  (forall ts, fst (get_module_tiles E m w) = Ok ts ->
              ts = tiles_of (snd (get_module_tiles E m w)) m /\
              forall k, is_Some (tiles_of w m !! k) -> is_Some (ts !! k)).
Proof.
  destruct (refresh_merged E m w m) as (_ & [Hz _] & [_ Ht]).
  destruct (truthy (authenticated (self w))) eqn:Ha.
  - split.
    + intros zs Hr.
      assert (Hzs : zs = zones_of (snd (get_module_zones E m w)) m).
      { revert Hr. rewrite (get_module_zones_run E m w Ha). cbv zeta.
        destruct (guarded_result (fetched E w m)) as [p|e]; [|discriminate].
        cbn [fst snd]. destruct (snd (zones_plan p)); [discriminate|].
        intros [= <-]. unfold zones_of. simpl. rewrite lookup_insert_eq. reflexivity. }
      split; [exact Hzs|]. intros k. rewrite Hzs. apply (merged_from_keeps _ _ _ _ Hz).
    + intros ts Hr.
      assert (Hts : ts = tiles_of (snd (get_module_tiles E m w)) m).
      { revert Hr. rewrite (get_module_tiles_run E m w Ha). cbv zeta.
        destruct (guarded_result (fetched E w m)) as [p|e]; [|discriminate].
        cbn [fst snd]. destruct (snd (tiles_plan p)); [discriminate|].
        intros [= <-]. unfold tiles_of. simpl. rewrite lookup_insert_eq. reflexivity. }
      split; [exact Hts|]. intros k. rewrite Hts. apply (merged_from_keeps _ _ _ _ Ht).
  - unfold get_module_zones, get_module_tiles.
    rewrite !handle_api_errors_unauthenticated by (exact Ha || reflexivity).
    split; intros x; discriminate.
Qed.

Lemma fetch_returns_whole_cache_witness :
  let E := constant_env (example_payload [8]) in
  exists zs, fst (get_module_zones E "m" cached_world) = Ok zs /\
             zs = zones_of (snd (get_module_zones E "m" cached_world)) "m" /\
             is_Some (zs !! KNum 7).
Proof.
  intros E.
  destruct (fetch_returns_whole_cache E "m" cached_world) as (Hz & _).
  eexists. split; [reflexivity|].
  destruct (Hz _ eq_refl) as (Heq & Hkeep). split; [exact Heq|].
  apply Hkeep. eexists. reflexivity.
Defined.

(** ** Failures inside a refresh *)

Lemma zones_cache_of_plan E m w p :
  truthy (authenticated (self w)) = true ->
  guarded_result (fetched E w m) = Ok p ->
  zones_of (snd (get_module_zones E m w)) m
  = apply_writes (fst (zones_plan p)) (zones_of w m) /\
  zones_of (snd (module_data E m w)) m
  = apply_writes (fst (zones_plan p)) (zones_of w m).
Proof.
  intros Ha Hp.
  destruct (get_module_zones_cache E m w m Ha) as [-> _].
  destruct (module_data_cache E m w m Ha) as [-> _].
  rewrite !decide_True by reflexivity. unfold zones_after. rewrite Hp.
  split; reflexivity.
Qed.

Lemma tiles_cache_of_plan E m w p :
  truthy (authenticated (self w)) = true ->
  guarded_result (fetched E w m) = Ok p ->
  tiles_of (snd (get_module_tiles E m w)) m
  = apply_writes (fst (tiles_plan p)) (tiles_of w m) /\
  (snd (zones_plan p) = None ->
   tiles_of (snd (module_data E m w)) m
   = apply_writes (fst (tiles_plan p)) (tiles_of w m)).
Proof.
  intros Ha Hp.
  destruct (get_module_tiles_cache E m w m Ha) as [_ ->].
  destruct (module_data_cache E m w m Ha) as [_ ->].
  rewrite !decide_True by reflexivity. unfold tiles_after, tiles_after_module_data.
  rewrite Hp. split; [reflexivity|]. intros ->. reflexivity.
Qed.

Lemma fetch_results_of_plan E m w p :
  truthy (authenticated (self w)) = true ->
  guarded_result (fetched E w m) = Ok p ->
  (forall e, snd (zones_plan p) = Some e ->
             fst (get_module_zones E m w) = Raise e /\
             fst (module_data E m w) = Raise e) /\
  (forall e, snd (tiles_plan p) = Some e ->
             fst (get_module_tiles E m w) = Raise e) /\
  (snd (zones_plan p) = None -> exists zs, fst (get_module_zones E m w) = Ok zs) /\
  (snd (tiles_plan p) = None -> exists ts, fst (get_module_tiles E m w) = Ok ts).
Proof.
  intros Ha Hp.
  rewrite (get_module_zones_run E m w Ha), (get_module_tiles_run E m w Ha),
    (module_data_run E m w Ha). cbv zeta. rewrite Hp. cbn [fst]. unfold refreshed.
  split_and!.
  - intros e ->. split; reflexivity.
  - intros e ->. reflexivity.
  - intros ->. eauto.
  - intros ->. eauto.
Qed.

(** X9: the filters run over the whole list before anything is merged: when
    the zone filter raises on an element (an element that is not a record),
    [get_module_zones] and [module_data] raise that exception and the zones
    and tiles of the module are as before; likewise the tiles for
    [get_module_tiles] when the tile filter raises. *)
Theorem filter_failure_merges_nothing (E : Env) (m : string) (w : world) (p : json) :
  truthy (authenticated (self w)) = true ->
  guarded_result (fetched E w m) = Ok p ->
  (forall zs e, zones_elements p = Ok zs -> truthy zs = true ->
                _filter_zones zs = Raise e ->
                fst (get_module_zones E m w) = Raise e /\
                fst (module_data E m w) = Raise e /\
                zones_of (snd (get_module_zones E m w)) m = zones_of w m /\
                zones_of (snd (module_data E m w)) m = zones_of w m /\
                tiles_of (snd (module_data E m w)) m = tiles_of w m) /\
  (forall ts e, py_get p "tiles" (JArr []) = Ok ts -> truthy ts = true ->
                _filter_tiles ts = Raise e ->
                fst (get_module_tiles E m w) = Raise e /\
                tiles_of (snd (get_module_tiles E m w)) m = tiles_of w m).
Proof.
  intros Ha Hp.
  destruct (zones_cache_of_plan E m w p Ha Hp) as [Hz Hd].
  destruct (tiles_cache_of_plan E m w p Ha Hp) as [Ht _].
  destruct (fetch_results_of_plan E m w p Ha Hp) as (Hrz & Hrt & _).
  split.
  - intros zs e Hel Htr Hf.
    assert (Hplan : zones_plan p = ([], Some e)).
    { unfold zones_plan. rewrite Hel, Htr, Hf. reflexivity. }
    rewrite Hplan in *. destruct (Hrz e eq_refl) as [H1 H2].
    split_and!; try assumption.
    destruct (module_data_cache E m w m Ha) as [_ ->].
    rewrite decide_True by reflexivity. unfold tiles_after_module_data.
    rewrite Hp, Hplan. reflexivity.
  - intros ts e Hel Htr Hf.
    assert (Hplan : tiles_plan p = ([], Some e)).
    { unfold tiles_plan. rewrite Hel, Htr, Hf. reflexivity. }
    rewrite Hplan in *. split; [apply Hrt; reflexivity|exact Ht].
Qed.

Lemma filter_failure_merges_nothing_witness :
  let E := constant_env (tiles_payload [example_tile 3 true; JNull]) in
  fst (get_module_tiles E "m" logged_world) = Raise AttributeError /\
  tiles_of (snd (get_module_tiles E "m" logged_world)) "m" = tiles_of logged_world "m".
Proof.
  intros E.
  destruct (filter_failure_merges_nothing E "m" logged_world
              (tiles_payload [example_tile 3 true; JNull]) eq_refl eq_refl) as [_ H].
  apply (H (JArr [example_tile 3 true; JNull]) AttributeError); reflexivity.
Defined.

Lemma merge_plan_stops key_of id_key l1 x l2 e :
  (forall z, z ∈ l1 -> key_of z = Ok (id_key z)) ->
  key_of x = Raise e ->
  merge_plan key_of (l1 ++ x :: l2) = (map (fun z => (id_key z, z)) l1, Some e).
Proof.
  intros Hl1 Hx. induction l1 as [|z l1 IH]; simpl.
  - rewrite Hx. reflexivity.
  - rewrite (Hl1 z) by left. rewrite IH by (intros y Hy; apply Hl1; right; exact Hy).
    reflexivity.
Qed.

Lemma zone_key_id_key z : has_zone_key z = true -> zone_key z = Ok (zone_id_key z).
Proof.
  unfold has_zone_key, zone_id_key. destruct (zone_key z); [reflexivity|discriminate].
Qed.

Lemma tile_key_id_key t : has_tile_key t = true -> tile_key t = Ok (tile_id_key t).
Proof.
  unfold has_tile_key, tile_id_key. destruct (tile_key t); [reflexivity|discriminate].
Qed.

Lemma filter_app_cons {A} (q : A -> bool) l1 x l2 :
  q x = true ->
  List.filter q (l1 ++ x :: l2) = (List.filter q l1 ++ x :: List.filter q l2)%list.
Proof. intros Hx. rewrite List.filter_app. simpl. rewrite Hx. reflexivity. Qed.

(** X10: the merge loop is not atomic: when a record that passes the zone
    test has no id usable as a key, [get_module_zones] and [module_data]
    raise at that record ([KeyError] for a missing id), the valid records
    before it in the payload are cached, and no record after it is. *)
Theorem merge_stops_at_record_without_id (E : Env) (m : string) (w : world)
  (p : json) (before after : list json) (bad : json) (e : exn) :
  truthy (authenticated (self w)) = true ->
  guarded_result (fetched E w m) = Ok p ->
  zones_elements p = Ok (JArr (before ++ bad :: after)) ->
  zone_records_with_ids before = true ->
  zone_record bad = true ->
  valid_zone bad = true ->
  zone_key bad = Raise e ->
  forallb zone_record after = true ->
  fst (get_module_zones E m w) = Raise e /\
  fst (module_data E m w) = Raise e /\
  zones_of (snd (get_module_zones E m w)) m
  = apply_writes (zone_writes (List.filter valid_zone before)) (zones_of w m) /\
  zones_of (snd (module_data E m w)) m
  = apply_writes (zone_writes (List.filter valid_zone before)) (zones_of w m).
Proof.
  intros Ha Hp Hel Hbefore Hbad Hvalid Hkey Hafter.
  assert (Hplan : zones_plan p = (zone_writes (List.filter valid_zone before), Some e)).
  { unfold zones_plan. rewrite Hel. simpl truthy.
    replace (match (before ++ bad :: after)%list with [] => false | _ :: _ => true end)
      with true by (destruct before; reflexivity).
    unfold _filter_zones, rbind. simpl py_iter.
    unfold zone_records_with_ids in Hbefore. rewrite forallb_forall in Hbefore.
    rewrite forallb_forall in Hafter.
    rewrite (filter_r_filter zone_test valid_zone).
    - rewrite (filter_app_cons _ _ _ _ Hvalid).
      apply merge_plan_stops; [|exact Hkey].
      intros z Hz. apply elem_of_List_filter in Hz as [Hz Hv].
      apply list_elem_of_In, Hbefore, andb_true_iff in Hz as [_ Hz].
      rewrite Hv in Hz. apply zone_key_id_key, Hz.
    - intros x Hx. apply zone_test_valid.
      apply elem_of_app in Hx as [Hx|Hx].
      + apply list_elem_of_In, Hbefore, andb_true_iff in Hx as [Hx _]. exact Hx.
      + apply elem_of_cons in Hx as [->|Hx]; [exact Hbad|].
        apply Hafter, list_elem_of_In, Hx. }
  destruct (zones_cache_of_plan E m w p Ha Hp) as [Hz Hd].
  destruct (fetch_results_of_plan E m w p Ha Hp) as (Hrz & _).
  rewrite Hplan in *. destruct (Hrz e eq_refl) as [H1 H2].
  split_and!; assumption.
Qed.

Lemma merge_stops_at_record_without_id_witness :
  let E := constant_env
             (JObj [("zones", JObj [("elements",
                JArr [example_zone 7; zone_without_id; example_zone 8])])]) in
  fst (get_module_zones E "m" logged_world) = Raise KeyError /\
  zones_of (snd (get_module_zones E "m" logged_world)) "m"
  = apply_writes (zone_writes (List.filter valid_zone [example_zone 7]))
      (zones_of logged_world "m").
Proof.
  intros E.
  destruct (merge_stops_at_record_without_id E "m" logged_world
              (JObj [("zones", JObj [("elements",
                 JArr [example_zone 7; zone_without_id; example_zone 8])])])
              [example_zone 7] [example_zone 8] zone_without_id KeyError
              eq_refl eq_refl eq_refl eq_refl eq_refl eq_refl eq_refl eq_refl)
    as (H1 & _ & H3 & _).
  split; assumption.
Defined.

(** ** The filter of tiles *)

Lemma tile_test_visible tile :
  is_object tile = true -> tile_test tile = Ok (visible_tile tile).
Proof.
  destruct tile as [| | | | | |fields]; try discriminate. intros _.
  unfold tile_test, visible_tile, rbind. simpl.
  destruct (dict_get fields "visibility"); reflexivity.
Qed.

Lemma merge_plan_tiles_all_keys l :
  (forall t, t ∈ l -> has_tile_key t = true) ->
  merge_plan tile_key l = (tile_writes l, None).
Proof.
  induction l as [|t l IH]; intros H; [reflexivity|]. simpl.
  rewrite (tile_key_id_key t) by (apply H; left).
  rewrite IH by (intros y Hy; apply H; right; exact Hy). reflexivity.
Qed.

Lemma tiles_plan_objects p items :
  py_get p "tiles" (JArr []) = Ok (JArr items) ->
  tile_objects_with_ids items = true ->
  tiles_plan p = (tile_writes (List.filter visible_tile items), None).
Proof.
  intros Hel Hwf. unfold tiles_plan. rewrite Hel.
  destruct items as [|t0 items0] eqn:Hitems; [reflexivity|]. rewrite <- Hitems in *.
  assert (Ht : truthy (JArr items) = true) by (rewrite Hitems; reflexivity).
  rewrite Ht. unfold _filter_tiles, rbind. simpl.
  unfold tile_objects_with_ids in Hwf. rewrite forallb_forall in Hwf.
  rewrite (filter_r_filter tile_test visible_tile).
  - apply merge_plan_tiles_all_keys. intros t Hin.
    apply elem_of_List_filter in Hin as [Hin Hv].
    apply list_elem_of_In, Hwf, andb_true_iff in Hin as [_ Hin].
    rewrite Hv in Hin. exact Hin.
  - intros x Hx. apply tile_test_visible.
    apply list_elem_of_In, Hwf, andb_true_iff in Hx as [Hx _]. exact Hx.
Qed.

(** X11: for a payload whose tiles are objects that carry an id whenever
    they are visible, [get_module_tiles] returns and writes into the module's
    tiles exactly the tiles whose [visibility] is present and true, in
    payload order, each under its id ([module_data] does the same when the
    zones raised nothing); a tile whose [visibility] is false or absent is
    never written. *)
Theorem tiles_cached_iff_visible (E : Env) (m : string) (w : world)
  (p : json) (items : list json) :
  truthy (authenticated (self w)) = true ->
  guarded_result (fetched E w m) = Ok p ->
  py_get p "tiles" (JArr []) = Ok (JArr items) ->
  tile_objects_with_ids items = true ->
  let wt := snd (get_module_tiles E m w) in
  let wd := snd (module_data E m w) in
  fst (get_module_tiles E m w) = Ok (tiles_of wt m) /\
  tiles_of wt m
  = apply_writes (tile_writes (List.filter visible_tile items)) (tiles_of w m) /\
  (snd (zones_plan p) = None ->
   tiles_of wd m
   = apply_writes (tile_writes (List.filter visible_tile items)) (tiles_of w m)) /\
  (forall t k, t ∈ items -> visible_tile t = false ->
               tiles_of wt m !! k = Some t -> tiles_of w m !! k = Some t).
Proof.
  intros Ha Hp Hel Hwf wt wd.
  pose proof (tiles_plan_objects p items Hel Hwf) as Hplan.
  destruct (tiles_cache_of_plan E m w p Ha Hp) as [Ht Hd]. fold wt in Ht. fold wd in Hd.
  rewrite Hplan in Ht, Hd. cbn [fst] in Ht, Hd.
  split_and!.
  - rewrite Ht. rewrite (get_module_tiles_run E m w Ha). cbv zeta.
    rewrite Hp, Hplan. cbn [fst snd]. rewrite tiles_module_or_empty. reflexivity.
  - exact Ht.
  - exact Hd.
  - intros t k Hin Hv. rewrite Ht, lookup_apply_writes.
    destruct (last_write _ k) as [t'|] eqn:Hl; [|done].
    intros [= ->]. apply last_write_written in Hl. unfold tile_writes in Hl.
    apply list_elem_of_fmap in Hl as (y & [= _ ->] & Hy).
    apply elem_of_List_filter in Hy as [_ Hv']. congruence.
Qed.

Lemma tiles_cached_iff_visible_witness :
  let items := [example_tile 3 true; example_tile 4 false;
                JObj [("id", JInt 5); ("type", JInt 11)]] in
  tiles_of (snd (get_module_tiles (constant_env (tiles_payload items)) "m" logged_world))
    "m"
  = apply_writes (tile_writes (List.filter visible_tile items))
      (tiles_of logged_world "m").
Proof.
  intros items.
  apply (tiles_cached_iff_visible (constant_env (tiles_payload items)) "m" logged_world
           (tiles_payload items) items); reflexivity.
Defined.

(** ** Commands *)

(** X12: on an authenticated client [set_zone] sends exactly one request, a
    POST to [users/<user_id>/modules/<udid>/zones] whose body is
    [{"zone": {"id": zone_id, "zoneState": "zoneOn"}}] for [on] and
    ["zoneOff"] otherwise; it needs no cached zone, leaves the client object
    and its caches as they were, and returns or raises what the request
    does. *)
Theorem set_zone_posts_state (E : Env) (m : string) (zone_id : Z) (on : bool)
  (w : world) :
  truthy (authenticated (self w)) = true ->
  let req := mk_request (self w) POST (zones_path (self w) m)
               (Some (zone_state_body zone_id on)) in
  set_zone E m zone_id on w
  = (guarded_result (session_answer E w req), log_request req w) /\
  self (snd (set_zone E m zone_id on w)) = self w /\
  sent (snd (set_zone E m zone_id on w)) = (sent w ++ [req])%list /\
  (b <~ py_getitem (zone_state_body zone_id on) "zone" ;; py_getitem b "zoneState")%tech
  = Ok (JStr (if on then "zoneOn" else "zoneOff")).
Proof.
  intros Ha req.
  assert (Hrun : set_zone E m zone_id on w
                 = (guarded_result (session_answer E w req), log_request req w)).
  { unfold set_zone. apply handle_api_errors_closed'; [exact Ha| |].
    - unfold bind, get_self. rewrite post_run by exact Ha. reflexivity.
    - simpl. intros e. apply guarded_result_not_network. }
  rewrite Hrun. split_and!; reflexivity.
Qed.

Lemma set_zone_posts_state_witness :
  sent (snd (set_zone (constant_env JNull) "m" 7 false logged_world))
  = (sent logged_world
       ++ [mk_request (self logged_world) POST (zones_path (self logged_world) "m")
             (Some (zone_state_body 7 false))])%list.
Proof.
  apply (set_zone_posts_state (constant_env JNull) "m" 7 false logged_world).
  reflexivity.
Defined.

Lemma cached_zones_run m w :
  cached_zones m w
  = (match modules (self w) !! m with
     | Some r => Ok (zones r)
     | None => Raise KeyError
     end, w).
Proof.
  unfold cached_zones, module_entry, bind, get_self, ret, raise. simpl.
  destruct (modules (self w) !! m); reflexivity.
Qed.

Lemma set_const_temp_run E m zone_id target_temp w :
  truthy (authenticated (self w)) = true ->
  set_const_temp E m zone_id target_temp w =
  let w1 := snd (get_module_zones E m w) in
  match fst (get_module_zones E m w) with
  | Raise e => (Raise e, w1)
  | Ok _ =>
      match zones_of w1 m !! KNum zone_id with
      | None => (Raise KeyError, w1)
      | Some zone_data =>
          match py_getitem zone_data "mode" with
          | Raise e => (Raise e, w1)
          | Ok mode =>
              match py_getitem mode "id" with
              | Raise e => (Raise e, w1)
              | Ok mode_id =>
                  match py_int (py_mul_10 target_temp) with
                  | Raise e => (Raise e, w1)
                  | Ok n =>
                      let req := mk_request (self w) POST (zones_path (self w) m)
                                   (Some (const_temp_body mode_id zone_id n)) in
                      (guarded_result (session_answer E w1 req), log_request req w1)
                  end
              end
          end
      end
  end.
Proof.
  intros Ha. cbv zeta.
  destruct (get_module_zones_frame E m w) as (Hau & Hu & Hb & Hh).
  assert (Ha1 : truthy (authenticated (self (snd (get_module_zones E m w)))) = true)
    by (rewrite Hau; exact Ha).
  assert (Hapi : forall e, fst (get_module_zones E m w) = Raise e ->
                           is_network_exn e = false).
  { intros e He. pose proof (raises_in_get_module_zones E m w e He) as [H|H];
      destruct e; try discriminate H; reflexivity. }
  unfold set_const_temp. apply handle_api_errors_closed'; [exact Ha| |].
  - unfold bind at 1.
    destruct (get_module_zones E m w) as [[zs|e] w1] eqn:Hgz; cbn [fst snd] in *;
      [|reflexivity].
    unfold bind at 1. rewrite cached_zones_run. unfold zones_of.
    destruct (modules (self w1) !! m) as [r0|] eqn:Hm0;
      [|rewrite lookup_empty; reflexivity].
    destruct (zones r0 !! KNum zone_id) as [zone_data|]; [|reflexivity].
    unfold bind at 1, get_self at 1. cbv iota beta.
    unfold bind at 1, lift at 1.
    destruct (py_getitem zone_data "mode") as [mode|e]; [|reflexivity]. cbv iota beta.
    unfold bind at 1, lift at 1.
    destruct (py_getitem mode "id") as [mode_id|e]; [|reflexivity]. cbv iota beta.
    unfold bind at 1, lift at 1.
    destruct (py_int (py_mul_10 target_temp)) as [n|e]; [|reflexivity]. cbv iota beta.
    rewrite post_run by exact Ha1.
    unfold mk_request, zones_path, const_temp_body. rewrite Hu, Hb, Hh. reflexivity.
  - intros e.
    destruct (fst (get_module_zones E m w)) as [zs|e0] eqn:Hgz;
      [|cbn [fst]; intros [= <-]; apply Hapi; reflexivity].
    destruct (zones_of _ m !! KNum zone_id) as [zone_data|];
      [|cbn [fst]; intros [= <-]; reflexivity].
    destruct (py_getitem zone_data "mode") as [mode|e1] eqn:H1;
      [|cbn [fst]; intros [= <-]; eapply py_getitem_not_network, H1].
    destruct (py_getitem mode "id") as [mode_id|e1] eqn:H2;
      [|cbn [fst]; intros [= <-]; eapply py_getitem_not_network, H2].
    destruct (py_int (py_mul_10 target_temp)) as [n|e1] eqn:H3.
    + cbn [fst]. apply guarded_result_not_network.
    + cbn [fst]. intros [= <-]. pose proof (py_int_builtin _ _ H3) as Hb'.
      destruct e1; try discriminate Hb'; reflexivity.
Qed.








(** X13: [set_const_temp] posts nothing unless the zone is cached after the
    refresh, carries a mode id, and the scaled temperature is a finite
    number: a zone id absent after the refresh raises [KeyError], a zone
    without [mode] or [mode.id] raises the lookup's exception, a target
    whose binary64 product with 10 is infinite (an infinite target among
    them) raises [OverflowError], and one whose product is NaN raises
    [ValueError]; in each case the world is the one the refresh left, so
    only the refresh request was sent. *)
Theorem set_const_temp_without_post (E : Env) (m : string) (zone_id : Z)
  (target_temp : pynum) (w : world) :
  truthy (authenticated (self w)) = true ->
  (exists zs, fst (get_module_zones E m w) = Ok zs) ->
  let w1 := snd (get_module_zones E m w) in
  let run := set_const_temp E m zone_id target_temp w in
  (zones_of w1 m !! KNum zone_id = None -> run = (Raise KeyError, w1)) /\
  (forall zone_data e,
      zones_of w1 m !! KNum zone_id = Some zone_data ->
      (mode <~ py_getitem zone_data "mode" ;; py_getitem mode "id")%tech = Raise e ->
      run = (Raise e, w1)) /\
  (forall zone_data mode_id f,
      zones_of w1 m !! KNum zone_id = Some zone_data ->
      (mode <~ py_getitem zone_data "mode" ;; py_getitem mode "id")%tech = Ok mode_id ->
      target_temp = PyFloat f ->
      ((exists s, f = S754_infinity s \/ SFmul prec emax f float_ten = S754_infinity s) ->
       run = (Raise OverflowError, w1)) /\
      (f = S754_nan \/ SFmul prec emax f float_ten = S754_nan ->
       run = (Raise ValueError, w1))).
Proof.
  intros Ha [zs Hok] w1 run. unfold run, w1.
  rewrite (set_const_temp_run E m zone_id target_temp w Ha). cbv zeta. rewrite Hok.
  split_and!.
  - intros ->. reflexivity.
  - intros zone_data e ->. unfold rbind.
    destruct (py_getitem zone_data "mode") as [mode|e1]; [|intros [= <-]; reflexivity].
    intros ->. reflexivity.
  - intros zone_data mode_id f ->. unfold rbind.
    destruct (py_getitem zone_data "mode") as [mode|e1]; [|discriminate].
    intros -> ->. split.
    + intros [s [->|Hinf]]; simpl.
      * destruct s; reflexivity.
      * rewrite Hinf. reflexivity.
    + intros [->|Hnan]; simpl; [reflexivity|]. rewrite Hnan. reflexivity.
Qed.

Lemma set_const_temp_without_post_witness :
  let E := constant_env (example_payload [7]) in
  set_const_temp E "m" 9 (PyFloat float_21_5) logged_world
  = (Raise KeyError, snd (get_module_zones E "m" logged_world)).
Proof.
  intros E.
  apply (set_const_temp_without_post E "m" 9 (PyFloat float_21_5) logged_world).
  - reflexivity.
  - eexists. reflexivity.
  - reflexivity.
Defined.

(** ** Translations *)

Lemma existsb_eqb_elem_of (s : string) (l : list string) :
  existsb (String.eqb s) l = true <-> s ∈ l.
Proof.
  induction l as [|x l IH]; simpl.
  - split; [discriminate|intros H; inversion H].
  - rewrite orb_true_iff, IH, elem_of_cons, String.eqb_eq. reflexivity.
Qed.

(** X14: on an authenticated client [get_translations] sends exactly one
    request, a GET without body for [i18n/<language>], where the language is
    the requested one when it is in [TECH_SUPPORTED_LANGUAGES] and ["en"]
    otherwise; it returns or raises what the request does and leaves the
    client object as it was. *)
Theorem get_translations_falls_back (E : Env) (language : string) (w : world) :
  truthy (authenticated (self w)) = true ->
  exists lang,
    (language ∈ TECH_SUPPORTED_LANGUAGES E -> lang = language) /\
    (language ∉ TECH_SUPPORTED_LANGUAGES E -> lang = "en") /\
    let req := mk_request (self w) GET ("i18n/" ++ lang) None in
    req_url req = base_url (self w) ++ "i18n/" ++ lang /\
    get_translations E language w
    = (guarded_result (session_answer E w req), log_request req w).
Proof.
  intros Ha.
  set (lang := if existsb (String.eqb language) (TECH_SUPPORTED_LANGUAGES E)
               then language else "en").
  exists lang. cbv zeta. split_and!.
  - intros Hin. apply existsb_eqb_elem_of in Hin. unfold lang. rewrite Hin. reflexivity.
  - intros Hnin. unfold lang.
    destruct (existsb (String.eqb language) (TECH_SUPPORTED_LANGUAGES E)) eqn:He;
      [|reflexivity].
    apply existsb_eqb_elem_of in He. contradiction.
  - reflexivity.
  - unfold get_translations. fold lang.
    apply handle_api_errors_closed'; [exact Ha|apply get_run, Ha|].
    intros e. simpl. apply guarded_result_not_network.
Qed.

Lemma get_translations_falls_back_witness :
  sent (snd (get_translations (constant_env JNull) "xx" logged_world))
  = [mk_request (self logged_world) GET "i18n/en" None].
Proof.
  destruct (get_translations_falls_back (constant_env JNull) "xx" logged_world eq_refl)
    as (lang & _ & Hen & _ & Hrun).
  rewrite Hrun, Hen; [reflexivity|].
  intros Hin. apply existsb_eqb_elem_of in Hin. discriminate Hin.
Defined.

(** ** Calls that leave the client object alone *)

Global Instance same_self_preorder : PreOrder same_self.
Proof.
  split.
  - intros w. reflexivity.
  - intros w1 w2 w3 H12 H23. unfold same_self in *. congruence.
Qed.

Lemma same_self_run_call E c : writes_cache c = false -> respects same_self (run_call E c).
Proof.
  intros Hc.
  assert (Hs : forall w w', self w' = self w -> same_self w w') by (intros w w' H; exact H).
  destruct c; try discriminate Hc; simpl; apply respects_void.
  - apply respects_get; auto with typeclass_instances.
  - apply respects_post; auto with typeclass_instances.
  - apply respects_list_modules; auto with typeclass_instances.
  - apply respects_get_module_data; auto with typeclass_instances.
  - apply respects_get_translations; auto with typeclass_instances.
  - apply respects_set_zone; auto with typeclass_instances.
  - apply respects_is_authenticated; auto with typeclass_instances.
  - apply respects_get_module_last_update; auto with typeclass_instances.
  - apply respects_close; auto with typeclass_instances.
Qed.

(** X15: only the refresh operations, the methods that start with one
    ([get_zone], [get_tile], [set_const_temp]) and [clear_module_cache] write
    the client object: every other method ([get], [post], [list_modules],
    [get_module_data], [get_translations], [set_zone], [is_authenticated],
    [get_module_last_update], [close]), and every sequence of them, leaves
    its caches, timestamps, credentials, headers and base URL as they were,
    whether it returns or raises.  In particular [get_module_data] fetches a
    payload without merging it, and [set_zone] does not record the new
    state. *)
Theorem other_calls_keep_client (E : Env) (cs : list call) (w : world) :
  forallb (fun c => negb (writes_cache c)) cs = true ->
  self (run_calls E cs w) = self w.
Proof.
  revert w. induction cs as [|c cs IH]; intros w Hcs; [reflexivity|].
  simpl in Hcs. apply andb_true_iff in Hcs as [Hc Hcs].
  apply negb_true_iff in Hc.
  change (run_calls E (c :: cs) w) with (run_calls E cs (snd (run_call E c w))).
  rewrite (IH _ Hcs). apply (same_self_run_call E c Hc w).
Qed.

Lemma other_calls_keep_client_witness :
  self (run_calls (constant_env (example_payload [8]))
          [CallGetModuleData "m"; CallSetZone "m" 7 false; CallListModules] cached_world)
  = self cached_world.
Proof.
  apply (other_calls_keep_client (constant_env (example_payload [8]))
           [CallGetModuleData "m"; CallSetZone "m" 7 false; CallListModules] cached_world).
  reflexivity.
Defined.

Lemma cached_tiles_run m w :
  cached_tiles m w
  = (match modules (self w) !! m with
     | Some r => Ok (tiles r)
     | None => Raise KeyError
     end, w).
Proof.
  unfold cached_tiles, module_entry, bind, get_self, ret, raise. simpl.
  destruct (modules (self w) !! m); reflexivity.
Qed.

Lemma get_zone_world E m z w : snd (get_zone E m z w) = snd (get_module_zones E m w).
Proof.
  unfold get_zone, bind at 1.
  destruct (get_module_zones E m w) as [[zs|e] w1]; [|reflexivity].
  unfold bind. rewrite cached_zones_run.
  destruct (modules (self w1) !! m) as [r|]; [|reflexivity].
  destruct (zones r !! KNum z); reflexivity.
Qed.

Lemma get_tile_world E m z w : snd (get_tile E m z w) = snd (get_module_tiles E m w).
Proof.
  unfold get_tile, bind at 1.
  destruct (get_module_tiles E m w) as [[ts|e] w1]; [|reflexivity].
  unfold bind. rewrite cached_tiles_run.
  destruct (modules (self w1) !! m) as [r|]; [|reflexivity].
  destruct (tiles r !! KNum z); reflexivity.
Qed.

Lemma set_const_temp_self E m z t w :
  self (snd (set_const_temp E m z t w)) = self (snd (get_module_zones E m w)).
Proof.
  destruct (truthy (authenticated (self w))) eqn:Ha.
  - rewrite (set_const_temp_run E m z t w Ha). cbv zeta.
    destruct (fst (get_module_zones E m w)); [|reflexivity].
    destruct (zones_of _ m !! KNum z) as [zone_data|]; [|reflexivity].
    destruct (py_getitem zone_data "mode") as [mode|]; [|reflexivity].
    destruct (py_getitem mode "id"); [|reflexivity].
    destruct (py_int (py_mul_10 t)); reflexivity.
  - unfold set_const_temp, get_module_zones.
    rewrite !handle_api_errors_unauthenticated by (exact Ha || reflexivity).
    reflexivity.
Qed.

(** X16: [get_zone] and [get_tile] leave the world exactly as the refresh
    they start with ([get_module_zones], [get_module_tiles]) leaves it, and
    [set_const_temp] leaves the client object as its [get_module_zones]
    leaves it: the temperature it posts is not written into the cached zone,
    which keeps the [setTemperature] of the last payload until a later
    refresh. *)
Theorem lookups_and_commands_write_as_refresh (E : Env) (m : string) (id : Z)
  (target_temp : pynum) (w : world) :
  snd (get_zone E m id w) = snd (get_module_zones E m w) /\
  snd (get_tile E m id w) = snd (get_module_tiles E m w) /\
  self (snd (set_const_temp E m id target_temp w)) = self (snd (get_module_zones E m w)) /\
  zones_of (snd (set_const_temp E m id target_temp w)) m
  = zones_of (snd (get_module_zones E m w)) m.
Proof.
  split_and!.
  - apply get_zone_world.
  - apply get_tile_world.
  - apply set_const_temp_self.
  - unfold zones_of. rewrite set_const_temp_self. reflexivity.
Qed.

(** ** Clearing the caches *)

Lemma clear_module_cache_run udid w :
  exists f, clear_module_cache udid w = (Ok tt, with_self (with_modules f) w).
Proof.
  unfold clear_module_cache. destruct udid as [m|]; [|eexists; reflexivity].
  destruct (truthy_str (Some m)); eexists; reflexivity.
Qed.

Lemma clear_module_cache_modules udid w :
  modules (self (snd (clear_module_cache udid w)))
  = match udid with
    | Some m =>
        if String.eqb m "" then ∅
        else match modules (self w) !! m with
             | Some _ => <[m := empty_module]> (modules (self w))
             | None => modules (self w)
             end
    | None => ∅
    end.
Proof.
  unfold clear_module_cache. destruct udid as [m|]; [|reflexivity].
  unfold truthy_str. destruct (String.eqb m ""); reflexivity.
Qed.

Lemma clear_module_cache_record udid m w :
  udid = None \/ udid = Some m ->
  modules (self (snd (clear_module_cache udid w))) !! m = None \/
  modules (self (snd (clear_module_cache udid w))) !! m = Some empty_module.
Proof.
  intros Hu. rewrite clear_module_cache_modules.
  destruct Hu as [->| ->]; [left; apply lookup_empty|].
  destruct (String.eqb m ""); [left; apply lookup_empty|].
  destruct (modules (self w) !! m) eqn:Hm; [right; apply lookup_insert_eq|left; exact Hm].
Qed.

(** X17: [clear_module_cache] sends nothing and never raises.  Given the id
    of a module that has a record, it resets that record to the empty one
    (no zones, no tiles, no timestamp) and leaves the other modules alone;
    given an id without a record, it changes nothing and creates no record;
    given no id, or the empty string, it drops the records of all
    modules. *)
Theorem clear_module_cache_resets (udid : option string) (w : world) :
  let w' := snd (clear_module_cache udid w) in
  fst (clear_module_cache udid w) = Ok tt /\
  sent w' = sent w /\
  credentials w' = credentials w /\
  (forall m, udid = Some m -> m <> "" ->
     forall m', modules (self w') !! m'
                = if decide (m' = m)
                  then (fun _ => empty_module) <$> modules (self w) !! m
                  else modules (self w) !! m') /\
  (udid = None \/ udid = Some "" -> modules (self w') = ∅).
Proof.
  cbv zeta. split_and!.
  - destruct (clear_module_cache_run udid w) as [f ->]. reflexivity.
  - destruct (clear_module_cache_run udid w) as [f ->]. reflexivity.
  - destruct (clear_module_cache_run udid w) as [f ->]. reflexivity.
  - intros m -> Hne m'. rewrite clear_module_cache_modules.
    destruct (String.eqb m "") eqn:Hm; [apply String.eqb_eq in Hm; contradiction|].
    destruct (decide (m' = m)) as [->|Hm'].
    + destruct (modules (self w) !! m) eqn:Hl; simpl.
      * apply lookup_insert_eq.
      * exact Hl.
    + destruct (modules (self w) !! m); [|reflexivity].
      apply lookup_insert_ne. congruence.
  - intros [->| ->]; rewrite clear_module_cache_modules; reflexivity.
Qed.

Lemma clear_module_cache_resets_witness :
  modules (self (snd (clear_module_cache (Some "m") cached_world))) !! "m"
  = Some empty_module.
Proof.
  destruct (clear_module_cache_resets (Some "m") cached_world) as (_ & _ & _ & H & _).
  rewrite (H "m" eq_refl ltac:(discriminate) "m"). reflexivity.
Defined.

Lemma merged_from_empty ids c' k :
  merged_from ids ∅ c' -> is_Some (c' !! k) -> k ∈ ids.
Proof.
  intros (ws & -> & Hids) [v Hv]. rewrite lookup_apply_writes in Hv.
  destruct (last_write ws k) as [v'|] eqn:Hl.
  - apply Hids. apply last_write_written in Hl.
    apply list_elem_of_fmap. exists (k, v'). split; [reflexivity|exact Hl].
  - rewrite lookup_empty in Hv. discriminate Hv.
Qed.

Lemma clear_module_cache_empties udid m w :
  udid = None \/ udid = Some m ->
  zones_of (snd (clear_module_cache udid w)) m = ∅ /\
  tiles_of (snd (clear_module_cache udid w)) m = ∅ /\
  last_update_of (snd (clear_module_cache udid w)) m = None.
Proof.
  intros Hu. unfold zones_of, tiles_of, last_update_of.
  destruct (clear_module_cache_record udid m w Hu) as [-> | ->]; split_and!; reflexivity.
Qed.

Lemma clear_module_cache_fetched E udid m w :
  fetched E (snd (clear_module_cache udid w)) m = fetched E w m.
Proof. destruct (clear_module_cache_run udid w) as [f ->]. reflexivity. Qed.

(** X18: clearing undoes the monotonic merge: after [clear_module_cache] for
    the module (or for all modules), a refresh of the module caches only ids
    that the fetched payload carries; entries of earlier refreshes are
    gone. *)
Theorem clear_then_refresh_drops_stale (E : Env) (udid : option string) (m : string)
  (w : world) (k : key) :
  udid = None \/ udid = Some m ->
  let w1 := snd (clear_module_cache udid w) in
  (is_Some (zones_of (snd (module_data E m w1)) m !! k) -> k ∈ fetched_zone_ids E w m) /\
  (is_Some (tiles_of (snd (module_data E m w1)) m !! k) -> k ∈ fetched_tile_ids E w m) /\
  (is_Some (zones_of (snd (get_module_zones E m w1)) m !! k) ->
   k ∈ fetched_zone_ids E w m) /\
  (is_Some (tiles_of (snd (get_module_tiles E m w1)) m !! k) ->
   k ∈ fetched_tile_ids E w m).
Proof.
  intros Hu w1.
  destruct (clear_module_cache_empties udid m w Hu) as (Hz & Ht & _).
  assert (Hzi : fetched_zone_ids E w1 m = fetched_zone_ids E w m).
  { unfold fetched_zone_ids, w1. rewrite clear_module_cache_fetched. reflexivity. }
  assert (Hti : fetched_tile_ids E w1 m = fetched_tile_ids E w m).
  { unfold fetched_tile_ids, w1. rewrite clear_module_cache_fetched. reflexivity. }
  destruct (refresh_merged E m w1 m) as ([Hdz Hdt] & [Hzz _] & [_ Htt]).
  fold w1 in Hz, Ht. rewrite Hz, Hzi in Hdz, Hzz. rewrite Ht, Hti in Hdt, Htt.
  split_and!; eauto using merged_from_empty.
Qed.

Lemma clear_then_refresh_drops_stale_witness :
  let E := constant_env (example_payload [8]) in
  let w1 := snd (clear_module_cache (Some "m") cached_world) in
  zones_of cached_world "m" !! KNum 7 = Some (example_zone 7) /\
  zones_of (snd (module_data E "m" w1)) "m" !! KNum 7 = None.
Proof.
  intros E w1. split; [reflexivity|].
  destruct (clear_then_refresh_drops_stale E (Some "m") "m" cached_world (KNum 7)
              (or_intror eq_refl)) as (H & _).
  fold w1 in H.
  destruct (zones_of (snd (module_data E "m" w1)) "m" !! KNum 7) as [z|]; [|reflexivity].
  exfalso. specialize (H (ex_intro _ z eq_refl)).
  assert (Hids : fetched_zone_ids E cached_world "m" = [KNum 8]) by reflexivity.
  rewrite Hids in H. apply list_elem_of_singleton in H. discriminate H.
Defined.

(** ** Reading the timestamp *)

Lemma module_data_returns_stamped E m w r :
  fst (module_data E m w) = Ok r ->
  last_update_of (snd (module_data E m w)) m = Some (clock E (ticks w)).
Proof.
  destruct (truthy (authenticated (self w))) eqn:Ha.
  - rewrite (module_data_run E m w Ha). cbv zeta.
    destruct (guarded_result (fetched E w m)) as [p|e0]; cbn [fst snd]; [|discriminate].
    unfold refreshed.
    destruct (snd (zones_plan p)) as [e1|]; [|destruct (snd (tiles_plan p)) as [e2|]];
      cbn [fst snd]; try discriminate.
    intros _. unfold last_update_of. simpl. rewrite lookup_insert_eq. reflexivity.
  - unfold module_data.
    rewrite handle_api_errors_unauthenticated by (exact Ha || reflexivity).
    discriminate.
Qed.

(** X19: [get_module_last_update] only reads: it never raises, sends
    nothing and, unlike the refresh operations, creates no record for a
    module it does not know, for which it returns [None].  Right after a
    [module_data] that returned, it returns the time read at the start of
    that call; right after [clear_module_cache] for the module, or for all
    modules, it returns [None]. *)
Theorem get_module_last_update_reads_stamp (E : Env) (m : string) (w : world) :
  get_module_last_update m w = (Ok (last_update_of w m), w) /\
  (modules (self w) !! m = None -> get_module_last_update m w = (Ok None, w)) /\
  (forall r, fst (module_data E m w) = Ok r ->
             fst (get_module_last_update m (snd (module_data E m w)))
             = Ok (Some (clock E (ticks w)))) /\
  (forall udid, udid = None \/ udid = Some m ->
                fst (get_module_last_update m (snd (clear_module_cache udid w)))
                = Ok None).
Proof.
  assert (Hrun : forall w0, get_module_last_update m w0 = (Ok (last_update_of w0 m), w0))
    by reflexivity.
  split_and!.
  - apply Hrun.
  - intros Hm. rewrite Hrun. unfold last_update_of. rewrite Hm. reflexivity.
  - intros r Hr. rewrite Hrun. cbn [fst].
    rewrite (module_data_returns_stamped E m w r Hr). reflexivity.
  - intros udid Hu. rewrite Hrun. cbn [fst].
    destruct (clear_module_cache_empties udid m w Hu) as (_ & _ & ->). reflexivity.
Qed.

Lemma get_module_last_update_reads_stamp_witness :
  let E := constant_env (example_payload [7]) in
  fst (get_module_last_update "m" (snd (module_data E "m" logged_world)))
  = Ok (Some (clock E (ticks logged_world))).
Proof.
  intros E.
  destruct (get_module_last_update_reads_stamp E "m" logged_world) as (_ & _ & H & _).
  eapply H. reflexivity.
Defined.

(** ** Well-formed caches *)

Lemma merge_plan_written key_of l k x :
  (k, x) ∈ fst (merge_plan key_of l) -> x ∈ l /\ key_of x = Ok k.
Proof.
  induction l as [|y l IH]; simpl; [intros H; inversion H|].
  destruct (key_of y) as [k'|e] eqn:Hy; [|intros H; inversion H].
  destruct (merge_plan key_of l) as [ws e]. simpl in *.
  intros H. apply elem_of_cons in H as [H|H].
  - injection H as -> ->. split; [left|exact Hy].
  - destruct (IH H) as [Hin Hk]. split; [right; exact Hin|exact Hk].
Qed.

Lemma filter_r_passes {A} (p : A -> result bool) l l' x :
  filter_r p l = Ok l' -> x ∈ l' -> p x = Ok true.
Proof.
  revert l'. induction l as [|y l IH]; intros l'; simpl.
  - intros [= <-] Hx. inversion Hx.
  - unfold rbind. destruct (p y) as [b|e] eqn:Hy; [|discriminate].
    destruct (filter_r p l) as [l0|e]; [|discriminate].
    intros [= <-] Hx. destruct b.
    + apply elem_of_cons in Hx as [->|Hx]; [exact Hy|eauto].
    + eauto.
Qed.

Lemma zones_plan_written p k zone :
  (k, zone) ∈ fst (zones_plan p) -> zone_test zone = Ok true /\ zone_key zone = Ok k.
Proof.
  unfold zones_plan.
  destruct (zones_elements p) as [zs|e]; [|intros H; inversion H].
  destruct (truthy zs); [|intros H; inversion H].
  unfold _filter_zones, rbind.
  destruct (py_iter zs) as [items|e]; [|intros H; inversion H].
  destruct (filter_r zone_test items) as [filtered|e] eqn:Hf; [|intros H; inversion H].
  intros H. apply merge_plan_written in H as [Hin Hk].
  split; [eapply filter_r_passes; eassumption|exact Hk].
Qed.

Lemma tiles_plan_written p k tile :
  (k, tile) ∈ fst (tiles_plan p) -> tile_test tile = Ok true /\ tile_key tile = Ok k.
Proof.
  unfold tiles_plan.
  destruct (py_get p "tiles" (JArr [])) as [ts|e]; [|intros H; inversion H].
  destruct (truthy ts); [|intros H; inversion H].
  unfold _filter_tiles, rbind.
  destruct (py_iter ts) as [items|e]; [|intros H; inversion H].
  destruct (filter_r tile_test items) as [filtered|e] eqn:Hf; [|intros H; inversion H].
  intros H. apply merge_plan_written in H as [Hin Hk].
  split; [eapply filter_r_passes; eassumption|exact Hk].
Qed.

Lemma apply_writes_all (P : key -> json -> Prop) ws c :
  (forall k v, (k, v) ∈ ws -> P k v) ->
  (forall k v, c !! k = Some v -> P k v) ->
  forall k v, apply_writes ws c !! k = Some v -> P k v.
Proof.
  intros Hws Hc k v. rewrite lookup_apply_writes.
  destruct (last_write ws k) as [v'|] eqn:Hl.
  - intros [= <-]. apply Hws, last_write_written, Hl.
  - apply Hc.
Qed.

Lemma zones_after_all o c :
  (forall k z, c !! k = Some z -> zone_test z = Ok true /\ zone_key z = Ok k) ->
  forall k z, zones_after o c !! k = Some z -> zone_test z = Ok true /\ zone_key z = Ok k.
Proof.
  intros Hc. unfold zones_after. destruct (guarded_result o) as [p|e]; [|exact Hc].
  apply (apply_writes_all (fun k z => zone_test z = Ok true /\ zone_key z = Ok k));
    [apply zones_plan_written|exact Hc].
Qed.

Lemma tiles_after_all o c :
  (forall k t, c !! k = Some t -> tile_test t = Ok true /\ tile_key t = Ok k) ->
  forall k t, tiles_after o c !! k = Some t -> tile_test t = Ok true /\ tile_key t = Ok k.
Proof.
  intros Hc. unfold tiles_after. destruct (guarded_result o) as [p|e]; [|exact Hc].
  apply (apply_writes_all (fun k t => tile_test t = Ok true /\ tile_key t = Ok k));
    [apply tiles_plan_written|exact Hc].
Qed.

Lemma tiles_after_module_data_all o c :
  (forall k t, c !! k = Some t -> tile_test t = Ok true /\ tile_key t = Ok k) ->
  forall k t, tiles_after_module_data o c !! k = Some t ->
              tile_test t = Ok true /\ tile_key t = Ok k.
Proof.
  intros Hc. unfold tiles_after_module_data.
  destruct (guarded_result o) as [p|e]; [|exact Hc].
  destruct (snd (zones_plan p)); [exact Hc|].
  apply (apply_writes_all (fun k t => tile_test t = Ok true /\ tile_key t = Ok k));
    [apply tiles_plan_written|exact Hc].
Qed.

Lemma well_formed_same_modules w w' :
  modules (self w') = modules (self w) -> well_formed_cache w -> well_formed_cache w'.
Proof.
  intros Hm Hwf m. specialize (Hwf m). unfold zones_of, tiles_of in *.
  rewrite Hm. exact Hwf.
Qed.

Lemma well_formed_module_data E m w :
  well_formed_cache w -> well_formed_cache (snd (module_data E m w)).
Proof.
  intros Hwf. destruct (truthy (authenticated (self w))) eqn:Ha.
  - intros m'. destruct (module_data_cache E m w m' Ha) as [-> ->].
    destruct (decide (m = m')) as [<-|]; [|apply Hwf].
    split; [apply zones_after_all|apply tiles_after_module_data_all]; apply Hwf.
  - destruct (refresh_unauthenticated E m w Ha) as (-> & _). exact Hwf.
Qed.

Lemma well_formed_get_module_zones E m w :
  well_formed_cache w -> well_formed_cache (snd (get_module_zones E m w)).
Proof.
  intros Hwf. destruct (truthy (authenticated (self w))) eqn:Ha.
  - intros m'. destruct (get_module_zones_cache E m w m' Ha) as [-> ->].
    split; [|apply Hwf].
    destruct (decide (m = m')) as [<-|]; [|apply Hwf].
    apply zones_after_all, Hwf.
  - destruct (refresh_unauthenticated E m w Ha) as (_ & -> & _). exact Hwf.
Qed.

Lemma well_formed_get_module_tiles E m w :
  well_formed_cache w -> well_formed_cache (snd (get_module_tiles E m w)).
Proof.
  intros Hwf. destruct (truthy (authenticated (self w))) eqn:Ha.
  - intros m'. destruct (get_module_tiles_cache E m w m' Ha) as [-> ->].
    split; [apply Hwf|].
    destruct (decide (m = m')) as [<-|]; [|apply Hwf].
    apply tiles_after_all, Hwf.
  - destruct (refresh_unauthenticated E m w Ha) as (_ & _ & ->). exact Hwf.
Qed.

Lemma well_formed_clear_module_cache udid w :
  well_formed_cache w -> well_formed_cache (snd (clear_module_cache udid w)).
Proof.
  intros Hwf m'. unfold zones_of, tiles_of. rewrite clear_module_cache_modules.
  assert (Hempty : (forall k v, (∅ : gmap key json) !! k = Some v ->
                                zone_test v = Ok true /\ zone_key v = Ok k) /\
                   (forall k v, (∅ : gmap key json) !! k = Some v ->
                                tile_test v = Ok true /\ tile_key v = Ok k)).
  { split; intros k v Hk; rewrite lookup_empty in Hk; discriminate Hk. }
  destruct udid as [m|]; [|rewrite lookup_empty; exact Hempty].
  destruct (String.eqb m ""); [rewrite lookup_empty; exact Hempty|].
  destruct (modules (self w) !! m) eqn:Hm; [|apply Hwf].
  rewrite lookup_insert. destruct (decide (m = m')); [exact Hempty|apply Hwf].
Qed.

Lemma authenticate_keeps E username password w :
  modules (self (snd (authenticate E username password w))) = modules (self w) /\
  base_url (self (snd (authenticate E username password w))) = base_url (self w).
Proof.
  rewrite authenticate_run. cbv zeta.
  destruct (request_result _) as [body|e]; [|split; reflexivity].
  destruct (py_get body "authenticated" (JBool false)) as [a|e]; [|split; reflexivity].
  destruct (truthy a); [|split; reflexivity].
  destruct (py_getitem body "user_id") as [uid|e]; [|split; reflexivity].
  destruct (py_getitem body "token") as [tok|e]; split; reflexivity.
Qed.

Lemma well_formed_run_call E c w :
  well_formed_cache w -> well_formed_cache (snd (run_call E c w)).
Proof.
  intros Hwf. destruct (writes_cache c) eqn:Hc.
  - assert (Hvoid : forall A (m : M A) w0, snd (void m w0) = snd (m w0)).
    { intros A m0 w0. unfold void. destruct (m0 w0) as [[a|e] w1]; reflexivity. }
    destruct c; try discriminate Hc; simpl; rewrite Hvoid.
    + apply well_formed_get_module_zones, Hwf.
    + apply well_formed_get_module_tiles, Hwf.
    + apply well_formed_module_data, Hwf.
    + rewrite get_zone_world. apply well_formed_get_module_zones, Hwf.
    + rewrite get_tile_world. apply well_formed_get_module_tiles, Hwf.
    + eapply well_formed_same_modules;
        [|apply (well_formed_get_module_zones E module_udid), Hwf].
      rewrite set_const_temp_self. reflexivity.
    + apply well_formed_clear_module_cache, Hwf.
  - eapply well_formed_same_modules; [|exact Hwf].
    rewrite (same_self_run_call E c Hc w). reflexivity.
Qed.

Lemma well_formed_run_method E x w :
  well_formed_cache w -> well_formed_cache (snd (run_method E x w)).
Proof.
  intros Hwf. destruct x as [username password|c]; [|apply well_formed_run_call, Hwf].
  simpl. eapply well_formed_same_modules; [|exact Hwf].
  unfold void.
  destruct (authenticate_keeps E username password w) as [Hm _].
  destruct (authenticate E username password w) as [[a|e] w1]; exact Hm.
Qed.

(** X20: whatever the server answers, in every session of method calls
    ([authenticate] included) on a client that has just been constructed,
    every zone in the cache of every module passed the test of
    [_filter_zones] and sits under its own [zone.id], and every tile passed
    the test of [_filter_tiles] and sits under its own [id]: no sequence of
    refreshes, failed refreshes, lookups, commands and clears gets an
    unregistered zone or an invisible tile into the cache, or a record under
    the id of another one. *)
Theorem cache_well_formed_in_every_session (E : Env) (u t : option string)
  (url : string) (xs : list method) :
  well_formed_cache (run_methods E xs (new_world (__init__ u t url))).
Proof.
  assert (Hgen : forall w, well_formed_cache w -> well_formed_cache (run_methods E xs w)).
  { induction xs as [|x xs IH]; intros w Hwf; [exact Hwf|].
    change (run_methods E (x :: xs) w) with (run_methods E xs (snd (run_method E x w))).
    apply IH, well_formed_run_method, Hwf. }
  apply Hgen. intros m. unfold zones_of, tiles_of, __init__.
  destruct (truthy_str u && truthy_str t); simpl; rewrite lookup_empty;
    split; intros k v Hk; rewrite lookup_empty in Hk; discriminate Hk.
Qed.

(** ** The URL of a request *)

Lemma rstrip_slash_no_slash s : ends_with_slash (rstrip_slash s) = false.
Proof.
  induction s as [|c rest IH]; [reflexivity|]. simpl.
  destruct (rstrip_slash rest) as [|a r] eqn:Hr.
  - destruct (Ascii.eqb c "/") eqn:Hc; [reflexivity|]. simpl. exact Hc.
  - exact IH.
Qed.

Lemma lstrip_slash_no_slash s : starts_with_slash (lstrip_slash s) = false.
Proof.
  induction s as [|c rest IH]; [reflexivity|]. simpl.
  destruct (Ascii.eqb c "/") eqn:Hc; [exact IH|]. simpl. exact Hc.
Qed.

Lemma rstrip_slash_suffix s :
  exists slashes, only_slashes slashes = true /\ s = rstrip_slash s ++ slashes.
Proof.
  induction s as [|c rest (slashes & Hs & Hrest)]; [exists ""; split; reflexivity|].
  simpl. destruct (rstrip_slash rest) as [|a r] eqn:Hr.
  - change (rest = slashes) in Hrest.
    destruct (Ascii.eqb c "/") eqn:Hc.
    + exists (String c slashes). split; [simpl; rewrite Hc; exact Hs|].
      change (String c rest = String c slashes). f_equal. exact Hrest.
    + exists slashes. split; [exact Hs|].
      change (String c rest = String c slashes). f_equal. exact Hrest.
  - exists slashes. split; [exact Hs|].
    change (String c rest = String c (String a r ++ slashes)). f_equal. exact Hrest.
Qed.

Lemma lstrip_slash_prefix s :
  exists slashes, only_slashes slashes = true /\ s = slashes ++ lstrip_slash s.
Proof.
  induction s as [|c rest (slashes & Hs & Hrest)]; [exists ""; split; reflexivity|].
  simpl. destruct (Ascii.eqb c "/") eqn:Hc.
  - exists (String c slashes). split; [simpl; rewrite Hc; exact Hs|].
    change (String c rest = String c (slashes ++ lstrip_slash rest)).
    f_equal. exact Hrest.
  - exists "". split; reflexivity.
Qed.

Global Instance same_field_preorder {A} (field : Tech -> A) : PreOrder (same_field field).
Proof.
  split.
  - intros w. reflexivity.
  - intros w1 w2 w3 H12 H23. unfold same_field in *. congruence.
Qed.

Lemma same_base_url_modules f :
  respects (same_field base_url) (modify_self (with_modules f)).
Proof. intros w. reflexivity. Qed.

Lemma same_base_url_run_call E c : respects (same_field base_url) (run_call E c).
Proof.
  assert (Hs : forall w w', self w' = self w -> same_field base_url w w')
    by (intros w w' H; unfold same_field; rewrite H; reflexivity).
  assert (Hi : forall m, respects (same_field base_url) (_initialize_module_data m))
    by (intros m; apply same_base_url_modules).
  assert (Hz : forall m zone_id zone,
             respects (same_field base_url) (store_zone m zone_id zone)).
  { intros m zone_id zone.
    apply respects_bind; [apply _|apply respects_module_entry, _|]. intros _.
    apply respects_bind; [apply _|apply respects_lift, _|]. intros k.
    apply same_base_url_modules. }
  assert (Ht : forall m tile_id tile,
             respects (same_field base_url) (store_tile m tile_id tile)).
  { intros m tile_id tile.
    apply respects_bind; [apply _|apply respects_module_entry, _|]. intros _.
    apply respects_bind; [apply _|apply respects_lift, _|]. intros k.
    apply same_base_url_modules. }
  destruct c; simpl; apply respects_void.
  - apply respects_get; auto with typeclass_instances.
  - apply respects_post; auto with typeclass_instances.
  - apply respects_list_modules; auto with typeclass_instances.
  - apply respects_get_module_data; auto with typeclass_instances.
  - apply respects_get_translations; auto with typeclass_instances.
  - apply respects_get_module_zones; auto with typeclass_instances.
  - apply respects_get_module_tiles; auto with typeclass_instances.
  - apply respects_module_data; auto with typeclass_instances.
    intros now.
    apply respects_bind; [apply _|apply respects_module_entry, _|]. intros _.
    apply same_base_url_modules.
  - apply respects_get_zone; auto with typeclass_instances.
  - apply respects_get_tile; auto with typeclass_instances.
  - apply respects_set_const_temp; auto with typeclass_instances.
  - apply respects_set_zone; auto with typeclass_instances.
  - apply respects_is_authenticated; auto with typeclass_instances.
  - apply respects_get_module_last_update; auto with typeclass_instances.
  - unfold clear_module_cache. destruct module_udid as [udid|];
      [|apply same_base_url_modules].
    destruct (truthy_str _); apply same_base_url_modules.
  - apply respects_close; auto with typeclass_instances.
Qed.

Lemma same_base_url_run_methods E xs w :
  base_url (self (run_methods E xs w)) = base_url (self w).
Proof.
  revert w. induction xs as [|x xs IH]; intros w; [reflexivity|].
  change (run_methods E (x :: xs) w) with (run_methods E xs (snd (run_method E x w))).
  rewrite IH. destruct x as [username password|c].
  - simpl. unfold void.
    destruct (authenticate_keeps E username password w) as [_ Hb].
    destruct (authenticate E username password w) as [[a|e] w1]; exact Hb.
  - apply (same_base_url_run_call E c w).
Qed.

(** X21: the constructor stores the base URL with its trailing slashes
    replaced by one slash, and no method ever changes it: in every session
    on a client constructed for [url], the request [_make_request] sends for
    [path] goes to the URL made of [url] without its trailing slashes, one
    slash, and [path] without its leading slashes, with the timeout of 30;
    what is stripped on either side is slashes only, so the join has exactly
    one slash between a part that does not end with a slash and a part that
    does not start with one. *)
Theorem request_url_joins_with_one_slash (E : Env) (u t : option string) (url : string)
  (xs : list method) (verb : http_method) (path : string) (data : option json) :
  let w := run_methods E xs (new_world (__init__ u t url)) in
  let req := mk_request (self w) verb path data in
  sent (snd (_make_request E verb path data w)) = (sent w ++ [req])%list /\
  req_url req = (rstrip_slash url ++ "/") ++ lstrip_slash path /\
  req_timeout req = 30 /\
  ends_with_slash (rstrip_slash url) = false /\
  starts_with_slash (lstrip_slash path) = false /\
  (exists slashes, only_slashes slashes = true /\ url = rstrip_slash url ++ slashes) /\
  (exists slashes, only_slashes slashes = true /\ path = slashes ++ lstrip_slash path).
Proof.
  intros w req. split_and!.
  - rewrite make_request_run. reflexivity.
  - unfold req, mk_request, w. cbn [req_url].
    rewrite same_base_url_run_methods. unfold new_world, __init__. cbn [self].
    destruct (truthy_str u && truthy_str t); reflexivity.
  - reflexivity.
  - apply rstrip_slash_no_slash.
  - apply lstrip_slash_no_slash.
  - apply rstrip_slash_suffix.
  - apply lstrip_slash_prefix.
Qed.

(** ** Asking whether the session is authenticated *)

(** X22: [is_authenticated] only reads.  What it returns is true exactly
    when [authenticated] is true and a token is stored.  On a client that
    was constructed and then used without [authenticate], it returns whether
    the constructor was given a non-empty user id and a non-empty token,
    whatever calls were made since and whatever they raised: no answer of the
    server, a status 401 included, makes the client consider itself logged
    out.  When [authenticated] is true without a token, it returns [False]
    although the decorated methods pass the pre-check and send their
    requests. *)
Theorem is_authenticated_reads_credentials (E : Env) (w : world) :
  snd (is_authenticated w) = w /\
  (exists v, fst (is_authenticated w) = Ok v /\
             (truthy v = true <->
              truthy (authenticated (self w)) = true /\ token (self w) <> JNull)) /\
  (forall u t url cs,
      w = run_calls E cs (new_world (__init__ u t url)) ->
      fst (is_authenticated w) = Ok (JBool (truthy_str u && truthy_str t))) /\
  (truthy (authenticated (self w)) = true -> token (self w) = JNull ->
   fst (is_authenticated w) = Ok (JBool false) /\
   forall path, sent (snd (get E path w))
                = (sent w ++ [mk_request (self w) GET path None])%list).
Proof.
  assert (Hrun : forall w0, is_authenticated w0
                 = (Ok (if truthy (authenticated (self w0))
                        then JBool (negb (is_None (token (self w0))))
                        else authenticated (self w0)), w0)) by reflexivity.
  split_and!.
  - rewrite Hrun. reflexivity.
  - rewrite Hrun. eexists. split; [reflexivity|].
    destruct (truthy (authenticated (self w))) eqn:Ha.
    + destruct (token (self w)); simpl;
        (split;
         [intros H; first [discriminate H|split; [reflexivity|discriminate]]
         |intros [_ H]; first [reflexivity|congruence]]).
    + rewrite Ha. split; [discriminate|intros [H _]; discriminate H].
  - intros u t url cs ->. rewrite Hrun. cbn [fst].
    pose proof (same_credentials_run_calls E cs (new_world (__init__ u t url))) as Hc.
    unfold credentials in Hc. injection Hc as _ Htok Hauth. rewrite Hauth, Htok.
    unfold new_world, __init__. cbn [self].
    destruct (truthy_str u && truthy_str t) eqn:Hut; cbn [authenticated token truthy].
    + apply andb_true_iff in Hut as [_ Ht]. destruct t; [reflexivity|discriminate Ht].
    + reflexivity.
  - intros Ha Htok. split.
    + rewrite Hrun, Ha, Htok. reflexivity.
    + intros path. rewrite get_run by exact Ha. reflexivity.
Qed.

Lemma is_authenticated_reads_credentials_witness :
  fst (is_authenticated
         (run_calls (status_env 401) [CallModuleData "m"; CallListModules] logged_world))
  = Ok (JBool true).
Proof.
  destruct (is_authenticated_reads_credentials (status_env 401)
              (run_calls (status_env 401) [CallModuleData "m"; CallListModules]
                 logged_world)) as (_ & _ & H & _).
  apply (H (Some "17") (Some "secret") TECH_API_URL
           [CallModuleData "m"; CallListModules] eq_refl).
Defined.

(** * Properties of the thermostat entity *)

(** ** What [update_properties] leaves alone *)

Lemma and_then_keeps {A} (f : TechThermostat -> A) (s1 s2 : statement) :
  (forall th, f (snd (s1 th)) = f th) ->
  (forall th, f (snd (s2 th)) = f th) ->
  forall th, f (snd (and_then s1 s2 th)) = f th.
Proof.
  intros H1 H2 th. unfold and_then. specialize (H1 th).
  destruct (s1 th) as [[u|e] th']; simpl in *; [rewrite H2|]; exact H1.
Qed.

Lemma update_target_temperature_keeps {A} (f : TechThermostat -> A) zone_data :
  (forall v th, f (set_target_temperature v th) = f th) ->
  forall th, f (snd (update_target_temperature zone_data th)) = f th.
Proof.
  intros Hf th. unfold update_target_temperature.
  destruct (py_get zone_data ZONE_SET_TEMP JNull) as [set_temp|e]; [|reflexivity].
  destruct (negb (is_None set_temp)); [|apply Hf].
  destruct (py_get zone_data ZONE_DURING_CHANGE (JBool false)) as [dc|e]; [|reflexivity].
  destruct (negb (truthy dc)); [|reflexivity].
  destruct (py_truediv_10 set_temp); [apply Hf|reflexivity].
Qed.

Lemma update_current_temperature_keeps {A} (f : TechThermostat -> A) zone_data :
  (forall v th, f (set_temperature v th) = f th) ->
  forall th, f (snd (update_current_temperature zone_data th)) = f th.
Proof.
  intros Hf th. unfold update_current_temperature.
  destruct (py_get zone_data ZONE_CURRENT_TEMP JNull) as [current_temp|e]; [|reflexivity].
  destruct (negb (is_None current_temp)); [|apply Hf].
  destruct (py_truediv_10 current_temp); [apply Hf|reflexivity].
Qed.

Lemma update_humidity_keeps {A} (f : TechThermostat -> A) zone_data :
  (forall v th, f (set_humidity v th) = f th) ->
  forall th, f (snd (update_humidity zone_data th)) = f th.
Proof.
  intros Hf th. unfold update_humidity.
  destruct (py_get zone_data ZONE_HUMIDITY JNull) as [humidity|e]; [|reflexivity].
  destruct (negb (is_None humidity)); [|apply Hf].
  destruct (py_ge_0 humidity); [apply Hf|reflexivity].
Qed.

Lemma update_state_keeps {A} (f : TechThermostat -> A) zone_data :
  (forall v th, f (set_state v th) = f th) ->
  forall th, f (snd (update_state zone_data th)) = f th.
Proof.
  intros Hf th. unfold update_state.
  destruct (py_get zone_data ZONE_FLAGS (JObj [])) as [flags|e]; [|reflexivity].
  destruct (py_get flags ZONE_RELAY_STATE JNull) as [relay_state|e]; [|reflexivity].
  destruct (py_get flags ZONE_ALGORITHM JNull) as [algorithm|e]; [|reflexivity].
  apply Hf.
Qed.

Lemma update_mode_keeps {A} (f : TechThermostat -> A) zone_data :
  (forall v th, f (set_mode v th) = f th) ->
  forall th, f (snd (update_mode zone_data th)) = f th.
Proof.
  intros Hf th. unfold update_mode.
  destruct (py_get zone_data ZONE_STATE JNull) as [zone_state|e]; [|reflexivity].
  apply Hf.
Qed.

(** The statements after the one for the target temperature. *)
Lemma later_statements_keep {A} (f : TechThermostat -> A) zone_data :
  (forall v th, f (set_temperature v th) = f th) ->
  (forall v th, f (set_humidity v th) = f th) ->
  (forall v th, f (set_state v th) = f th) ->
  (forall v th, f (set_mode v th) = f th) ->
  forall th,
    f (snd (and_then (update_current_temperature zone_data)
              (and_then (update_humidity zone_data)
                 (and_then (update_state zone_data) (update_mode zone_data))) th))
    = f th.
Proof.
  intros H1 H2 H3 H4.
  apply and_then_keeps; [apply update_current_temperature_keeps, H1|].
  apply and_then_keeps; [apply update_humidity_keeps, H2|].
  apply and_then_keeps; [apply update_state_keeps, H3|].
  apply update_mode_keeps, H4.
Qed.

Lemma update_properties_keeps {A} (f : TechThermostat -> A) device :
  (forall v th, f (set_target_temperature v th) = f th) ->
  (forall v th, f (set_temperature v th) = f th) ->
  (forall v th, f (set_humidity v th) = f th) ->
  (forall v th, f (set_state v th) = f th) ->
  (forall v th, f (set_mode v th) = f th) ->
  forall th, f (snd (update_properties device th)) = f th.
Proof.
  intros H0 H1 H2 H3 H4 th. unfold update_properties.
  destruct (py_getitem device CONF_ZONE) as [zone_data|e]; [|reflexivity].
  revert th. apply and_then_keeps; [apply update_target_temperature_keeps, H0|].
  apply later_statements_keep; assumption.
Qed.

(** ** Tenths of a degree, there and back *)

Lemma tenths_round_trip_table :
  forallb tenths_round_trip (map Z.of_nat (seq 50 301)) = true.
Proof. vm_compute. reflexivity. Qed.

Lemma tenths_round_trip_in_bounds k : 50 <= k <= 350 -> tenths_round_trip k = true.
Proof.
  intros Hk. pose proof tenths_round_trip_table as Ht.
  rewrite forallb_forall in Ht. apply Ht.
  apply in_map_iff. exists (Z.to_nat k). split; [lia|]. apply in_seq. lia.
Qed.

(** X23: the entity shows the [setTemperature] of a zone divided by 10
    ([update_properties], unless the zone is [duringChange]).  For every
    number of tenths from 50 to 350, that is for every temperature with one
    decimal within the entity's bounds of 5 and 35 degrees, the shown value
    passes the bounds check of [async_set_temperature], and scaling it by 10
    and truncating, as [set_const_temp] does, gives the same number of
    tenths: setting the temperature that is shown posts the [setTemperature]
    that was read, without an error of rounding. *)
Theorem shown_temperature_round_trip (E : Env) (device : json)
  (fields : list (string * json)) (k : Z) (th : TechThermostat) (w : world)
  (zone_data mode mode_id : json) :
  py_getitem device CONF_ZONE = Ok (JObj fields) ->
  dict_get fields ZONE_SET_TEMP = Some (JInt k) ->
  (forall v, dict_get fields ZONE_DURING_CHANGE = Some v -> truthy v = false) ->
  50 <= k <= 350 ->
  let th' := snd (update_properties device th) in
  exists t,
    _target_temperature th' = Some t /\
    in_bounds t = true /\
    py_int (py_mul_10 t) = Ok k /\
    (truthy (authenticated (self w)) = true ->
     (exists zs, fst (get_module_zones E (_udid th) w) = Ok zs) ->
     zones_of (snd (get_module_zones E (_udid th) w)) (_udid th) !! KNum (_id th)
     = Some zone_data ->
     py_getitem zone_data "mode" = Ok mode ->
     py_getitem mode "id" = Ok mode_id ->
     sent (snd (async_set_temperature E (Some t) th' w))
     = (sent (snd (get_module_zones E (_udid th) w))
          ++ [mk_request (self w) POST (zones_path (self w) (_udid th))
                (Some (const_temp_body mode_id (_id th) k))])%list).
Proof.
  intros Hzone Hset Hdc Hk th'.
  pose proof (tenths_round_trip_in_bounds k Hk) as Hrt. unfold tenths_round_trip in Hrt.
  destruct (int_truediv_10 k) as [f|e] eqn:Hdiv; [|discriminate Hrt].
  apply andb_true_iff in Hrt as [Hin Hint].
  destruct (py_int (py_mul_10 (PyFloat f))) as [n|e] eqn:Hn; [|discriminate Hint].
  apply Z.eqb_eq in Hint. subst n.
  assert (Htarget : _target_temperature th' = Some (PyFloat f)).
  { unfold th', update_properties. rewrite Hzone. unfold and_then at 1.
    assert (Hfirst : update_target_temperature (JObj fields) th
                     = (Ok tt, set_target_temperature (Some (PyFloat f)) th)).
    { unfold update_target_temperature. simpl. rewrite Hset. simpl.
      destruct (dict_get fields ZONE_DURING_CHANGE) as [v|] eqn:Hv.
      - rewrite (Hdc v eq_refl). simpl. rewrite Hdiv. reflexivity.
      - simpl. rewrite Hdiv. reflexivity. }
    rewrite Hfirst. rewrite later_statements_keep; reflexivity. }
  assert (Hudid : _udid th' = _udid th) by (apply update_properties_keeps; reflexivity).
  assert (Hid : _id th' = _id th) by (apply update_properties_keeps; reflexivity).
  exists (PyFloat f). split_and!; [exact Htarget|exact Hin|exact Hn|].
  intros Ha [zs Hok] Hz Hmode Hmid.
  unfold async_set_temperature. rewrite Hin, Hudid, Hid. cbn [negb].
  rewrite (set_const_temp_run E (_udid th) (_id th) (PyFloat f) w Ha). cbv zeta.
  rewrite Hok, Hz, Hmode, Hmid, Hn.
  destruct (guarded_result _); reflexivity.
Qed.

Lemma shown_temperature_round_trip_witness :
  let device := JObj [("zone", JObj [("id", JInt 7); ("setTemperature", JInt 215)])] in
  exists t,
    _target_temperature (snd (update_properties device (new_thermostat 7))) = Some t /\
    in_bounds t = true /\
    py_int (py_mul_10 t) = Ok 215.
Proof.
  intros device.
  destruct (shown_temperature_round_trip (constant_env JNull) device
              [("id", JInt 7); ("setTemperature", JInt 215)] 215 (new_thermostat 7)
              logged_world JNull JNull JNull eq_refl eq_refl)
    as (t & Ht & Hin & Hint & _).
  - intros v Hv. discriminate Hv.
  - lia.
  - exists t. split_and!; assumption.
Defined.

(** ** The bounds of [async_set_temperature] *)

(** X24: [async_set_temperature] reaches the client only with a temperature
    that passes [min_temp <= temperature <= max_temp]: called without a
    temperature, with an integer below 5 or above 35, with an infinity or
    with NaN, it returns without sending anything, without changing the
    entity and without asking for a refresh.  With a temperature within the
    bounds the world is the one [set_const_temp] leaves; the entity takes
    the temperature as its target and a refresh is asked for only when the
    call returned, and an exception of the call leaves the entity as it
    was. *)
Theorem async_set_temperature_checks_bounds (E : Env) (temperature : option pynum)
  (th : TechThermostat) (w : world) :
  let out := async_set_temperature E temperature th w in
  (temperature = None \/
   (exists z, temperature = Some (PyInt z) /\ (z < 5 \/ 35 < z)) \/
   (exists s, temperature = Some (PyFloat (S754_infinity s))) \/
   temperature = Some (PyFloat S754_nan) ->
   out = ((Ok tt, th, false), w)) /\
  (forall t, temperature = Some t -> in_bounds t = true ->
     snd out = snd (set_const_temp E (_udid th) (_id th) t w) /\
     fst out
     = match fst (set_const_temp E (_udid th) (_id th) t w) with
       | Ok _ => (Ok tt, set_target_temperature (Some t) th, true)
       | Raise e => (Raise e, th, false)
       end) /\
  (forall z, 5 <= z <= 35 -> in_bounds (PyInt z) = true).
Proof.
  cbv zeta. split_and!.
  - intros [->|[(z & -> & Hz)|[(s & ->)| ->]]]; try reflexivity.
    + unfold async_set_temperature, in_bounds, DEFAULT_MIN_TEMP, DEFAULT_MAX_TEMP.
      destruct Hz as [Hz|Hz].
      * apply Z.leb_gt in Hz. rewrite Hz. reflexivity.
      * apply Z.leb_gt in Hz. rewrite Hz, andb_false_r. reflexivity.
    + destruct s; reflexivity.
  - intros t -> Hin. unfold async_set_temperature. rewrite Hin. cbn [negb].
    destruct (set_const_temp E (_udid th) (_id th) t w) as [[v|e] w']; split; reflexivity.
  - intros z Hz. unfold in_bounds, DEFAULT_MIN_TEMP, DEFAULT_MAX_TEMP.
    apply andb_true_iff. split; apply Z.leb_le; lia.
Qed.

Lemma async_set_temperature_checks_bounds_witness :
  async_set_temperature (constant_env JNull) (Some (PyInt 36)) (new_thermostat 7)
    logged_world
  = ((Ok tt, new_thermostat 7, false), logged_world).
Proof.
  apply (async_set_temperature_checks_bounds (constant_env JNull) (Some (PyInt 36))
           (new_thermostat 7) logged_world).
  right. left. exists 36. split; [reflexivity|lia].
Defined.

(** ** The entity of a cached zone *)

Lemma zone_test_shape zone :
  zone_test zone = Ok true ->
  exists fields sub, zone = JObj fields /\ dict_get fields "zone" = Some (JObj sub).
Proof.
  unfold zone_test, rbind.
  destruct zone as [| | | |s|l|fields]; simpl; try discriminate.
  - destruct (is_substring "zone" s); simpl; discriminate.
  - destruct (existsb (is_str "zone") l); simpl; discriminate.
  - destruct (dict_get fields "zone") as [z|] eqn:Hz; simpl; [|discriminate].
    destruct z as [| | | |s|l|sub]; simpl; try discriminate.
    + destruct (is_substring "visibility" s); simpl; discriminate.
    + destruct (existsb (is_str "visibility") l); simpl; discriminate.
    + intros _. eauto.
Qed.

Lemma py_truediv_10_raises x e :
  py_truediv_10 x = Raise e -> e = TypeError \/ e = OverflowError.
Proof.
  assert (Hint : forall z, int_truediv_10 z = Raise e -> e = OverflowError).
  { intros z. unfold int_truediv_10.
    destruct z as [|p|p]; [discriminate| |];
      destruct (SFdiv prec emax _ float_ten); try discriminate;
      intros [= <-]; reflexivity. }
  destruct x; simpl; try (intros [= <-]; left; reflexivity);
    try discriminate; intros H; right; eapply Hint, H.
Qed.

Lemma py_ge_0_raises x e : py_ge_0 x = Raise e -> e = TypeError.
Proof. destruct x; simpl; try discriminate; intros [= <-]; reflexivity. Qed.

Lemma py_get_raises v k d e : py_get v k d = Raise e -> e = AttributeError.
Proof.
  destruct v as [| | | | | |fields]; simpl; try (intros [= <-]; reflexivity).
  destruct (dict_get fields k); discriminate.
Qed.

(** The exceptions of arithmetic and of [.get] on a value of the wrong
    type. *)
Lemma and_then_raises (P : exn -> Prop) (s1 s2 : statement) :
  (forall th e, fst (s1 th) = Raise e -> P e) ->
  (forall th e, fst (s2 th) = Raise e -> P e) ->
  forall th e, fst (and_then s1 s2 th) = Raise e -> P e.
Proof.
  intros H1 H2 th e. unfold and_then. specialize (H1 th).
  destruct (s1 th) as [[u|e1] th']; simpl in *; [apply H2|].
  intros [= <-]. apply H1. reflexivity.
Qed.

Lemma update_statements_raise sub th e :
  fst (and_then (update_target_temperature (JObj sub))
         (and_then (update_current_temperature (JObj sub))
            (and_then (update_humidity (JObj sub))
               (and_then (update_state (JObj sub)) (update_mode (JObj sub))))) th)
  = Raise e ->
  e = TypeError \/ e = OverflowError \/ e = AttributeError.
Proof.
  revert th e.
  apply and_then_raises; [|apply and_then_raises; [|apply and_then_raises;
    [|apply and_then_raises]]]; intros th e.
  - unfold update_target_temperature. simpl.
    destruct (dict_get sub ZONE_SET_TEMP) as [set_temp|]; simpl; [|discriminate].
    destruct (negb (is_None set_temp)); [|discriminate].
    destruct (dict_get sub ZONE_DURING_CHANGE) as [dc|]; simpl.
    + destruct (negb (truthy dc)); [|discriminate].
      destruct (py_truediv_10 set_temp) eqn:Hd; [discriminate|].
      intros [= <-]. apply py_truediv_10_raises in Hd. tauto.
    + destruct (py_truediv_10 set_temp) eqn:Hd; [discriminate|].
      intros [= <-]. apply py_truediv_10_raises in Hd. tauto.
  - unfold update_current_temperature. simpl.
    destruct (dict_get sub ZONE_CURRENT_TEMP) as [current_temp|]; simpl; [|discriminate].
    destruct (negb (is_None current_temp)); [|discriminate].
    destruct (py_truediv_10 current_temp) eqn:Hd; [discriminate|].
    intros [= <-]. apply py_truediv_10_raises in Hd. tauto.
  - unfold update_humidity. simpl.
    destruct (dict_get sub ZONE_HUMIDITY) as [humidity|]; simpl; [|discriminate].
    destruct (negb (is_None humidity)); [|discriminate].
    destruct (py_ge_0 humidity) eqn:Hd; [discriminate|].
    intros [= <-]. apply py_ge_0_raises in Hd. tauto.
  - unfold update_state.
    destruct (py_get (JObj sub) ZONE_FLAGS (JObj [])) as [flags|e0] eqn:H0;
      [|intros [= <-]; apply py_get_raises in H0; tauto].
    destruct (py_get flags ZONE_RELAY_STATE JNull) as [relay_state|e0] eqn:H1;
      [|intros [= <-]; apply py_get_raises in H1; tauto].
    destruct (py_get flags ZONE_ALGORITHM JNull) as [algorithm|e0] eqn:H2;
      [discriminate|intros [= <-]; apply py_get_raises in H2; tauto].
  - unfold update_mode. simpl. destruct (dict_get sub ZONE_STATE); discriminate.
Qed.

(** X25: a zone that passed the test of [_filter_zones], as every cached
    zone has, is an object whose ["zone"] is an object, so that
    [update_properties] reads it without [KeyError]: it returns, or raises
    [TypeError] or [OverflowError] (a [setTemperature], [currentTemperature]
    or [humidity] that is no number, or too large an integer) or
    [AttributeError] (a [flags] that is no object).  It never changes the
    module and the zone id of the entity, and when it returns the mode is
    HEAT exactly when [zoneState] is the string ["zoneOn"] or ["noAlarm"]. *)
Theorem update_properties_on_cached_zone (zone : json) (th : TechThermostat) :
  zone_test zone = Ok true ->
  let out := update_properties zone th in
  (forall e, fst out = Raise e ->
             e = TypeError \/ e = OverflowError \/ e = AttributeError) /\
  _udid (snd out) = _udid th /\
  _id (snd out) = _id th /\
  (fst out = Ok tt ->
   exists sub,
     py_getitem zone CONF_ZONE = Ok (JObj sub) /\
     (_mode (snd out) = HVACMode_HEAT <->
      dict_get sub ZONE_STATE = Some (JStr "zoneOn") \/
      dict_get sub ZONE_STATE = Some (JStr "noAlarm"))).
Proof.
  intros Hvalid out.
  destruct (zone_test_shape zone Hvalid) as (fields & sub & -> & Hsub).
  assert (Hzone : py_getitem (JObj fields) CONF_ZONE = Ok (JObj sub)).
  { unfold py_getitem, CONF_ZONE. rewrite Hsub. reflexivity. }
  split_and!.
  - intros e. unfold out, update_properties. rewrite Hzone.
    apply update_statements_raise.
  - apply update_properties_keeps; reflexivity.
  - apply update_properties_keeps; reflexivity.
  - intros Hok. exists sub. split; [exact Hzone|].
    revert Hok. unfold out, update_properties. rewrite Hzone.
    unfold and_then.
    destruct (update_target_temperature (JObj sub) th) as [[u|e] th1]; [|discriminate].
    destruct (update_current_temperature (JObj sub) th1) as [[u1|e] th2]; [|discriminate].
    destruct (update_humidity (JObj sub) th2) as [[u2|e] th3]; [|discriminate].
    destruct (update_state (JObj sub) th3) as [[u3|e] th4]; [|discriminate].
    unfold update_mode. simpl. intros _.
    destruct (dict_get sub ZONE_STATE) as [zs|] eqn:Hzs; simpl.
    + destruct zs as [| | | |s| |]; simpl;
        try (split; [discriminate|intros [H|H]; discriminate H]).
      destruct (String.eqb s ZONE_ON) eqn:H1; simpl.
      * apply String.eqb_eq in H1. subst s. split; [intros _; left; reflexivity|reflexivity].
      * destruct (String.eqb s NO_ALARM) eqn:H2; simpl.
        -- apply String.eqb_eq in H2. subst s.
           split; [intros _; right; reflexivity|reflexivity].
        -- split; [discriminate|].
           intros [[= ->]|[= ->]]; [rewrite String.eqb_refl in H1; discriminate H1|
                                     rewrite String.eqb_refl in H2; discriminate H2].
    + split; [discriminate|intros [H|H]; discriminate H].
Qed.

Lemma update_properties_on_cached_zone_witness :
  _id (snd (update_properties (example_zone 7) (new_thermostat 7))) = 7.
Proof.
  apply (update_properties_on_cached_zone (example_zone 7) (new_thermostat 7)).
  reflexivity.
Defined.
